(** * supershake: the recipe, the penalty model and the hill-climbing search

    A shallow embedding of [main.go]: the [Recipe] operations
    ([NewRecipe], [AddFood], [RemoveFood], [Clone], [AssertConsistency]),
    the penalty model ([calcPenalty], [Score]) and the search loop of
    [main].

    - Go's [int] is the 64-bit two's complement integer of the 64-bit
      targets: a [Z] whose arithmetic wraps ([Int.wrap]).
    - Go's [float64] is IEEE 754 binary64, here Rocq's primitive [float]
      (same format, round to nearest even).  The recipe operations only
      add, subtract, multiply and convert from [int]; they are written
      once over the interface [Num], whose instance [binary64] is the
      program as compiled, and whose exact instances describe the
      arithmetic without rounding.
    - A [panic] is the outcome [Panic msg].
    - Go maps are reference values: the section [Memory] keeps them in a
      store, so that sharing between two recipes would be visible. *)

From Stdlib Require Import ZArith Lia Floats.
From stdpp Require Import gmap strings list fin_maps.

Local Open Scope Z_scope.

(** ** Go's [int] *)

Module Int.

Definition min_int : Z := - 2 ^ 63.
Definition max_int : Z := 2 ^ 63 - 1.

Definition in_range (z : Z) : Prop := min_int <= z <= max_int.

(** The value an [int] computation keeps of the mathematical result. *)
Definition wrap (z : Z) : Z := (z + 2 ^ 63) mod 2 ^ 64 - 2 ^ 63.

Definition add (a b : Z) : Z := wrap (a + b).
Definition sub (a b : Z) : Z := wrap (a - b).

End Int.

(** ** The arithmetic of [float64] the recipe uses *)

Class Num (F : Type) := {
  fzero : F;
  fadd : F -> F -> F;
  fsub : F -> F -> F;
  fmul : F -> F -> F;
  of_int : Z -> F   (* the conversion [float64(n)] *)
}.

(** [float64(n)]: the binary64 value nearest to [n], ties to even. *)
Definition float64_of_int (n : Z) : float :=
  SF2Prim (binary_normalize prec emax n 0 false).

(** The program as compiled for amd64: every operation rounds once, and
    a product is rounded before it is added (no fused multiply-add). *)
#[export] Instance binary64 : Num float := {|
  fzero := 0%float;
  fadd := PrimFloat.add;
  fsub := PrimFloat.sub;
  fmul := PrimFloat.mul;
  of_int := float64_of_int
|}.

(** Arithmetic without rounding, on integers. *)
Definition exactZ : Num Z := {|
  fzero := 0;
  fadd := Z.add;
  fsub := Z.sub;
  fmul := Z.mul;
  of_int := fun n => n
|}.

(** What it means for a [Num] to compute without rounding: addition is a
    commutative group whose difference is [fsub], multiplication
    distributes over it, and the conversion from [int] is additive. *)
Record Exact {F : Type} (N : Num F) : Prop := {
  exact_add_comm : forall x y : F, fadd x y = fadd y x;
  exact_add_assoc : forall x y z : F, fadd x (fadd y z) = fadd (fadd x y) z;
  exact_add_zero : forall x : F, fadd x fzero = x;
  exact_sub_add : forall x y : F, fadd (fsub x y) y = x;
  exact_mul_add_l : forall x y z : F, fmul x (fadd y z) = fadd (fmul x y) (fmul x z);
  exact_mul_add_r : forall x y z : F, fmul (fadd x y) z = fadd (fmul x z) (fmul y z);
  exact_of_int_add : forall a b : Z, of_int (a + b) = fadd (of_int a) (of_int b)
}.

(** ** The penalty primitive *)

Section Penalty.

Local Open Scope float_scope.

(** [calcPenalty]; [nutrientName] and [verbose] only feed the trace
    that [verbose] prints. *)
Definition calcPenalty (nutrientName : string) (amount min max : float)
    (verbose : bool) : float :=
  if amount <? min then
    (min - amount) / min * 100
  else
    if negb (max =? 0) then
      let minMaxMidpoint := min + (max - min) / 2 in
      if amount <? minMaxMidpoint then 0
      else
        let overBy := amount - minMaxMidpoint in
        (overBy / (max - minMaxMidpoint)) * 100
    else 0.

End Penalty.

(** ** Outcomes: a value, or a [panic] *)

Inductive outcome (A : Type) : Type :=
  | Ok (a : A)
  | Panic (msg : string).

Arguments Ok {A} a.
Arguments Panic {A} msg.

#[export] Instance outcome_ret : MRet outcome := fun A a => Ok a.

#[export] Instance outcome_bind : MBind outcome := fun A B k m =>
  match m with
  | Ok a => k a
  | Panic msg => Panic msg
  end.

(** ** The catalog *)

Section Catalog.

Context {F : Type}.

Record Nutrient : Type := {
  nutrient_id : Z;
  nutrient_units : string;
  nutrient_description : string
}.

Record NutrientInFood : Type := {
  nutrient : Nutrient;
  amountPerG : F
}.

Record Food : Type := {
  food_id : Z;
  foodGroup : string;
  food_description : string;
  manufacturer : string;
  nutrients : list NutrientInFood
}.

Record Recipe : Type := {
  nutrientTotals : gmap Z F;   (* nutrient id -> total quantity *)
  foodQuantities : gmap Z Z    (* food id -> number of grams *)
}.

End Catalog.

Arguments NutrientInFood F : clear implicits.
Arguments Food F : clear implicits.
Arguments Recipe F : clear implicits.

(** ** The recipe *)

Section RecipeOps.

Context {F : Type} {N : Num F}.

(** [m[k]] on a [map[int]float64]: the zero value when [k] is absent. *)
Definition get (m : gmap Z F) (k : Z) : F := default fzero (m !! k).

(** [AssertConsistency]: the whole body is commented out in the source,
    so the call returns at once, whatever the recipe. *)
Definition AssertConsistency (recipe : Recipe F) (allFoods : gmap Z (Food F))
    : outcome unit :=
  Ok tt.

(** [NewRecipe]: a zero total for every nutrient of the catalog, and no
    food. *)
Definition NewRecipe (allFoods : gmap Z (Food F)) (allNutrients : gmap Z Nutrient)
    : outcome (Recipe F) :=
  let recipe := {| nutrientTotals := (fun _ => fzero) <$> allNutrients;
                   foodQuantities := ∅ |} in
  AssertConsistency recipe allFoods ;;
  Ok recipe.

Definition HasFood (recipe : Recipe F) (food : Food F) : bool :=
  bool_decide (is_Some (foodQuantities recipe !! food_id food)).

(** The loop over [food.nutrients] of [AddFood] ([op] is [fadd]) and of
    [RemoveFood] ([op] is [fsub]): [totals[id] op= amountPerG * float64(q)],
    in the order of the slice. *)
Definition updateTotals (op : F -> F -> F) (quantity : Z)
    (totals : gmap Z F) (ns : list (NutrientInFood F)) : gmap Z F :=
  foldl (fun totals nutrientInFood =>
           let nutrientId := nutrient_id (nutrient nutrientInFood) in
           let amount := fmul (amountPerG nutrientInFood) (of_int quantity) in
           <[nutrientId := op (get totals nutrientId) amount]> totals)
        totals ns.

Definition AddFood (allFoods : gmap Z (Food F)) (food : Food F)
    (quantityToAdd : Z) (recipe : Recipe F) : outcome (Recipe F) :=
  AssertConsistency recipe allFoods ;;
  let quantities :=
    match foodQuantities recipe !! food_id food with
    | Some originalQuantity =>
        <[food_id food := Int.add originalQuantity quantityToAdd]>
          (foodQuantities recipe)
    | None => <[food_id food := quantityToAdd]> (foodQuantities recipe)
    end in
  let recipe' :=
    {| nutrientTotals :=
         updateTotals fadd quantityToAdd (nutrientTotals recipe) (nutrients food);
       foodQuantities := quantities |} in
  AssertConsistency recipe' allFoods ;;
  Ok recipe'.

Definition RemoveFood (allFoods : gmap Z (Food F)) (food : Food F)
    (quantityToRemove : Z) (recipe : Recipe F) : outcome (Recipe F) :=
  AssertConsistency recipe allFoods ;;
  match foodQuantities recipe !! food_id food with
  | None => Panic "Asked to remove food that is not in recipe"
  | Some originalQuantity =>
      if quantityToRemove >? originalQuantity then
        Panic "Asked to remove more food than is in recipe"
      else
        let quantities :=
          if quantityToRemove =? originalQuantity then
            delete (food_id food) (foodQuantities recipe)
          else
            let newQuantity := Int.sub originalQuantity quantityToRemove in
            <[food_id food := newQuantity]> (foodQuantities recipe) in
        let recipe' :=
          {| nutrientTotals :=
               updateTotals fsub quantityToRemove (nutrientTotals recipe)
                            (nutrients food);
             foodQuantities := quantities |} in
        AssertConsistency recipe' allFoods ;;
        Ok recipe'
  end.

(** [Clone]: a new recipe from [NewRecipe], into which every entry of
    both maps is copied (a copied entry replaces the zero that
    [NewRecipe] put there). *)
Definition Clone (allFoods : gmap Z (Food F)) (allNutrients : gmap Z Nutrient)
    (recipe : Recipe F) : outcome (Recipe F) :=
  AssertConsistency recipe allFoods ;;
  newRecipe ← NewRecipe allFoods allNutrients ;
  let newRecipe' :=
    {| nutrientTotals := nutrientTotals recipe ∪ nutrientTotals newRecipe;
       foodQuantities := foodQuantities recipe ∪ foodQuantities newRecipe |} in
  AssertConsistency newRecipe' allFoods ;;
  Ok newRecipe'.

End RecipeOps.

(** ** The penalty model *)

Set Warnings "-inexact-float".

Section PenaltyModel.

Local Open Scope float_scope.

(** [nutrientNameToId[name]]: id 0 when the catalog has no such name. *)
Definition idOf (nutrientNameToId : gmap string Z) (name : string) : Z :=
  default 0%Z (nutrientNameToId !! name).

Definition calculatePenaltyForNutrient (recipe : Recipe float)
    (nutrientNameToId : gmap string Z) (nutrientName : string)
    (min max : float) (verbose : bool) : float :=
  let nutrientId := idOf nutrientNameToId nutrientName in
  let amount := get (nutrientTotals recipe) nutrientId in
  calcPenalty nutrientName amount min max verbose.

(** The calls [penalty += recipe.calculatePenaltyForNutrient(...)] of
    [Score], in the order of the source: name, min, max (0: no max). *)
Definition targets : list (string * float * float) :=
  [ ("Total lipid (fat)", 60, 300);
    ("Energy, kcal", 2700, 10000);
    ("Protein", 101.5, 3510);
    ("Fiber, total dietary", 38, 0);
    ("Calcium, Ca", 1000, 2500);
    ("Iron, Fe", 8, 45);
    ("Magnesium, Mg", 400, 0);
    ("Phosphorus, P", 700, 4000);
    ("Potassium, K", 4700, 0);
    ("Sodium, Na", 1500, 2300);
    ("Zinc, Zn", 11, 40);
    ("Copper, Cu", 0.9, 10);
    ("Manganese, Mn", 2.3, 11);
    ("Selenium, Se", 55, 400);
    ("Vitamin A, RAE", 900, 1500);
    ("Vitamin E (alpha-tocopherol)", 15, 1000);
    ("Lutein + zeaxanthin", 12000, 0);
    ("Vitamin C, total ascorbic acid", 90, 2000);
    ("Thiamin", 1.2, 0);
    ("Riboflavin", 1.3, 0);
    ("Niacin", 16, 35);
    ("Pantothenic acid", 5, 0);
    ("Vitamin B-6", 1.3, 100);
    ("Vitamin B-12", 2.4, 0);
    ("Choline, total", 550, 3500);
    ("Vitamin K (phylloquinone)", 120, 0);
    ("Lysine", 1.95, 0);
    ("Leucine", 2.535, 0);
    ("Methionine", 0.65, 0);
    ("Cystine", 0.26, 0);
    ("Valine", 1.69, 0);
    ("Histidine", 0.65, 0);
    ("Tryptophan", 0.26, 0);
    ("Threonine", 0.975, 0);
    ("Isoleucine", 1.3, 0);
    ("18:3 n-3 c,c,c (ALA)", 1.6, 0);
    ("20:5 n-3 (EPA)", 1.6, 0);
    ("22:6 n-3 (DHA)", 1.6, 0);
    ("Water", 946, 0) ].

(** Go's [math.Min], with its special cases for [-Inf], [NaN] and the
    signed zeros. *)
Definition math_Min (x y : float) : float :=
  if (x =? neg_infinity) || (y =? neg_infinity) then neg_infinity
  else if is_nan x || is_nan y then nan
  else if (x =? 0) && (x =? y) then (if get_sign x then x else y)
  else if x <? y then x else y.

(** [numFoods]: the entries whose grams are not 0. *)
Definition numFoods (quantities : gmap Z Z) : Z :=
  map_fold (fun _ grams n => if grams =? 0 then n else Int.add n 1)%Z 0%Z quantities.

(** [totalMass]: the sum of the grams, in [int]. *)
Definition totalMass (quantities : gmap Z Z) : Z :=
  map_fold (fun _ grams total => Int.add total grams) 0%Z quantities.

Definition Score (nutrients : gmap Z Nutrient) (allFoods : gmap Z (Food float))
    (nutrientNameToId : gmap string Z) (verbose : bool) (recipe : Recipe float)
    : outcome float :=
  AssertConsistency recipe allFoods ;;
  let penalty := 0 in
  let penalty :=
    foldl (fun penalty '(name, min, max) =>
             penalty + calculatePenaltyForNutrient recipe nutrientNameToId
                         name min max verbose)
          penalty targets in
  (* 1.625g <= Phenylalanine + Tyrosine *)
  let amountPhenylalanine :=
    get (nutrientTotals recipe) (idOf nutrientNameToId "Phenylalanine") in
  let amountTyrosine :=
    get (nutrientTotals recipe) (idOf nutrientNameToId "Tyrosine") in
  let pt := amountPhenylalanine + amountTyrosine in
  let penalty := penalty + calcPenalty "Phenylalanine + Tyrosine" pt 1.625 0 verbose in
  (* 400 <= Folate, DFE <= 1000 *)
  let foodFolate := get (nutrientTotals recipe) (idOf nutrientNameToId "Folate, food") in
  let folicAcid := get (nutrientTotals recipe) (idOf nutrientNameToId "Folic acid") in
  let folateDFE := foodFolate + (1.7 * folicAcid) in
  let penalty := penalty + calcPenalty "Folate" folateDFE 400 1000 verbose in
  (* Caffeine should be reduced *)
  let caffeine := get (nutrientTotals recipe) (idOf nutrientNameToId "Caffeine") in
  let penalty :=
    if 20 <? caffeine then
      let caffeinePenalty := caffeine - 5 in penalty + caffeinePenalty
    else penalty in
  (* Dihydrophylloquinone is linked to low bone density *)
  let penalty :=
    penalty + get (nutrientTotals recipe) (idOf nutrientNameToId "Dihydrophylloquinone") in
  (* Penalize by number of non-zero components *)
  let numFoodsPenalty :=
    math_Min (float64_of_int (numFoods (foodQuantities recipe)) / 100) 1 * 10 in
  let penalty := penalty + numFoodsPenalty in
  (* Penalize more matter *)
  let massPenalty :=
    math_Min (float64_of_int (totalMass (foodQuantities recipe)) / 3000) 1 * 10 in
  let penalty := penalty + massPenalty in
  Ok penalty.

End PenaltyModel.

(** ** Recipes in memory

    A Go map is a reference: [make] returns a new one, and assigning
    through any reference to it changes what every other reference
    reads.  The store keeps the maps the program has made; a [*Recipe]
    is the pair of references its struct holds. *)

Section Memory.

Context {F : Type} {N : Num F}.

Record store : Type := {
  floatMaps : gmap positive (gmap Z F);
  intMaps : gmap positive (gmap Z Z)
}.

Record recipeRef : Type := {
  nutrientTotalsRef : positive;
  foodQuantitiesRef : positive
}.

(** Two recipes that hold different maps. *)
Definition separate (r c : recipeRef) : Prop :=
  nutrientTotalsRef r <> nutrientTotalsRef c
  /\ foodQuantitiesRef r <> foodQuantitiesRef c.

(** What a recipe's two maps hold. *)
Definition load (σ : store) (r : recipeRef) : option (Recipe F) :=
  totals ← floatMaps σ !! nutrientTotalsRef r;
  quantities ← intMaps σ !! foodQuantitiesRef r;
  Some {| nutrientTotals := totals; foodQuantities := quantities |}.

(** Assignments through the recipe's references. *)
Definition write (σ : store) (r : recipeRef) (recipe : Recipe F) : store :=
  {| floatMaps := <[nutrientTotalsRef r := nutrientTotals recipe]> (floatMaps σ);
     intMaps := <[foodQuantitiesRef r := foodQuantities recipe]> (intMaps σ) |}.

(** The two [make] calls of [NewRecipe]. *)
Definition NewRecipeAt (σ : store) (allFoods : gmap Z (Food F))
    (allNutrients : gmap Z Nutrient) : outcome (store * recipeRef) :=
  let r := {| nutrientTotalsRef := fresh (dom (floatMaps σ));
              foodQuantitiesRef := fresh (dom (intMaps σ)) |} in
  recipe ← NewRecipe allFoods allNutrients ;
  Ok (write σ r recipe, r).

(** A method that assigns into the maps of its receiver. *)
Definition mutateAt (method : Recipe F -> outcome (Recipe F))
    (σ : store) (r : recipeRef) : outcome store :=
  match load σ r with
  | None => Panic "assignment to entry in nil map"
  | Some recipe => recipe' ← method recipe ; Ok (write σ r recipe')
  end.

Definition AddFoodAt (σ : store) (r : recipeRef) (allFoods : gmap Z (Food F))
    (food : Food F) (quantityToAdd : Z) : outcome store :=
  mutateAt (AddFood allFoods food quantityToAdd) σ r.

Definition RemoveFoodAt (σ : store) (r : recipeRef) (allFoods : gmap Z (Food F))
    (food : Food F) (quantityToRemove : Z) : outcome store :=
  mutateAt (RemoveFood allFoods food quantityToRemove) σ r.

(** [Clone] in memory: [NewRecipe] makes the maps of the new recipe, and
    the two loops assign every entry of the receiver's maps into them. *)
Definition CloneAt (σ : store) (r : recipeRef) (allFoods : gmap Z (Food F))
    (allNutrients : gmap Z Nutrient) : outcome (store * recipeRef) :=
  match load σ r with
  | None => Panic "nil map"
  | Some recipe =>
      AssertConsistency recipe allFoods ;;
      '(σ1, newRecipe) ← NewRecipeAt σ allFoods allNutrients ;
      match load σ1 r, load σ1 newRecipe with
      | Some recipe1, Some new =>
          let new' :=
            {| nutrientTotals := nutrientTotals recipe1 ∪ nutrientTotals new;
               foodQuantities := foodQuantities recipe1 ∪ foodQuantities new |} in
          AssertConsistency new' allFoods ;;
          Ok (write σ1 newRecipe new', newRecipe)
      | _, _ => Panic "nil map"
      end
  end.

(** A call of one of the two mutating methods, and a sequence of them on
    one recipe. *)
Inductive mutation : Type :=
  | CallAddFood (food : Food F) (grams : Z)
  | CallRemoveFood (food : Food F) (grams : Z).

Definition callAt (allFoods : gmap Z (Food F)) (r : recipeRef) (σ : store)
    (m : mutation) : outcome store :=
  match m with
  | CallAddFood food grams => AddFoodAt σ r allFoods food grams
  | CallRemoveFood food grams => RemoveFoodAt σ r allFoods food grams
  end.

Fixpoint callsAt (allFoods : gmap Z (Food F)) (r : recipeRef) (σ : store)
    (ms : list mutation) : outcome store :=
  match ms with
  | [] => Ok σ
  | m :: ms => σ' ← callAt allFoods r σ m ; callsAt allFoods r σ' ms
  end.

End Memory.

Arguments store F : clear implicits.
Arguments mutation F : clear implicits.

(** ** The search loop of [main] *)

(** A [for ... range] loop whose body may panic. *)
Fixpoint forEach {A S : Type} (body : S -> A -> outcome S) (s : S) (l : list A)
    : outcome S :=
  match l with
  | [] => Ok s
  | a :: l => s' ← body s a ; forEach body s' l
  end.

Definition STEPSIZE : Z := 5.

(** The variables of one round. *)
Record round : Type := {
  currentRecipe : Recipe float;
  bestRecipeThisRound : option (Recipe float);   (* [None]: the nil pointer *)
  bestScoreThisRound : float
}.

(** How the loop stands: still searching, stopped at a round without a
    better neighbour, or stopped because the score is not above 0. *)
Inductive status : Type :=
  | Searching
  | LocalMaxima
  | ScoreNotPositive.

Record run : Type := {
  printed : list float;   (* the "Best score ever" lines, oldest first *)
  bestRecipeEver : Recipe float;
  bestScoreEver : float;
  state : status
}.

Section Search.

Variable allNutrients : gmap Z Nutrient.
Variable nutrientNameToId : gmap string Z.
Variable allFoods : gmap Z (Food float).

Local Open Scope float_scope.

(** Score the current recipe and keep a clone of it when it is better
    than the best of this round. *)
Definition scoreTrial (st : round) : outcome round :=
  newScore ← Score allNutrients allFoods nutrientNameToId false (currentRecipe st) ;
  if newScore <? bestScoreThisRound st then
    best ← Clone allFoods allNutrients (currentRecipe st) ;
    Ok {| currentRecipe := currentRecipe st;
          bestRecipeThisRound := Some best;
          bestScoreThisRound := newScore |}
  else Ok st.

Definition setCurrent (st : round) (recipe : Recipe float) : round :=
  {| currentRecipe := recipe;
     bestRecipeThisRound := bestRecipeThisRound st;
     bestScoreThisRound := bestScoreThisRound st |}.

(** The first half of the body of [for _, food := range allFoods]:
    try removing. *)
Definition tryRemoving (st : round) (food : Food float) : outcome round :=
  if HasFood (currentRecipe st) food then
    removed ← RemoveFood allFoods food STEPSIZE (currentRecipe st) ;
    st ← scoreTrial (setCurrent st removed) ;
    (* always undo *)
    undone ← AddFood allFoods food STEPSIZE (currentRecipe st) ;
    Ok (setCurrent st undone)
  else Ok st.

(** The second half: try adding. *)
Definition tryAdding (st : round) (food : Food float) : outcome round :=
  added ← AddFood allFoods food STEPSIZE (currentRecipe st) ;
  st ← scoreTrial (setCurrent st added) ;
  (* always undo *)
  undone ← RemoveFood allFoods food STEPSIZE (currentRecipe st) ;
  Ok (setCurrent st undone).

(** The body of [for _, food := range allFoods]. *)
Definition tryFood (st : round) (food : Food float) : outcome round :=
  st ← tryRemoving st food ;
  tryAdding st food.

(** One round, up to the end of the loop over the foods; [foods] is the
    order in which [range] yields the catalog this time. *)
Definition searchRound (foods : list (Food float)) (bestRecipeEver : Recipe float)
    (bestScoreEver : float) : outcome round :=
  currentRecipe ← Clone allFoods allNutrients bestRecipeEver ;
  forEach tryFood
    {| currentRecipe := currentRecipe;
       bestRecipeThisRound := None;
       bestScoreThisRound := bestScoreEver |}
    foods.

(** The end of a round: stop at a local maximum, or take the best of the
    round as the best ever. *)
Definition endOfRound (r : run) (st : round) : outcome run :=
  match bestRecipeThisRound st with
  | None =>
      Score allNutrients allFoods nutrientNameToId true (bestRecipeEver r) ;;
      Ok {| printed := printed r;
            bestRecipeEver := bestRecipeEver r;
            bestScoreEver := bestScoreEver r;
            state := LocalMaxima |}
  | Some best =>
      if bestScoreEver r <? bestScoreThisRound st then Panic "wtf"
      else Ok {| printed := printed r;
                 bestRecipeEver := best;
                 bestScoreEver := bestScoreThisRound st;
                 state := Searching |}
  end.

(** [for bestScoreEver > 0 { ... }], for at most [rounds] rounds;
    [order k] is the order of the catalog in round [k]. *)
Fixpoint search (rounds : nat) (order : nat -> list (Food float)) (k : nat)
    (r : run) : outcome run :=
  if 0 <? bestScoreEver r then
    match rounds with
    | O => Ok r
    | S rounds =>
        let r := {| printed := printed r ++ [bestScoreEver r];
                    bestRecipeEver := bestRecipeEver r;
                    bestScoreEver := bestScoreEver r;
                    state := Searching |} in
        st ← searchRound (order k) (bestRecipeEver r) (bestScoreEver r) ;
        r ← endOfRound r st ;
        match state r with
        | Searching => search rounds order (S k) r
        | _ => Ok r
        end
    end
  else Ok {| printed := printed r;
             bestRecipeEver := bestRecipeEver r;
             bestScoreEver := bestScoreEver r;
             state := ScoreNotPositive |}.

Definition main (rounds : nat) (order : nat -> list (Food float)) : outcome run :=
  bestRecipeEver ← NewRecipe allFoods allNutrients ;
  bestScoreEver ← Score allNutrients allFoods nutrientNameToId false bestRecipeEver ;
  search rounds order 0
    {| printed := [];
       bestRecipeEver := bestRecipeEver;
       bestScoreEver := bestScoreEver;
       state := Searching |}.

End Search.

(** ** What the totals are meant to be *)

Section Totals.

Context {F : Type} {N : Num F}.

(** The amounts per gram a food lists for one nutrient (the data has
    one, the type allows several). *)
Definition amountsOf (nutrientId : Z) (ns : list (NutrientInFood F)) : list F :=
  amountPerG <$>
    filter (fun n : NutrientInFood F => nutrient_id (nutrient n) = nutrientId) ns.

(** The amount per gram of a nutrient in a food of the catalog. *)
Definition amountPerGram (allFoods : gmap Z (Food F)) (foodId nutrientId : Z) : F :=
  match allFoods !! foodId with
  | Some food => foldl fadd fzero (amountsOf nutrientId (nutrients food))
  | None => fzero
  end.

(** The sum, over the food quantities, of grams times amount per gram. *)
Definition recomputedTotal (allFoods : gmap Z (Food F)) (quantities : gmap Z Z)
    (nutrientId : Z) : F :=
  map_fold (fun foodId grams total =>
              fadd total (fmul (amountPerGram allFoods foodId nutrientId)
                               (of_int grams)))
           fzero quantities.

(** The recipes built from [NewRecipe] by calls of [AddFood] and calls
    of [RemoveFood] that return, with foods of the catalog and positive
    grams.  [fits] is asked of the grams a food gets to (before [int]
    keeps them): always true when nothing is asked. *)
Inductive built (fits : Z -> Prop) (allFoods : gmap Z (Food F))
    (allNutrients : gmap Z Nutrient) : Recipe F -> Prop :=
  | built_new recipe :
      NewRecipe allFoods allNutrients = Ok recipe ->
      built fits allFoods allNutrients recipe
  | built_add recipe food grams recipe' :
      built fits allFoods allNutrients recipe ->
      allFoods !! food_id food = Some food ->
      0 < grams ->
      fits (default 0 (foodQuantities recipe !! food_id food) + grams) ->
      AddFood allFoods food grams recipe = Ok recipe' ->
      built fits allFoods allNutrients recipe'
  | built_remove recipe food grams recipe' :
      built fits allFoods allNutrients recipe ->
      allFoods !! food_id food = Some food ->
      0 < grams ->
      RemoveFood allFoods food grams recipe = Ok recipe' ->
      built fits allFoods allNutrients recipe'.

(** What is kept along a construction that stays within [int]: stored
    grams an [int] holds, totals that are the recomputed sums, and an
    entry for every nutrient of the catalog. *)
Definition consistent (allFoods : gmap Z (Food F)) (allNutrients : gmap Z Nutrient)
    (recipe : Recipe F) : Prop :=
  (forall foodId q, foodQuantities recipe !! foodId = Some q -> Int.in_range q)
  /\ (forall id, get (nutrientTotals recipe) id
                 = recomputedTotal allFoods (foodQuantities recipe) id)
  /\ (forall id, is_Some (allNutrients !! id) -> is_Some (nutrientTotals recipe !! id)).

End Totals.

(** ** A small catalog

    One nutrient and one food, for the concrete runs below: 10 g of
    protein in 100 g of the food, as the import computes it
    ([nutrientAmount64 / 100]). *)

Definition protein : Nutrient :=
  {| nutrient_id := 203; nutrient_units := "g"; nutrient_description := "Protein" |}.

Definition sampleFood : Food float :=
  {| food_id := 1001;
     foodGroup := "1600";
     food_description := "Lentils, raw";
     manufacturer := "";
     nutrients := [ {| nutrient := protein; amountPerG := (10 / 100)%float |} ] |}.

Definition sampleFoods : gmap Z (Food float) := {[ 1001 := sampleFood ]}.

Definition sampleNutrients : gmap Z Nutrient := {[ 203 := protein ]}.

Definition sampleNames : gmap string Z := {[ "Protein"%string := 203 ]}.

(** What [NewRecipe] returns for this catalog. *)
Definition sampleEmpty : Recipe float :=
  {| nutrientTotals := {[ 203 := 0%float ]}; foodQuantities := ∅ |}.

(** A recipe whose cached protein total (100) is far from what its
    quantities give (5 g of the food: 0.5). *)
Definition sampleInconsistent : Recipe float :=
  {| nutrientTotals := {[ 203 := 100%float ]}; foodQuantities := {[ 1001 := 5 ]} |}.

(** The small catalog's new recipe after one, two and three calls of
    [AddFood] with 3 g of the food. *)
Definition sampleOnce : Recipe float :=
  {| nutrientTotals := {[ 203 := 0.30000000000000004%float ]};
     foodQuantities := {[ 1001 := 3 ]} |}.

Definition sampleTwice : Recipe float :=
  {| nutrientTotals := {[ 203 := 0.6000000000000001%float ]};
     foodQuantities := {[ 1001 := 6 ]} |}.

Definition sampleThrice : Recipe float :=
  {| nutrientTotals := {[ 203 := 0.9000000000000001%float ]};
     foodQuantities := {[ 1001 := 9 ]} |}.

(** A recipe with as many grams of the food as an [int] holds... *)
Definition sampleFull : Recipe float :=
  {| nutrientTotals := {[ 203 := 922337203685477580.8%float ]};
     foodQuantities := {[ 1001 := 9223372036854775807 ]} |}.

(** ... and after one more gram is added. *)
Definition sampleOverfull : Recipe float :=
  {| nutrientTotals := {[ 203 := 922337203685477580.8%float ]};
     foodQuantities := {[ 1001 := -9223372036854775808 ]} |}.

(** A store with the new recipe of the small catalog, the store after
    [Clone], and the store after 5 g of the food are added to the clone. *)
Definition sampleRef : recipeRef :=
  {| nutrientTotalsRef := 1; foodQuantitiesRef := 1 |}.

Definition sampleCloneRef : recipeRef :=
  {| nutrientTotalsRef := 2; foodQuantitiesRef := 2 |}.

Definition sampleStore : store float :=
  {| floatMaps := {[ 1%positive := nutrientTotals sampleEmpty ]};
     intMaps := {[ 1%positive := foodQuantities sampleEmpty ]} |}.

Definition sampleCloned : store float := write sampleStore sampleCloneRef sampleEmpty.

Definition sampleFive : Recipe float :=
  {| nutrientTotals := {[ 203 := 0.5%float ]}; foodQuantities := {[ 1001 := 5 ]} |}.

Definition sampleMutated : store float := write sampleCloned sampleCloneRef sampleFive.

(** The small catalog with exact amounts: 100 mg of protein in a gram of
    the food; its new recipe, and the recipe after 3 g are added, 3 g
    more, and 2 g removed. *)
Definition sampleFoodZ : Food Z :=
  {| food_id := 1001;
     foodGroup := "1600";
     food_description := "Lentils, raw";
     manufacturer := "";
     nutrients := [ {| nutrient := protein; amountPerG := 100 |} ] |}.

Definition sampleFoodsZ : gmap Z (Food Z) := {[ 1001 := sampleFoodZ ]}.

Definition sampleEmptyZ : Recipe Z :=
  {| nutrientTotals := {[ 203 := 0 ]}; foodQuantities := ∅ |}.

Definition sampleThreeZ : Recipe Z :=
  {| nutrientTotals := {[ 203 := 300 ]}; foodQuantities := {[ 1001 := 3 ]} |}.

Definition sampleSixZ : Recipe Z :=
  {| nutrientTotals := {[ 203 := 600 ]}; foodQuantities := {[ 1001 := 6 ]} |}.

Definition sampleFourZ : Recipe Z :=
  {| nutrientTotals := {[ 203 := 400 ]}; foodQuantities := {[ 1001 := 4 ]} |}.

(** ** What the search keeps *)

Section SearchInvariants.

Local Open Scope float_scope.

(** The printed best scores go strictly down. *)
Fixpoint descending (scores : list float) : Prop :=
  match scores with
  | [] => True
  | x :: rest =>
      match rest with
      | [] => True
      | y :: _ => (y <? x) = true /\ descending rest
      end
  end.

(** The best of the round against the best score [start] the round
    began with: either there is none and the score is still [start], or
    it is the clone of a recipe whose score is the round's best, strictly
    below [start]. *)
Definition improves (allNutrients : gmap Z Nutrient) (nutrientNameToId : gmap string Z)
    (allFoods : gmap Z (Food float)) (start : float) (st : round) : Prop :=
  match bestRecipeThisRound st with
  | None => bestScoreThisRound st = start
  | Some best =>
      (bestScoreThisRound st <? start) = true
      /\ exists trial,
           Score allNutrients allFoods nutrientNameToId false trial
           = Ok (bestScoreThisRound st)
           /\ Clone allFoods allNutrients trial = Ok best
  end.

(** Every stored quantity is a positive multiple of the step size that
    an [int] holds. *)
Definition stepQuantities (quantities : gmap Z Z) : Prop :=
  forall foodId grams,
    quantities !! foodId = Some grams ->
    0 < grams <= Int.max_int /\ (STEPSIZE | grams)%Z.

(** No stored quantity is above [bound]. *)
Definition below (bound : Z) (quantities : gmap Z Z) : Prop :=
  forall foodId grams, quantities !! foodId = Some grams -> (grams <= bound)%Z.

(** At the head of the loop: the printed scores go strictly down, and
    the best score is strictly below the last one printed. *)
Definition atLoopHead (r : run) : Prop :=
  descending (printed r)
  /\ forall s, last (printed r) = Some s -> (bestScoreEver r <? s) = true.

(** When the loop is left: the printed scores go strictly down, and the
    best score is the last one printed or strictly below it. *)
Definition atLoopExit (r : run) : Prop :=
  descending (printed r)
  /\ forall s, last (printed r) = Some s ->
               bestScoreEver r = s \/ (bestScoreEver r <? s) = true.

(** The best of the round, if there is one, against the quantities the
    round works on: its quantities are in steps, and at most one step
    above what bounds those. *)
Definition goodBest (quantities : gmap Z Z) (st : round) : Prop :=
  forall best,
    bestRecipeThisRound st = Some best ->
    stepQuantities (foodQuantities best)
    /\ forall bound, (0 <= bound)%Z -> below bound quantities ->
                     below (bound + STEPSIZE) (foodQuantities best).

End SearchInvariants.

(** ** The markers of the USDA text fields

    A Go string is a sequence of bytes, as a [string] here.  Indexing
    outside the string and slicing with bounds out of order are run-time
    panics. *)

Definition tilde : Ascii.ascii := Ascii.ascii_of_nat 126.   (* the byte of ~ *)

(** [assertStringHasTwiddles]: [input[0]] and [input[len(input) - 1]]
    are read in this order, the second only when the first is a tilde. *)
Definition assertStringHasTwiddles (input : string) : outcome unit :=
  match String.get 0 input with
  | None => Panic "index out of range"
  | Some first =>
      if negb (Ascii.eqb first tilde) then
        Panic ("Expected twiddles in string: " +:+ input)
      else
        match String.get (String.length input - 1) input with
        | None => Panic "index out of range"
        | Some last =>
            if negb (Ascii.eqb last tilde) then
              Panic ("Expected twiddles in string: " +:+ input)
            else Ok tt
        end
  end.

(** [stripTwiddles]: the slice [input[1 : len(input) - 1]], which needs
    [1 <= len(input) - 1]. *)
Definition stripTwiddles (input : string) : outcome string :=
  if (String.length input <? 2)%nat then Panic "slice bounds out of range"
  else Ok (String.substring 1 (String.length input - 2) input).

(** ** [Equals] *)

Section EqualsOp.

Context {F : Type} {N : Num F}.

(** [Equals]: the loop over the quantities of [recipe1] returns [false]
    at the first key that [recipe2] lacks or holds with other grams, so
    it returns [true] exactly when no key does, in whatever order the
    map is ranged over. *)
Definition Equals (recipe1 recipe2 : Recipe F) (allFoods : gmap Z (Food F))
    : outcome bool :=
  AssertConsistency recipe1 allFoods ;;
  AssertConsistency recipe2 allFoods ;;
  if negb (size (foodQuantities recipe1) =? size (foodQuantities recipe2))%nat then
    Ok false
  else
    Ok (forallb (fun '(key, value1) =>
                   match foodQuantities recipe2 !! key with
                   | None => false
                   | Some value2 => value1 =? value2
                   end)
                (map_to_list (foodQuantities recipe1))).

End EqualsOp.

(** ** [PrintNutrients] *)

(** [PrintNutrients]: the calls of [fmt.Printf], each by the amount, the
    units and the description it prints, in the order of
    [food.nutrients]; the layout of the line is left to [Printf]. *)
Definition PrintNutrients (food : Food float) (numGrams : Z)
    : list (float * string * string) :=
  omap (fun nutrientInFood : NutrientInFood float =>
          let nutrient := nutrient nutrientInFood in
          let totalUnits := (amountPerG nutrientInFood * float64_of_int numGrams)%float in
          if (0.01 <=? totalUnits)%float then
            Some (totalUnits, nutrient_units nutrient, nutrient_description nutrient)
          else None)
       (nutrients food).

(** ** The import of the USDA files

    [getNutrientsAndFoods] on the records that the three readers yield
    before [io.EOF] (a file that cannot be opened, a record that cannot
    be read and a file that cannot be closed are panics of their own,
    before, between or after these records).  The functions of Go's library are taken by what they
    return, [None] where they return an error. *)

(** [strings.Contains]. *)
Definition Contains (s substr : string) : bool :=
  match String.index 0 substr s with
  | Some _ => true
  | None => false
  end.

(** [record[i]]. *)
Definition field (record : list string) (i : nat) : outcome string :=
  match record !! i with
  | Some s => Ok s
  | None => Panic "index out of range"
  end.

(** The food groups that are left out: baby foods, breakfast cereals,
    beverages, fast foods, restaurant foods. *)
Definition excludedGroups : list string :=
  [ "0300"; "0800"; "1400"; "2100"; "3600" ]%string.

(** The parts of a description that leave a food out, in the order of
    the source; [true]: looked for in [strings.ToLower(description)]. *)
Definition excludedParts : list (bool * string) :=
  [
    (false, "Lemonade");
    (false, "Ice cream");
    (false, "dehydrated flakes");
    (false, "Alcoholic beverage");
    (false, "freeze-dried");
    (false, "Celery flakes");
    (false, "dehydrated");
    (false, "Candies");
    (false, "Tea,");
    (true, "beef,");
    (true, "pork,");
    (true, "pork skins,");
    (true, "chicken,");
    (true, "smelt,");
    (true, "salmon,");
    (true, "fish,");
    (true, "mutton,");
    (true, "turkey,");
    (true, "trout,");
    (true, "lamb,");
    (true, "caribou,");
    (true, " meat,");
    (true, "liver cheese,");
    (false, "surimi");
    (true, "big franks,");
    (false, "MORNINGSTAR");
    (false, "Meat extender");
    (false, "with low-calorie sweeteners");
    (false, "instant breakfast powder");
    (false, "Orange-flavor drink");
    (false, "Fruit-flavored drink");
    (false, "Leavening agents");
    (false, "Reddi Wip");
    (false, "Frozen novelties");
    (false, "Formulated bar,");
    (true, " acid,");
    (true, " added ");
    (true, " supplement");
    (true, " fortified");
    (false, "Soy protein isolate");
    (false, "Soy protein concentrate");
    (false, "PAM cooking spray");
    (true, " seal,");
    (false, "Seal,");
    (false, "Egg Mix, USDA Commodity");
    (false, "Game meat");
    (false, "Butterbur, canned");
    (true, "mollusks");
    (false, "Spices,");
    (true, " brain");
    (true, " liver ");
    (true, " liver,");
    (true, " kidney");
    (true, " lungs,");
    (true, " chitterlings");
    (true, " intestine");
    (true, " mackerel,");
    (true, " marlin,");
    (true, " orange roughy,");
    (true, " shark,");
    (true, " swordfish,");
    (true, " tilefish,");
    (true, " tuna,");
    (true, " bluefish,");
    (true, " grouper,");
    (true, " sea bass");
    (true, " bass,");
    (true, " carp,");
    (true, " cod,");
    (true, " croaker,");
    (true, " halibut,");
    (true, " jacksmelt,");
    (true, " lobster,");
    (true, " mahi mahi,");
    (true, " monkfish,");
    (true, " perch,");
    (true, " sablefish,");
    (true, " skate,");
    (true, " snapper,");
    (true, " weakfish,");
    (true, " whale,")
  ]%string.

Section ImportLoops.

Variable Atoi : string -> option Z.                (* [strconv.Atoi] *)
Variable ParseFloat : string -> option float.      (* [strconv.ParseFloat(s, 64)] *)
Variable matchesRatio : string -> bool.            (* matches [^\d+:\d+] *)
Variable matchesAbbreviation : string -> bool.     (* matches [\(\w{3}\)] *)
Variable ToLower : string -> string.               (* [strings.ToLower] *)

(** [x, err := f(s); if err != nil { panic(err) }]; the text of the
    error is not kept. *)
Definition orPanic {A : Type} (result : option A) : outcome A :=
  match result with
  | Some a => Ok a
  | None => Panic "err"
  end.

Definition excludedGroup (foodGroup : string) : bool :=
  existsb (String.eqb foodGroup) excludedGroups.

Definition excludedDescription (description : string) : bool :=
  existsb (fun '(lower, part) =>
             Contains (if lower : bool then ToLower description else description) part)
          excludedParts.

(** The body of the loop over NUTR_DEF.txt. *)
Definition readNutrient (maps : gmap Z Nutrient * gmap string Z)
    (record : list string) : outcome (gmap Z Nutrient * gmap string Z) :=
  let '(nutrients, nutrientNameToId) := maps in
  r0 ← field record 0 ; assertStringHasTwiddles r0 ;;
  r1 ← field record 1 ; assertStringHasTwiddles r1 ;;
  r3 ← field record 3 ; assertStringHasTwiddles r3 ;;
  s0 ← stripTwiddles r0 ;
  id ← orPanic (Atoi s0) ;
  units ← stripTwiddles r1 ;
  description ← stripTwiddles r3 ;
  (* Drop the \d:\d entries but keep three-letter abbreviated ones *)
  if matchesRatio description && negb (matchesAbbreviation description) then
    Ok maps
  else
    (* Correction of duplicate description field *)
    let description :=
      if id =? 208 then "Energy, kcal"%string
      else if id =? 268 then "Energy, kJ"%string
      else description in
    match nutrients !! id with
    | Some _ => Panic "nutrient already in nutrients map"
    | None =>
        let n := {| nutrient_id := id;
                    nutrient_units := units;
                    nutrient_description := description |} in
        Ok (<[id := n]> nutrients, <[description := id]> nutrientNameToId)
    end.

(** The body of the loop over FOOD_DES.txt. *)
Definition readFood (foods : gmap Z (Food float)) (record : list string)
    : outcome (gmap Z (Food float)) :=
  r0 ← field record 0 ; assertStringHasTwiddles r0 ;;
  r1 ← field record 1 ; assertStringHasTwiddles r1 ;;
  r2 ← field record 2 ; assertStringHasTwiddles r2 ;;
  s0 ← stripTwiddles r0 ;
  ndb ← orPanic (Atoi s0) ;
  foodGroup ← stripTwiddles r1 ;
  description ← stripTwiddles r2 ;
  r5 ← field record 5 ;
  manufacturer ← stripTwiddles r5 ;
  if excludedGroup foodGroup then Ok foods
  else if excludedDescription description then Ok foods
  else if String.eqb manufacturer "Campbell Soup Co." then Ok foods
  else
    match foods !! ndb with
    | Some _ => Panic "ndb already in foods map"
    | None =>
        Ok (<[ndb := {| food_id := ndb;
                        foodGroup := foodGroup;
                        food_description := description;
                        manufacturer := manufacturer;
                        nutrients := [] |}]> foods)
    end.

(** The body of the loop over NUT_DATA.txt; [allNutrients] is the map
    [nutrients] of the source, which the first loop has filled. *)
Definition readAmount (allNutrients : gmap Z Nutrient) (foods : gmap Z (Food float))
    (record : list string) : outcome (gmap Z (Food float)) :=
  r0 ← field record 0 ; assertStringHasTwiddles r0 ;;
  r1 ← field record 1 ; assertStringHasTwiddles r1 ;;
  s0 ← stripTwiddles r0 ;
  ndb ← orPanic (Atoi s0) ;
  s1 ← stripTwiddles r1 ;
  nutrientId ← orPanic (Atoi s1) ;
  r2 ← field record 2 ;
  nutrientAmount64 ← orPanic (ParseFloat r2) ;
  r3 ← field record 3 ;
  numDataPoints ← orPanic (Atoi r3) ;
  (* If the number of data points is 0, the value was calculated or
     imputed: assume they are wrong *)
  let nutrientAmount64 := if numDataPoints =? 0 then 0%float else nutrientAmount64 in
  match allNutrients !! nutrientId with
  | None => Ok foods   (* skipped on nutrient definition import *)
  | Some nutrient =>
      (* divide by 100 because this measurement is for 100g *)
      let nif := {| nutrient := nutrient;
                    amountPerG := (nutrientAmount64 / 100)%float |} in
      match foods !! ndb with
      | None => Ok foods
      | Some food =>
          Ok (<[ndb := {| food_id := food_id food;
                          foodGroup := foodGroup food;
                          food_description := food_description food;
                          manufacturer := manufacturer food;
                          nutrients := nutrients food ++ [nif] |}]> foods)
      end
  end.

(** The field [i] of a record without its first and last byte. *)
Definition stripped (record : list string) (i : nat) : option string :=
  r ← record !! i ;
  match stripTwiddles r with
  | Ok s => Some s
  | Panic _ => None
  end.

(** What one line of NUT_DATA.txt gives the food [ndb], read off the
    line alone: the entry of the nutrient list, if the line is about
    that food and about a nutrient of [allNutrients]. *)
Definition entryOf (allNutrients : gmap Z Nutrient) (ndb : Z) (record : list string)
    : option (NutrientInFood float) :=
  ndb' ← stripped record 0 ≫= Atoi ;
  nutrientId ← stripped record 1 ≫= Atoi ;
  amount ← record !! 2%nat ≫= ParseFloat ;
  numDataPoints ← record !! 3%nat ≫= Atoi ;
  nutrient ← allNutrients !! nutrientId ;
  let amount := if numDataPoints =? 0 then 0%float else amount in
  if ndb' =? ndb then
    Some {| nutrient := nutrient; amountPerG := (amount / 100)%float |}
  else None.

(** The lines of NUTR_DEF.txt that no [continue] leaves out: they read
    as the nutrient [id]. *)
Definition keptNutrientLine (record : list string) (id : Z) : Prop :=
  exists description,
    stripped record 0 ≫= Atoi = Some id
    /\ stripped record 3 = Some description
    /\ matchesRatio description && negb (matchesAbbreviation description) = false.

(** The lines of FOOD_DES.txt that no [continue] leaves out: they read
    as the food [ndb]. *)
Definition keptFoodLine (record : list string) (ndb : Z) : Prop :=
  exists group description maker,
    stripped record 0 ≫= Atoi = Some ndb
    /\ stripped record 1 = Some group
    /\ stripped record 2 = Some description
    /\ stripped record 5 = Some maker
    /\ excludedGroup group = false
    /\ excludedDescription description = false
    /\ maker <> "Campbell Soup Co."%string.

Definition getNutrientsAndFoods (nutrientDefinitions foodDescriptions foodData
                                   : list (list string))
    : outcome (gmap Z Nutrient * gmap string Z * gmap Z (Food float)) :=
  '(nutrients, nutrientNameToId) ← forEach readNutrient (∅, ∅) nutrientDefinitions ;
  foods ← forEach readFood ∅ foodDescriptions ;
  foods ← forEach (readAmount nutrients) foods foodData ;
  Ok (nutrients, nutrientNameToId, foods).

End ImportLoops.

(** ** Three small files

    Lines as the reader of the USDA files yields them, for the concrete
    run of the import below. *)

(** Unsigned decimal numbers, read as [strconv.Atoi] reads them. *)
Fixpoint digits (acc : Z) (s : string) : option Z :=
  match s with
  | EmptyString => Some acc
  | String c s =>
      let n := Ascii.nat_of_ascii c in
      if ((48 <=? n) && (n <=? 57))%nat then digits (10 * acc + (Z.of_nat n - 48)) s
      else None
  end.

Definition sampleAtoi (s : string) : option Z :=
  match s with
  | EmptyString => None
  | _ => digits 0 s
  end.

Definition sampleParseFloat (s : string) : option float :=
  float64_of_int <$> sampleAtoi s.

(** A stand-in for the two patterns: a colon, an opening bracket. *)
Definition sampleRatio (s : string) : bool := Contains s ":".

Definition sampleAbbreviation (s : string) : bool := Contains s "(".

Definition sampleNutrientLines : list (list string) :=
  [ [ "~203~"; "~g~"; "~PROCNT~"; "~Protein~"; "~2~"; "~600~" ];
    [ "~675~"; "~g~"; "~F18D2CN6~"; "~18:2 n-6 c,c~"; "~3~"; "~15300~" ] ]%string.

Definition sampleFoodLines : list (list string) :=
  [ [ "~1001~"; "~1600~"; "~Lentils, raw~"; "~~"; "~~"; "~~" ];
    [ "~1002~"; "~0300~"; "~Babyfood, peas~"; "~~"; "~~"; "~~" ];
    [ "~1003~"; "~0900~"; "~Lemonade, powder~"; "~~"; "~~"; "~~" ];
    [ "~1004~"; "~0600~"; "~Soup, tomato~"; "~~"; "~~"; "~Campbell Soup Co.~" ] ]%string.

Definition sampleDataLines : list (list string) :=
  [ [ "~1001~"; "~203~"; "10"; "3" ];
    [ "~1001~"; "~675~"; "1"; "3" ];
    [ "~1002~"; "~203~"; "5"; "1" ] ]%string.

(** * Facts *)

(** ** Go's [int] *)

Module IntFacts.

Lemma wrap_in_range z : Int.in_range (Int.wrap z).
Proof.
  unfold Int.in_range, Int.wrap, Int.min_int, Int.max_int.
  pose proof (Z.mod_pos_bound (z + 2 ^ 63) (2 ^ 64) ltac:(lia)). lia.
Qed.

Lemma wrap_small z : Int.in_range z -> Int.wrap z = z.
Proof.
  unfold Int.in_range, Int.wrap, Int.min_int, Int.max_int. intros H.
  rewrite Z.mod_small; lia.
Qed.

Lemma add_small a b : Int.in_range (a + b) -> Int.add a b = a + b.
Proof. apply wrap_small. Qed.

Lemma sub_small a b : Int.in_range (a - b) -> Int.sub a b = a - b.
Proof. apply wrap_small. Qed.

End IntFacts.

(** ** Exact arithmetic *)

Lemma exactZ_Exact : Exact exactZ.
Proof. split; simpl; intros; lia. Qed.

(** Consequences of exactness. *)
Section ExactFacts.

Context {F : Type} {N : Num F} (E : Exact N).

Lemma exact_cancel (x y z : F) : fadd x z = fadd y z -> x = y.
Proof.
  intros H.
  assert (A : forall u, fadd (fadd u z) (fsub fzero z) = u).
  { intros u. rewrite <- (exact_add_assoc N E), (exact_add_comm N E z).
    rewrite (exact_sub_add N E). apply (exact_add_zero N E). }
  rewrite <- (A x), <- (A y), H. reflexivity.
Qed.

Lemma exact_add_sub (x y : F) : fsub (fadd x y) y = x.
Proof. apply (exact_cancel _ _ y). apply (exact_sub_add N E). Qed.

Lemma exact_zero_add (x : F) : fadd fzero x = x.
Proof. rewrite (exact_add_comm N E). apply (exact_add_zero N E). Qed.

Lemma exact_add_swap (x y z : F) : fadd (fadd x y) z = fadd (fadd x z) y.
Proof.
  rewrite <- !(exact_add_assoc N E). f_equal. apply (exact_add_comm N E).
Qed.

Lemma exact_sub_sub (x y z : F) : fsub (fsub x y) z = fsub x (fadd y z).
Proof.
  apply (exact_cancel _ _ (fadd y z)). rewrite (exact_sub_add N E).
  rewrite (exact_add_comm N E y z), (exact_add_assoc N E).
  rewrite !(exact_sub_add N E). reflexivity.
Qed.

Lemma exact_add_sub_assoc (x y z : F) : fadd x (fsub y z) = fsub (fadd x y) z.
Proof.
  apply (exact_cancel _ _ z). rewrite (exact_sub_add N E).
  rewrite <- (exact_add_assoc N E), (exact_sub_add N E). reflexivity.
Qed.

Lemma exact_mul_zero_l (x : F) : fmul fzero x = fzero.
Proof.
  apply (exact_cancel _ _ (fmul fzero x)).
  rewrite <- (exact_mul_add_r N E), !exact_zero_add. reflexivity.
Qed.

Lemma exact_of_int_sub (a b : Z) : of_int (a - b) = fsub (of_int a) (of_int b).
Proof.
  apply (exact_cancel _ _ (of_int b)).
  rewrite (exact_sub_add N E), <- (exact_of_int_add N E).
  f_equal. lia.
Qed.

End ExactFacts.

(** ** Comparisons of binary64 *)

Section FloatOrder.

Local Open Scope float_scope.

Lemma SFcompare_Lt_Gt x y :
  SFcompare x y = Some Lt -> SFcompare y x = Some Gt.
Proof.
  destruct x as [[]| []| |[] m1 e1], y as [[]| []| |[] m2 e2];
    simpl; try congruence; intros H; f_equal;
    pose proof (Pos.compare_cont_antisym m2 m1 Eq) as Hm; simpl in Hm;
    rewrite (Z.compare_antisym e2 e1) in H;
    destruct (e2 ?= e1)%Z; simpl in *; try congruence;
    rewrite <- Hm in H;
    destruct (Pos.compare_cont Eq m2 m1); simpl in *; congruence.
Qed.

(** [y <= x] excludes [x < y]: the [else] branch of [if x < y] is where
    the code's comment says [x >= y]. *)
Lemma leb_not_ltb (x y : float) : (y <=? x) = true -> (x <? y) = false.
Proof.
  rewrite leb_spec, ltb_spec. unfold SFleb, SFltb.
  destruct (SFcompare (Prim2SF x) (Prim2SF y)) as [[]|] eqn:E; try reflexivity.
  rewrite (SFcompare_Lt_Gt _ _ E). discriminate.
Qed.

Lemma SFcompare_Lt_trans x y z :
  SFcompare x y = Some Lt -> SFcompare y z = Some Lt -> SFcompare x z = Some Lt.
Proof.
  destruct x as [[]| []| |[] m1 e1], y as [[]| []| |[] m2 e2], z as [[]| []| |[] m3 e3];
    simpl; try congruence; intros H1 H2; f_equal;
    injection H1 as H1; injection H2 as H2;
    change (Pos.compare_cont Eq m1 m2) with (Pos.compare m1 m2) in *;
    change (Pos.compare_cont Eq m2 m3) with (Pos.compare m2 m3) in *;
    change (Pos.compare_cont Eq m1 m3) with (Pos.compare m1 m3) in *;
    destruct (Z.compare_spec e1 e2), (Z.compare_spec e2 e3), (Z.compare_spec e1 e3);
    try lia; try congruence; subst;
    destruct (Pos.compare_spec m1 m2), (Pos.compare_spec m2 m3), (Pos.compare_spec m1 m3);
    simpl in *; try lia; try congruence.
Qed.

(** [<] on binary64 is transitive and asymmetric (a NaN is below and
    above nothing). *)
Lemma ltb_trans (x y z : float) :
  (x <? y) = true -> (y <? z) = true -> (x <? z) = true.
Proof.
  rewrite !ltb_spec. unfold SFltb.
  destruct (SFcompare (Prim2SF x) (Prim2SF y)) as [[]|] eqn:E1; try discriminate.
  destruct (SFcompare (Prim2SF y) (Prim2SF z)) as [[]|] eqn:E2; try discriminate.
  rewrite (SFcompare_Lt_trans _ _ _ E1 E2). reflexivity.
Qed.

Lemma ltb_asym (x y : float) : (x <? y) = true -> (y <? x) = false.
Proof.
  rewrite !ltb_spec. unfold SFltb.
  destruct (SFcompare (Prim2SF x) (Prim2SF y)) as [[]|] eqn:E; try discriminate.
  rewrite (SFcompare_Lt_Gt _ _ E). reflexivity.
Qed.

End FloatOrder.


(** ** The penalty primitive *)

Section PenaltyFacts.

Local Open Scope float_scope.

(** C1. For every amount, and min > 0 with max = 0 or max > min:
    below min the penalty is (min - amount) / min * 100; from min on it
    is 0 when max is 0, and otherwise, with mid = min + (max - min) / 2,
    it is 0 below mid and (amount - mid) / (max - mid) * 100 from mid on,
    with no cap at 100.  With min = 10 and max = 30 the penalties of
    5, 10, 20, 25, 30 and 40 are 50, 0, 0, 50, 100 and 200. *)
Theorem calcPenalty_shape :
  (forall (name : string) (verbose : bool) (amount min max : float),
      (0 <? min) = true ->
      (max =? 0) = true \/ (min <? max) = true ->
      let mid := min + (max - min) / 2 in
      ((amount <? min) = true ->
       calcPenalty name amount min max verbose = (min - amount) / min * 100)
      /\ ((min <=? amount) = true -> (max =? 0) = true ->
          calcPenalty name amount min max verbose = 0)
      /\ ((min <=? amount) = true -> (max =? 0) = false ->
          (amount <? mid) = true ->
          calcPenalty name amount min max verbose = 0)
      /\ ((min <=? amount) = true -> (max =? 0) = false ->
          (amount <? mid) = false ->
          calcPenalty name amount min max verbose
          = (amount - mid) / (max - mid) * 100))
  /\ calcPenalty "x" 5 10 30 false = 50
  /\ calcPenalty "x" 10 10 30 false = 0
  /\ calcPenalty "x" 20 10 30 false = 0
  /\ calcPenalty "x" 25 10 30 false = 50
  /\ calcPenalty "x" 30 10 30 false = 100
  /\ calcPenalty "x" 40 10 30 false = 200.
Proof.
  split; [| repeat split; vm_compute; reflexivity].
  intros name verbose amount min max _ _ mid. unfold calcPenalty.
  split; [| split; [| split]].
  - intros ->. reflexivity.
  - intros Hge ->. rewrite (leb_not_ltb _ _ Hge). reflexivity.
  - intros Hge -> Hlt. rewrite (leb_not_ltb _ _ Hge). simpl.
    fold mid. rewrite Hlt. reflexivity.
  - intros Hge -> Hlt. rewrite (leb_not_ltb _ _ Hge). simpl.
    fold mid. rewrite Hlt. reflexivity.
Qed.

(** The general shape at amount 25, min 10 and max 30, where mid is 20. *)
Lemma calcPenalty_shape_witness :
  calcPenalty "x" 25 10 30 false = (25 - (10 + (30 - 10) / 2)) / (30 - (10 + (30 - 10) / 2)) * 100.
Proof.
  refine (proj2 (proj2 (proj2
    (proj1 calcPenalty_shape "x"%string false 25 10 30 _ _))) _ _ _);
    first [ reflexivity | right; reflexivity ].
Defined.

End PenaltyFacts.

(** ** The recipe operations *)

Section RecipeFacts.

Context {F : Type} {N : Num F}.

Implicit Types (recipe : Recipe F) (food : Food F) (allFoods : gmap Z (Food F)).

(** The total of one nutrient after the loop over [food.nutrients]: the
    amounts the food lists for it, applied in order. *)
Lemma get_updateTotals (op : F -> F -> F) (quantity : Z) (ns : list (NutrientInFood F)) :
  forall (totals : gmap Z F) (id : Z),
    get (updateTotals op quantity totals ns) id
    = foldl (fun t a => op t (fmul a (of_int quantity)))
            (get totals id) (amountsOf id ns).
Proof.
  unfold updateTotals, amountsOf.
  induction ns as [|n ns IH]; intros totals id; [reflexivity|].
  cbn [foldl]. rewrite IH. rewrite filter_cons.
  destruct (decide (nutrient_id (nutrient n) = id)) as [<-|Hne].
  - cbn [fmap list_fmap foldl]. f_equal.
    unfold get at 1. rewrite lookup_insert_eq. reflexivity.
  - f_equal. unfold get. rewrite lookup_insert_ne by exact Hne. reflexivity.
Qed.

(** A nutrient the food does not list keeps its entry, or its absence. *)
Lemma lookup_updateTotals_other (op : F -> F -> F) (quantity : Z)
    (ns : list (NutrientInFood F)) :
  forall (totals : gmap Z F) (id : Z),
    amountsOf id ns = [] ->
    updateTotals op quantity totals ns !! id = totals !! id.
Proof.
  unfold updateTotals, amountsOf.
  induction ns as [|n ns IH]; intros totals id H; [reflexivity|].
  cbn [foldl]. rewrite filter_cons in H.
  destruct (decide (nutrient_id (nutrient n) = id)) as [<-|Hne]; [discriminate|].
  rewrite IH by exact H. apply lookup_insert_ne, Hne.
Qed.

(** The loop never deletes an entry. *)
Lemma lookup_updateTotals_is_Some (op : F -> F -> F) (quantity : Z)
    (ns : list (NutrientInFood F)) :
  forall (totals : gmap Z F) (id : Z),
    is_Some (totals !! id) -> is_Some (updateTotals op quantity totals ns !! id).
Proof.
  unfold updateTotals.
  induction ns as [|n ns IH]; intros totals id H; [exact H|].
  cbn [foldl]. apply IH.
  destruct (decide (nutrient_id (nutrient n) = id)) as [<-|Hne].
  - rewrite lookup_insert_eq. eauto.
  - rewrite lookup_insert_ne by exact Hne. exact H.
Qed.

Lemma lookup_get (totals : gmap Z F) (id : Z) :
  is_Some (totals !! id) -> totals !! id = Some (get totals id).
Proof. intros [x Hx]. unfold get. rewrite Hx. reflexivity. Qed.

(** [AddFood] always returns, and this is what it returns. *)
Lemma AddFood_Ok allFoods food grams recipe :
  AddFood allFoods food grams recipe
  = Ok {| nutrientTotals :=
            updateTotals fadd grams (nutrientTotals recipe) (nutrients food);
          foodQuantities :=
            <[food_id food :=
                match foodQuantities recipe !! food_id food with
                | Some originalQuantity => Int.add originalQuantity grams
                | None => grams
                end]> (foodQuantities recipe) |}.
Proof.
  unfold AddFood. cbn. destruct (foodQuantities recipe !! food_id food); reflexivity.
Qed.

(** The three ways [RemoveFood] ends. *)
Lemma RemoveFood_absent allFoods food grams recipe :
  foodQuantities recipe !! food_id food = None ->
  RemoveFood allFoods food grams recipe
  = Panic "Asked to remove food that is not in recipe".
Proof. intros H. unfold RemoveFood. cbn. rewrite H. reflexivity. Qed.

Lemma RemoveFood_excess allFoods food grams recipe originalQuantity :
  foodQuantities recipe !! food_id food = Some originalQuantity ->
  originalQuantity < grams ->
  RemoveFood allFoods food grams recipe
  = Panic "Asked to remove more food than is in recipe".
Proof.
  intros H Hlt. unfold RemoveFood. cbn. rewrite H.
  destruct (Z.gtb_spec grams originalQuantity); [reflexivity | lia].
Qed.

Lemma RemoveFood_Ok allFoods food grams recipe originalQuantity :
  foodQuantities recipe !! food_id food = Some originalQuantity ->
  grams <= originalQuantity ->
  RemoveFood allFoods food grams recipe
  = Ok {| nutrientTotals :=
            updateTotals fsub grams (nutrientTotals recipe) (nutrients food);
          foodQuantities :=
            if decide (grams = originalQuantity)
            then delete (food_id food) (foodQuantities recipe)
            else <[food_id food := Int.sub originalQuantity grams]>
                   (foodQuantities recipe) |}.
Proof.
  intros H Hle. unfold RemoveFood. cbn. rewrite H.
  destruct (Z.gtb_spec grams originalQuantity); [lia|].
  destruct (Z.eqb_spec grams originalQuantity), (decide (grams = originalQuantity));
    try contradiction; reflexivity.
Qed.

End RecipeFacts.

(** ** [RemoveFood] and [AddFood], call by call *)

Section CallFacts.

Context {F : Type} {N : Num F}.

Implicit Types (recipe : Recipe F) (food : Food F) (allFoods : gmap Z (Food F)).

(** C4. [RemoveFood] panics exactly when the food is not in the
    quantities or the grams exceed its quantity.  When it returns, the
    quantity is decremented, the entry is deleted exactly when the grams
    equal the quantity, and each total the food contributes to is
    decremented by amount per gram times grams. *)
Theorem RemoveFood_fails_iff allFoods food grams recipe :
  ((exists msg, RemoveFood allFoods food grams recipe = Panic msg)
   <-> (foodQuantities recipe !! food_id food = None
        \/ exists q, foodQuantities recipe !! food_id food = Some q /\ q < grams))
  /\ (forall recipe',
        RemoveFood allFoods food grams recipe = Ok recipe' ->
        exists q,
          foodQuantities recipe !! food_id food = Some q /\ grams <= q
          /\ (grams = q ->
               foodQuantities recipe' = delete (food_id food) (foodQuantities recipe))
          /\ (grams <> q ->
               foodQuantities recipe'
               = <[food_id food := Int.sub q grams]> (foodQuantities recipe))
          /\ (foodQuantities recipe' !! food_id food = None <-> grams = q)
          /\ (0 <= grams -> Int.in_range q -> Int.sub q grams = q - grams)
          /\ (forall id,
                get (nutrientTotals recipe') id
                = foldl (fun t a => fsub t (fmul a (of_int grams)))
                        (get (nutrientTotals recipe) id)
                        (amountsOf id (nutrients food)))
          /\ (forall id a,
                amountsOf id (nutrients food) = [a] ->
                get (nutrientTotals recipe') id
                = fsub (get (nutrientTotals recipe) id) (fmul a (of_int grams)))
          /\ (forall id,
                amountsOf id (nutrients food) = [] ->
                nutrientTotals recipe' !! id = nutrientTotals recipe !! id)).
Proof.
  destruct (foodQuantities recipe !! food_id food) as [q|] eqn:Hq.
  - destruct (Z_lt_le_dec q grams) as [Hlt|Hle].
    + rewrite (RemoveFood_excess _ _ _ _ _ Hq Hlt). split.
      * split; [intros _; right; eauto | intros _; eauto].
      * intros recipe' [=].
    + rewrite (RemoveFood_Ok _ _ _ _ _ Hq Hle). split.
      * split; [intros [msg [=]] | intros [[=] | (q' & [= <-] & Hlt)]; lia].
      * intros recipe' [= <-]. exists q. cbn [foodQuantities nutrientTotals].
        repeat split.
        -- exact Hle.
        -- intros ->. rewrite decide_True by reflexivity. reflexivity.
        -- intros Hne. rewrite decide_False by exact Hne. reflexivity.
        -- destruct (decide (grams = q)) as [->|Hne]; [reflexivity|].
           rewrite lookup_insert_eq. discriminate.
        -- intros ->. rewrite decide_True by reflexivity. apply lookup_delete_eq.
        -- intros Hg Hr. apply IntFacts.sub_small.
           unfold Int.in_range, Int.min_int, Int.max_int in *. lia.
        -- intros id. apply get_updateTotals.
        -- intros id a Ha. rewrite get_updateTotals, Ha. reflexivity.
        -- intros id Ha. apply lookup_updateTotals_other, Ha.
  - rewrite (RemoveFood_absent _ _ _ _ Hq). split.
    + split; [intros _; left; reflexivity | intros _; eauto].
    + intros recipe' [=].
Qed.

(** C5, as the code has it.  [AddFood] has no failure condition at all:
    for every [int] it returns (positive, zero or negative grams alike),
    with [quantities[food.id]] incremented in [int], or created, and
    each total the food contributes to incremented by amount per gram
    times grams. *)
Theorem AddFood_never_fails allFoods food grams recipe :
  exists recipe',
    AddFood allFoods food grams recipe = Ok recipe'
    /\ (forall q, foodQuantities recipe !! food_id food = Some q ->
                 foodQuantities recipe' !! food_id food = Some (Int.add q grams)
                 /\ (Int.in_range (q + grams) -> Int.add q grams = q + grams))
    /\ (foodQuantities recipe !! food_id food = None ->
        foodQuantities recipe' !! food_id food = Some grams)
    /\ (forall other, other <> food_id food ->
                     foodQuantities recipe' !! other = foodQuantities recipe !! other)
    /\ (forall id,
          get (nutrientTotals recipe') id
          = foldl (fun t a => fadd t (fmul a (of_int grams)))
                  (get (nutrientTotals recipe) id)
                  (amountsOf id (nutrients food)))
    /\ (forall id a,
          amountsOf id (nutrients food) = [a] ->
          get (nutrientTotals recipe') id
          = fadd (get (nutrientTotals recipe) id) (fmul a (of_int grams)))
    /\ (forall id,
          amountsOf id (nutrients food) = [] ->
          nutrientTotals recipe' !! id = nutrientTotals recipe !! id).
Proof.
  eexists. split; [apply AddFood_Ok|]. cbn [foodQuantities nutrientTotals].
  repeat split.
  - rewrite H, lookup_insert_eq. reflexivity.
  - apply IntFacts.add_small.
  - intros ->. apply lookup_insert_eq.
  - intros other Hne. apply lookup_insert_ne. congruence.
  - intros id. apply get_updateTotals.
  - intros id a Ha. rewrite get_updateTotals, Ha. reflexivity.
  - intros id Ha. apply lookup_updateTotals_other, Ha.
Qed.

End CallFacts.

(** C5 as stated fails: [AddFood] with 0 grams, and with -5 grams,
    returns; the recipe then holds a food with 0 grams, or with -5. *)
Lemma AddFood_accepts_nonpositive_grams :
  AddFood sampleFoods sampleFood 0 sampleEmpty
  = Ok {| nutrientTotals := {[ 203 := 0%float ]};
          foodQuantities := {[ 1001 := 0 ]} |}
  /\ AddFood sampleFoods sampleFood (-5) sampleEmpty
     = Ok {| nutrientTotals := {[ 203 := (-0.5)%float ]};
             foodQuantities := {[ 1001 := -5 ]} |}.
Proof. split; vm_compute; reflexivity. Qed.

(** ** The consistency check *)

(** C9, as the code has it.  The body of [AssertConsistency] (the check
    of the quantities, the recomputation of the totals and the
    comparison within 0.5) is commented out: the call returns without a
    fault for every recipe and every catalog, so it passes when the
    totals agree within the tolerance, and when they do not.  No recipe
    operation therefore ends in a consistency fault: [NewRecipe],
    [AddFood], [Clone] and [Score] return whatever the recipe holds, and
    the only panics of [RemoveFood] are its two own. *)
Theorem AssertConsistency_never_faults {F : Type} {N : Num F}
    (recipe : Recipe F) (allFoods : gmap Z (Food F)) :
  AssertConsistency recipe allFoods = Ok tt
  /\ (forall allNutrients, exists new, NewRecipe allFoods allNutrients = Ok new)
  /\ (forall food grams, exists recipe', AddFood allFoods food grams recipe = Ok recipe')
  /\ (forall allNutrients, exists copy, Clone allFoods allNutrients recipe = Ok copy)
  /\ (forall food grams msg,
        RemoveFood allFoods food grams recipe = Panic msg ->
        msg = "Asked to remove food that is not in recipe"%string
        \/ msg = "Asked to remove more food than is in recipe"%string)
  /\ (forall nutrients foods nutrientNameToId verbose (scored : Recipe float),
        exists penalty, Score nutrients foods nutrientNameToId verbose scored = Ok penalty).
Proof.
  split; [reflexivity|]. split; [|split; [|split; [|split]]].
  - intros allNutrients. eexists. reflexivity.
  - intros food grams. eexists. apply AddFood_Ok.
  - intros allNutrients. eexists. reflexivity.
  - intros food grams msg.
    destruct (foodQuantities recipe !! food_id food) as [q|] eqn:Hq.
    + destruct (Z_lt_le_dec q grams) as [Hlt|Hle].
      * rewrite (RemoveFood_excess _ _ _ _ _ Hq Hlt). intros [= <-]. auto.
      * rewrite (RemoveFood_Ok _ _ _ _ _ Hq Hle). discriminate.
    + rewrite (RemoveFood_absent _ _ _ _ Hq). intros [= <-]. auto.
  - intros. eexists. reflexivity.
Qed.

(** C9 as stated fails: the cached protein total of [sampleInconsistent]
    is 100, its quantities give 0.5, the two differ by more than 0.5,
    and [AssertConsistency] returns. *)
Lemma AssertConsistency_misses_divergence :
  get (nutrientTotals sampleInconsistent) 203 = 100%float
  /\ recomputedTotal sampleFoods (foodQuantities sampleInconsistent) 203 = 0.5%float
  /\ (0.5 <? abs (get (nutrientTotals sampleInconsistent) 203
                  - recomputedTotal sampleFoods (foodQuantities sampleInconsistent) 203))%float
     = true
  /\ AssertConsistency sampleInconsistent sampleFoods = Ok tt.
Proof. repeat split; vm_compute; reflexivity. Qed.

(** ** The score of a new recipe *)

Section ScoreFacts.

Local Open Scope float_scope.

Lemma get_zeros (allNutrients : gmap Z Nutrient) (id : Z) :
  get ((fun _ => 0) <$> allNutrients : gmap Z float) id = 0.
Proof.
  unfold get. rewrite lookup_fmap.
  destruct (allNutrients !! id); reflexivity.
Qed.

(** C8. A new recipe scores exactly 4100: each of the 39 entries of the
    table has min > 0 and penalty 100 at amount 0, so have the combined
    phenylalanine + tyrosine entry and the folate entry, and caffeine,
    dihydrophylloquinone, the number of foods and the mass add 0. *)
Theorem Score_NewRecipe (allNutrients : gmap Z Nutrient)
    (allFoods : gmap Z (Food float)) (nutrientNameToId : gmap string Z)
    (verbose : bool) (recipe : Recipe float) :
  NewRecipe allFoods allNutrients = Ok recipe ->
  Score allNutrients allFoods nutrientNameToId verbose recipe = Ok 4100
  /\ foodQuantities recipe = ∅
  /\ (forall id, get (nutrientTotals recipe) id = 0)
  /\ length targets = 39%nat
  /\ Forall (fun '(name, min, max) =>
               (0 <? min) = true
               /\ calculatePenaltyForNutrient recipe nutrientNameToId name min max verbose
                  = 100) targets
  /\ calcPenalty "Phenylalanine + Tyrosine" (0 + 0) 1.625 0 verbose = 100
  /\ calcPenalty "Folate" (0 + 1.7 * 0) 400 1000 verbose = 100
  /\ (20 <? get (nutrientTotals recipe) (idOf nutrientNameToId "Caffeine")) = false
  /\ get (nutrientTotals recipe) (idOf nutrientNameToId "Dihydrophylloquinone") = 0
  /\ math_Min (float64_of_int (numFoods (foodQuantities recipe)) / 100) 1 * 10 = 0
  /\ math_Min (float64_of_int (totalMass (foodQuantities recipe)) / 3000) 1 * 10 = 0.
Proof.
  intros [= <-]. cbn [foodQuantities nutrientTotals].
  repeat match goal with |- _ /\ _ => split end.
  - unfold Score, calculatePenaltyForNutrient, numFoods, totalMass.
    cbn [foodQuantities nutrientTotals AssertConsistency].
    rewrite !map_fold_empty. unfold targets. cbn [foldl].
    rewrite !get_zeros. vm_compute. reflexivity.
  - reflexivity.
  - intros id. apply get_zeros.
  - reflexivity.
  - unfold targets, calculatePenaltyForNutrient. cbn [nutrientTotals].
    repeat (apply Forall_cons; split;
            [rewrite ?get_zeros; split; vm_compute; reflexivity|]).
    apply Forall_nil. trivial.
  - vm_compute. reflexivity.
  - vm_compute. reflexivity.
  - rewrite get_zeros. reflexivity.
  - apply get_zeros.
  - vm_compute. reflexivity.
  - vm_compute. reflexivity.
Qed.

(** The score of the new recipe of the small catalog. *)
Lemma Score_NewRecipe_witness :
  Score sampleNutrients sampleFoods sampleNames false sampleEmpty = Ok 4100.
Proof.
  refine (proj1 (Score_NewRecipe sampleNutrients sampleFoods sampleNames false
                   sampleEmpty _)).
  vm_compute. reflexivity.
Defined.

End ScoreFacts.

(** ** Recipes in memory: [Clone] shares nothing *)

Section MemoryFacts.

Context {F : Type} {N : Num F}.

Implicit Types (σ : store F) (r c : recipeRef) (recipe : Recipe F).

Lemma load_write σ r recipe : load (write σ r recipe) r = Some recipe.
Proof.
  unfold load, write. cbn. rewrite !lookup_insert_eq. cbn.
  destruct recipe; reflexivity.
Qed.

Lemma load_write_separate σ r c recipe :
  separate r c -> load (write σ r recipe) c = load σ c.
Proof.
  intros [Ht Hq]. unfold load, write. cbn.
  rewrite !lookup_insert_ne by assumption. reflexivity.
Qed.

Lemma load_allocated σ r recipe :
  load σ r = Some recipe ->
  nutrientTotalsRef r ∈ dom (floatMaps σ) /\ foodQuantitiesRef r ∈ dom (intMaps σ).
Proof.
  unfold load. intros H.
  destruct (floatMaps σ !! nutrientTotalsRef r) eqn:Ht; [|discriminate].
  destruct (intMaps σ !! foodQuantitiesRef r) eqn:Hq; [|discriminate].
  split; apply elem_of_dom; eauto.
Qed.

(** A method called on one recipe leaves the maps of a separate recipe
    as they were. *)
Lemma mutateAt_separate (method : Recipe F -> outcome (Recipe F)) σ σ' r c :
  separate r c -> mutateAt method σ r = Ok σ' -> load σ' c = load σ c.
Proof.
  intros Hsep. unfold mutateAt.
  destruct (load σ r) as [recipe|]; [|discriminate].
  destruct (method recipe) as [recipe'|]; cbn; [|discriminate].
  intros [= <-]. apply load_write_separate, Hsep.
Qed.

Lemma callsAt_separate (allFoods : gmap Z (Food F)) r c (ms : list (mutation F)) :
  separate r c ->
  forall σ σ', callsAt allFoods r σ ms = Ok σ' -> load σ' c = load σ c.
Proof.
  intros Hsep. induction ms as [|m ms IH]; intros σ σ'; cbn.
  - intros [= <-]. reflexivity.
  - destruct (callAt allFoods r σ m) as [σ1|] eqn:Hm; cbn; [|discriminate].
    intros H. rewrite (IH _ _ H).
    destruct m; cbn in Hm; eapply mutateAt_separate; eauto.
Qed.

(** The maps [NewRecipe] makes are new. *)
Lemma NewRecipeAt_fresh σ σ1 c r recipe (allFoods : gmap Z (Food F)) allNutrients :
  NewRecipeAt σ allFoods allNutrients = Ok (σ1, c) ->
  load σ r = Some recipe ->
  separate c r /\ load σ1 r = Some recipe
  /\ exists new, NewRecipe allFoods allNutrients = Ok new /\ load σ1 c = Some new.
Proof.
  unfold NewRecipeAt. cbn. intros [= <- <-] Hr.
  destruct (load_allocated _ _ _ Hr) as [Ht Hq].
  assert (Hsep : separate
            {| nutrientTotalsRef := fresh (dom (floatMaps σ));
               foodQuantitiesRef := fresh (dom (intMaps σ)) |} r).
  { split; cbn; intros E; [rewrite <- E in Ht | rewrite <- E in Hq].
    - exact (is_fresh (dom (floatMaps σ)) Ht).
    - exact (is_fresh (dom (intMaps σ)) Hq). }
  split; [exact Hsep|]. split.
  - rewrite load_write_separate by exact Hsep. exact Hr.
  - exists {| nutrientTotals := (fun _ => fzero) <$> allNutrients;
              foodQuantities := ∅ |}.
    split; [reflexivity|]. apply load_write.
Qed.

Lemma separate_sym r c : separate r c -> separate c r.
Proof. intros [? ?]. split; congruence. Qed.

(** C7. [Clone] returns a recipe whose two maps are new, holding the
    quantities and the totals of the original.  Whatever sequence of
    [AddFood] and [RemoveFood] calls is then made on the clone, the
    maps of the original hold what they held; and the other way round. *)
Theorem Clone_independent σ r (allFoods : gmap Z (Food F)) allNutrients σ1 c :
  CloneAt σ r allFoods allNutrients = Ok (σ1, c) ->
  nutrientTotalsRef c <> nutrientTotalsRef r
  /\ foodQuantitiesRef c <> foodQuantitiesRef r
  /\ load σ1 r = load σ r
  /\ (exists recipe copy,
        load σ r = Some recipe
        /\ Clone allFoods allNutrients recipe = Ok copy
        /\ load σ1 c = Some copy
        /\ foodQuantities copy = foodQuantities recipe
        /\ forall id, get (nutrientTotals copy) id = get (nutrientTotals recipe) id)
  /\ (forall allFoods' ms σ2,
        callsAt allFoods' c σ1 ms = Ok σ2 -> load σ2 r = load σ1 r)
  /\ (forall allFoods' ms σ2,
        callsAt allFoods' r σ1 ms = Ok σ2 -> load σ2 c = load σ1 c).
Proof.
  unfold CloneAt. destruct (load σ r) as [recipe|] eqn:Hr; [|discriminate].
  cbn [mbind outcome_bind AssertConsistency].
  destruct (NewRecipeAt σ allFoods allNutrients) as [[σ' c']|] eqn:Hnew;
    [|discriminate].
  destruct (NewRecipeAt_fresh _ _ _ _ _ _ _ Hnew Hr)
    as (Hsep & Hr' & new & Hnew' & Hc').
  cbn [mbind outcome_bind]. rewrite Hr', Hc'. intros [= <- <-].
  destruct Hsep as [Ht Hq].
  assert (Hsep : separate c' r) by (split; assumption).
  repeat match goal with |- _ /\ _ => split end.
  - exact Ht.
  - exact Hq.
  - rewrite load_write_separate by exact Hsep. exact Hr'.
  - injection Hnew' as <-.
    exists recipe,
      {| nutrientTotals := nutrientTotals recipe ∪ ((fun _ => fzero) <$> allNutrients);
         foodQuantities := foodQuantities recipe ∪ ∅ |}.
    split; [reflexivity|]. split; [reflexivity|]. split; [apply load_write|].
    cbn [foodQuantities nutrientTotals]. split.
    + apply (right_id_L ∅ (∪)).
    + intros id. unfold get. rewrite lookup_union, lookup_fmap.
      destruct (nutrientTotals recipe !! id), (allNutrients !! id); reflexivity.
  - intros allFoods' ms σ2 H. eapply callsAt_separate; eauto.
  - intros allFoods' ms σ2 H. eapply callsAt_separate; eauto using separate_sym.
Qed.

End MemoryFacts.

(** The clone of the small catalog's new recipe gets 5 g of the food;
    the original is as it was. *)
Lemma Clone_independent_witness :
  load sampleMutated sampleRef = load sampleCloned sampleRef.
Proof.
  refine (proj1 (proj2 (proj2 (proj2 (proj2
    (Clone_independent sampleStore sampleRef sampleFoods sampleNutrients
       sampleCloned sampleCloneRef _)))))
    sampleFoods [CallAddFood sampleFood 5] sampleMutated _);
    vm_compute; reflexivity.
Defined.


(** ** The totals against the quantities *)

Section ExactRecipes.

Context {F : Type} {N : Num F} (E : Exact N).

Implicit Types (recipe : Recipe F) (food : Food F) (allFoods : gmap Z (Food F)).

Lemma exact_sub_zero (x : F) : fsub x fzero = x.
Proof.
  rewrite <- (exact_add_zero N E x) at 1. apply (exact_add_sub E).
Qed.

Lemma exact_mul_sub_l (x y z : F) : fmul x (fsub y z) = fsub (fmul x y) (fmul x z).
Proof.
  apply (exact_cancel E _ _ (fmul x z)).
  rewrite (exact_sub_add N E), <- (exact_mul_add_l N E), (exact_sub_add N E).
  reflexivity.
Qed.

(** Adding the listed amounts one by one adds their sum. *)
Lemma foldl_add_amounts (g : F) (l : list F) (t : F) :
  foldl (fun t a => fadd t (fmul a g)) t l = fadd t (fmul (foldl fadd fzero l) g).
Proof.
  induction l as [|a l IH] using rev_ind.
  - cbn. rewrite (exact_mul_zero_l E), (exact_add_zero N E). reflexivity.
  - rewrite !foldl_snoc, IH, (exact_mul_add_r N E), (exact_add_assoc N E).
    reflexivity.
Qed.

Lemma foldl_sub_amounts (g : F) (l : list F) (t : F) :
  foldl (fun t a => fsub t (fmul a g)) t l = fsub t (fmul (foldl fadd fzero l) g).
Proof.
  induction l as [|a l IH] using rev_ind.
  - cbn. rewrite (exact_mul_zero_l E), exact_sub_zero. reflexivity.
  - rewrite !foldl_snoc, IH, (exact_mul_add_r N E), (exact_sub_sub E).
    reflexivity.
Qed.

(** The recomputed total, entry by entry. *)
Lemma recomputedTotal_insert_new allFoods (quantities : gmap Z Z) foodId grams id :
  quantities !! foodId = None ->
  recomputedTotal allFoods (<[foodId := grams]> quantities) id
  = fadd (recomputedTotal allFoods quantities id)
         (fmul (amountPerGram allFoods foodId id) (of_int grams)).
Proof.
  intros H. unfold recomputedTotal.
  rewrite map_fold_insert_L; [reflexivity | | exact H].
  intros. apply (exact_add_swap E).
Qed.

Lemma recomputedTotal_insert allFoods (quantities : gmap Z Z) foodId grams id :
  recomputedTotal allFoods (<[foodId := grams]> quantities) id
  = fadd (recomputedTotal allFoods (delete foodId quantities) id)
         (fmul (amountPerGram allFoods foodId id) (of_int grams)).
Proof.
  rewrite <- (insert_delete_eq quantities).
  apply recomputedTotal_insert_new, lookup_delete_eq.
Qed.

Lemma recomputedTotal_lookup allFoods (quantities : gmap Z Z) foodId grams id :
  quantities !! foodId = Some grams ->
  recomputedTotal allFoods quantities id
  = fadd (recomputedTotal allFoods (delete foodId quantities) id)
         (fmul (amountPerGram allFoods foodId id) (of_int grams)).
Proof.
  intros H. rewrite <- (insert_id quantities foodId grams H) at 1.
  apply recomputedTotal_insert.
Qed.

Lemma recomputedTotal_empty allFoods id : recomputedTotal allFoods ∅ id = fzero.
Proof. apply map_fold_empty. Qed.

Lemma amountPerGram_food allFoods food id :
  allFoods !! food_id food = Some food ->
  amountPerGram allFoods (food_id food) id
  = foldl fadd fzero (amountsOf id (nutrients food)).
Proof. intros H. unfold amountPerGram. rewrite H. reflexivity. Qed.

Lemma consistent_AddFood allFoods allNutrients recipe food grams recipe' :
  consistent allFoods allNutrients recipe ->
  allFoods !! food_id food = Some food ->
  Int.in_range (default 0 (foodQuantities recipe !! food_id food) + grams) ->
  AddFood allFoods food grams recipe = Ok recipe' ->
  consistent allFoods allNutrients recipe'.
Proof.
  intros (Hrange & Htot & Hkeys) Hfood Hfits. rewrite AddFood_Ok. intros [= <-].
  unfold consistent. cbn [foodQuantities nutrientTotals].
  assert (Hnew : match foodQuantities recipe !! food_id food with
                 | Some q => Int.add q grams
                 | None => grams
                 end = default 0 (foodQuantities recipe !! food_id food) + grams).
  { destruct (foodQuantities recipe !! food_id food) as [q|]; cbn in *.
    - apply IntFacts.add_small, Hfits.
    - reflexivity. }
  rewrite Hnew. split; [|split].
  - intros foodId q. rewrite lookup_insert.
    destruct (decide (food_id food = foodId)); [intros [= <-]; exact Hfits | apply Hrange].
  - intros id. rewrite get_updateTotals, foldl_add_amounts, Htot.
    rewrite <- (amountPerGram_food allFoods food id Hfood).
    rewrite recomputedTotal_insert.
    destruct (foodQuantities recipe !! food_id food) as [q|] eqn:Hq; cbn [default].
    + rewrite (recomputedTotal_lookup _ _ _ _ id Hq).
      rewrite (exact_of_int_add N E), (exact_mul_add_l N E), (exact_add_assoc N E).
      reflexivity.
    + rewrite (delete_id _ _ Hq). reflexivity.
  - intros id H. apply lookup_updateTotals_is_Some, Hkeys, H.
Qed.

Lemma RemoveFood_Ok_inv allFoods food grams recipe recipe' :
  RemoveFood allFoods food grams recipe = Ok recipe' ->
  exists q,
    foodQuantities recipe !! food_id food = Some q /\ grams <= q
    /\ recipe' = {| nutrientTotals :=
                      updateTotals fsub grams (nutrientTotals recipe) (nutrients food);
                    foodQuantities :=
                      if decide (grams = q)
                      then delete (food_id food) (foodQuantities recipe)
                      else <[food_id food := Int.sub q grams]> (foodQuantities recipe) |}.
Proof.
  destruct (foodQuantities recipe !! food_id food) as [q|] eqn:Hq.
  - destruct (Z_lt_le_dec q grams) as [Hlt|Hle].
    + rewrite (RemoveFood_excess _ _ _ _ _ Hq Hlt). discriminate.
    + rewrite (RemoveFood_Ok _ _ _ _ _ Hq Hle). intros [= <-]. eauto.
  - rewrite (RemoveFood_absent _ _ _ _ Hq). discriminate.
Qed.

Lemma consistent_RemoveFood allFoods allNutrients recipe food grams recipe' :
  consistent allFoods allNutrients recipe ->
  allFoods !! food_id food = Some food ->
  0 < grams ->
  RemoveFood allFoods food grams recipe = Ok recipe' ->
  consistent allFoods allNutrients recipe'.
Proof.
  intros (Hrange & Htot & Hkeys) Hfood Hpos H.
  destruct (RemoveFood_Ok_inv _ _ _ _ _ H) as (q & Hq & Hle & ->).
  unfold consistent. cbn [foodQuantities nutrientTotals].
  pose proof (Hrange _ _ Hq) as Hqr.
  assert (Hsub : Int.sub q grams = q - grams).
  { apply IntFacts.sub_small.
    unfold Int.in_range, Int.min_int, Int.max_int in *. lia. }
  split; [|split].
  - intros foodId q'. destruct (decide (grams = q)).
    + rewrite lookup_delete. destruct (decide (food_id food = foodId));
        [discriminate | apply Hrange].
    + rewrite lookup_insert. destruct (decide (food_id food = foodId));
        [intros [= <-]; apply IntFacts.wrap_in_range | apply Hrange].
  - intros id. rewrite get_updateTotals, foldl_sub_amounts, Htot.
    rewrite <- (amountPerGram_food allFoods food id Hfood).
    rewrite (recomputedTotal_lookup _ _ _ _ id Hq).
    destruct (decide (grams = q)) as [->|Hne].
    + apply (exact_add_sub E).
    + rewrite recomputedTotal_insert, Hsub, (exact_of_int_sub E), exact_mul_sub_l.
      symmetry. apply (exact_add_sub_assoc E).
  - intros id Hid. apply lookup_updateTotals_is_Some, Hkeys, Hid.
Qed.


End ExactRecipes.

(** The recipes of the exact small catalog are built within [int]. *)
Lemma sampleFourZ_built :
  built (N := exactZ) Int.in_range sampleFoodsZ sampleNutrients sampleFourZ.
Proof.
  assert (R : forall z, 0 <= z <= 10 -> Int.in_range z).
  { unfold Int.in_range, Int.min_int, Int.max_int. lia. }
  apply (built_remove _ _ _ sampleSixZ sampleFoodZ 2); [| reflexivity | lia | reflexivity].
  apply (built_add _ _ _ sampleThreeZ sampleFoodZ 3);
    [| reflexivity | lia | apply R; vm_compute; split; discriminate | reflexivity].
  apply (built_add _ _ _ sampleEmptyZ sampleFoodZ 3);
    [| reflexivity | lia | apply R; vm_compute; split; discriminate | reflexivity].
  apply built_new. reflexivity.
Qed.



(** ** [AddFood] then [RemoveFood] *)

Section RoundTrip.

Context {F : Type} {N : Num F}.

Implicit Types (recipe : Recipe F) (food : Food F) (allFoods : gmap Z (Food F)).


End RoundTrip.



(** ** The search loop *)

Section SearchFacts.

Variable allNutrients : gmap Z Nutrient.
Variable nutrientNameToId : gmap string Z.
Variable allFoods : gmap Z (Food float).

Local Open Scope float_scope.

Local Notation "'score'" := (Score allNutrients allFoods nutrientNameToId false).
Local Notation "'clone'" := (Clone allFoods allNutrients).
Local Notation "'improving'" := (improves allNutrients nutrientNameToId allFoods).
Local Notation "'scoreTrial_'" := (scoreTrial allNutrients nutrientNameToId allFoods).
Local Notation "'tryFood_'" := (tryFood allNutrients nutrientNameToId allFoods).
Local Notation "'tryRemoving_'" := (tryRemoving allNutrients nutrientNameToId allFoods).
Local Notation "'tryAdding_'" := (tryAdding allNutrients nutrientNameToId allFoods).
Local Notation "'searchRound_'" := (searchRound allNutrients nutrientNameToId allFoods).
Local Notation "'endOfRound_'" := (endOfRound allNutrients nutrientNameToId allFoods).
Local Notation "'search_'" := (search allNutrients nutrientNameToId allFoods).
Local Notation "'main_'" := (main allNutrients nutrientNameToId allFoods).

(** [Score] and [Clone] always return. *)
Lemma Score_returns (verbose : bool) (recipe : Recipe float) :
  exists s, Score allNutrients allFoods nutrientNameToId verbose recipe = Ok s.
Proof. eexists. reflexivity. Qed.

Lemma Clone_Ok (recipe : Recipe float) :
  clone recipe
  = Ok {| nutrientTotals := nutrientTotals recipe ∪ ((fun _ => 0) <$> allNutrients);
          foodQuantities := foodQuantities recipe |}.
Proof.
  unfold Clone, NewRecipe. cbn [mbind outcome_bind AssertConsistency].
  cbn [foodQuantities nutrientTotals].
  rewrite (right_id_L ∅ (∪)). reflexivity.
Qed.

Lemma Clone_quantities (recipe copy : Recipe float) :
  clone recipe = Ok copy -> foodQuantities copy = foodQuantities recipe.
Proof. rewrite Clone_Ok. intros [= <-]. reflexivity. Qed.

(** What [scoreTrial] does: it always returns, keeps the current recipe,
    and replaces the best of the round exactly when the new score is
    strictly below the round's best score. *)
Lemma scoreTrial_cases (st : round) :
  exists newScore copy,
    score (currentRecipe st) = Ok newScore
    /\ clone (currentRecipe st) = Ok copy
    /\ scoreTrial_ st
       = Ok (if newScore <? bestScoreThisRound st
             then {| currentRecipe := currentRecipe st;
                     bestRecipeThisRound := Some copy;
                     bestScoreThisRound := newScore |}
             else st).
Proof.
  destruct (Score_returns false (currentRecipe st)) as [newScore Hs].
  exists newScore. eexists. split; [exact Hs|]. split; [apply Clone_Ok|].
  unfold scoreTrial. rewrite Hs. cbn [mbind outcome_bind].
  destruct (newScore <? bestScoreThisRound st); [|reflexivity].
  rewrite Clone_Ok. reflexivity.
Qed.

Lemma scoreTrial_current (st st' : round) :
  scoreTrial_ st = Ok st' -> currentRecipe st' = currentRecipe st.
Proof.
  destruct (scoreTrial_cases st) as (newScore & copy & _ & _ & ->).
  intros [= <-]. destruct (newScore <? bestScoreThisRound st); reflexivity.
Qed.

Lemma scoreTrial_improves (start : float) (st st' : round) :
  improving start st -> scoreTrial_ st = Ok st' -> improving start st'.
Proof.
  intros Hst. destruct (scoreTrial_cases st) as (newScore & copy & Hs & Hc & ->).
  intros [= <-]. destruct (newScore <? bestScoreThisRound st) eqn:Hlt; [|exact Hst].
  unfold improves in *. cbn [bestRecipeThisRound bestScoreThisRound]. split.
  - destruct (bestRecipeThisRound st).
    + destruct Hst as [Hlt' _]. exact (ltb_trans _ _ _ Hlt Hlt').
    + rewrite <- Hst. exact Hlt.
  - exists (currentRecipe st). split; assumption.
Qed.

Lemma setCurrent_improves (start : float) (st : round) (recipe : Recipe float) :
  improving start st -> improving start (setCurrent st recipe).
Proof. intros H. exact H. Qed.

Lemma tryRemoving_improves (start : float) (st st' : round) (food : Food float) :
  improving start st -> tryRemoving_ st food = Ok st' -> improving start st'.
Proof.
  intros Hst. unfold tryRemoving.
  destruct (HasFood (currentRecipe st) food); [|intros [= <-]; exact Hst].
  destruct (RemoveFood allFoods food STEPSIZE (currentRecipe st)) as [removed|];
    cbn [mbind outcome_bind]; [|discriminate].
  destruct (scoreTrial_ (setCurrent st removed)) as [st0|] eqn:H0;
    cbn [mbind outcome_bind]; [|discriminate].
  rewrite AddFood_Ok. cbn [mbind outcome_bind]. intros [= <-].
  apply setCurrent_improves. eapply scoreTrial_improves; [|exact H0].
  apply setCurrent_improves, Hst.
Qed.

Lemma tryAdding_improves (start : float) (st st' : round) (food : Food float) :
  improving start st -> tryAdding_ st food = Ok st' -> improving start st'.
Proof.
  intros Hst. unfold tryAdding. rewrite AddFood_Ok. cbn [mbind outcome_bind].
  match goal with |- context [scoreTrial_ ?x] =>
    destruct (scoreTrial_ x) as [st2|] eqn:H2 end;
    cbn [mbind outcome_bind]; [|discriminate].
  destruct (RemoveFood allFoods food STEPSIZE (currentRecipe st2)) as [undone|];
    cbn [mbind outcome_bind]; [|discriminate].
  intros [= <-]. apply setCurrent_improves.
  eapply scoreTrial_improves; [|exact H2]. apply setCurrent_improves, Hst.
Qed.

Lemma tryFood_improves (start : float) (st st' : round) (food : Food float) :
  improving start st -> tryFood_ st food = Ok st' -> improving start st'.
Proof.
  intros Hst. unfold tryFood.
  destruct (tryRemoving_ st food) as [st1|] eqn:H1;
    cbn [mbind outcome_bind]; [|discriminate].
  intros H2. eapply tryAdding_improves; [|exact H2].
  eapply tryRemoving_improves; eauto.
Qed.

Lemma forEach_tryFood_improves (start : float) (foods : list (Food float)) :
  forall st st',
    improving start st -> forEach tryFood_ st foods = Ok st' -> improving start st'.
Proof.
  induction foods as [|food foods IH]; intros st st' Hst; cbn [forEach].
  - intros [= <-]. exact Hst.
  - destruct (tryFood_ st food) as [st1|] eqn:H1;
      cbn [mbind outcome_bind]; [|discriminate].
    apply IH. eapply tryFood_improves; eauto.
Qed.

Lemma searchRound_improves (foods : list (Food float)) (best : Recipe float)
    (start : float) (st : round) :
  searchRound_ foods best start = Ok st -> improving start st.
Proof.
  unfold searchRound. rewrite Clone_Ok. cbn [mbind outcome_bind].
  apply forEach_tryFood_improves. reflexivity.
Qed.

Lemma descending_snoc (scores : list float) (x : float) :
  descending scores ->
  (forall s, last scores = Some s -> (x <? s) = true) ->
  descending (scores ++ [x]).
Proof.
  induction scores as [|a [|b rest] IH]; intros Hd Hlast.
  - exact I.
  - cbn. split; [apply Hlast; reflexivity | exact I].
  - destruct Hd as [Hba Hd]. split; [exact Hba|]. apply IH; [exact Hd|].
    intros s Hs. apply Hlast. exact Hs.
Qed.

(** The three ways a round ends. *)
Lemma endOfRound_none (r : run) (st : round) :
  bestRecipeThisRound st = None ->
  endOfRound_ r st
  = Ok {| printed := printed r;
          bestRecipeEver := bestRecipeEver r;
          bestScoreEver := bestScoreEver r;
          state := LocalMaxima |}.
Proof. intros H. unfold endOfRound. rewrite H. reflexivity. Qed.

Lemma endOfRound_worse (r : run) (st : round) (best : Recipe float) :
  bestRecipeThisRound st = Some best ->
  (bestScoreEver r <? bestScoreThisRound st) = true ->
  endOfRound_ r st = Panic "wtf".
Proof. intros H Hlt. unfold endOfRound. rewrite H, Hlt. reflexivity. Qed.

Lemma endOfRound_adopt (r : run) (st : round) (best : Recipe float) :
  bestRecipeThisRound st = Some best ->
  (bestScoreEver r <? bestScoreThisRound st) = false ->
  endOfRound_ r st
  = Ok {| printed := printed r;
          bestRecipeEver := best;
          bestScoreEver := bestScoreThisRound st;
          state := Searching |}.
Proof. intros H Hlt. unfold endOfRound. rewrite H, Hlt. reflexivity. Qed.

Lemma search_descending (order : nat -> list (Food float)) (rounds : nat) :
  forall (k : nat) (r r' : run),
    atLoopHead r -> search_ rounds order k r = Ok r' -> atLoopExit r'.
Proof.
  induction rounds as [|rounds IH]; intros k r r' [Hd Hlast]; cbn [search].
  - destruct (0 <? bestScoreEver r); intros [= <-]; split; cbn; auto.
  - destruct (0 <? bestScoreEver r); [|intros [= <-]; split; cbn; auto].
    cbn [printed bestRecipeEver bestScoreEver].
    destruct (searchRound_ (order k) (bestRecipeEver r) (bestScoreEver r))
      as [st|] eqn:Hround; cbn [mbind outcome_bind]; [|discriminate].
    pose proof (searchRound_improves _ _ _ _ Hround) as Himp.
    pose proof (descending_snoc _ _ Hd Hlast) as Hd'.
    unfold improves in Himp.
    destruct (bestRecipeThisRound st) as [best|] eqn:Hbest.
    + destruct Himp as [Hlt _].
      rewrite (endOfRound_adopt _ _ _ Hbest) by (apply ltb_asym, Hlt).
      cbn [mbind outcome_bind state]. apply IH. split; cbn [printed bestScoreEver].
      * exact Hd'.
      * intros s. rewrite last_snoc. intros [= <-]. exact Hlt.
    + rewrite (endOfRound_none _ _ Hbest). cbn [mbind outcome_bind state].
      intros [= <-]. split; cbn [printed bestScoreEver].
      * exact Hd'.
      * intros s. rewrite last_snoc. intros [= <-]. left. reflexivity.
Qed.

(** C6. Across the rounds the best score never increases: the scores
    printed round after round go strictly down, and the final best score
    is the last of them or below it.  In a round, the best of the round
    is replaced only by a recipe whose score is strictly below the best
    score the round began with; a round that finds none ends the search
    with the best recipe and score it began with; and a best of the
    round scoring above the best ever is the panic [wtf]. *)
Theorem best_score_never_increases :
  (forall rounds order r,
      main_ rounds order = Ok r ->
      descending (printed r)
      /\ forall s, last (printed r) = Some s ->
                   bestScoreEver r = s \/ (bestScoreEver r <? s) = true)
  /\ (forall foods best start st,
        searchRound_ foods best start = Ok st ->
        match bestRecipeThisRound st with
        | None => bestScoreThisRound st = start
        | Some adopted =>
            (bestScoreThisRound st <? start) = true
            /\ (start <? bestScoreThisRound st) = false
            /\ exists trial,
                 score trial = Ok (bestScoreThisRound st)
                 /\ clone trial = Ok adopted
        end)
  /\ (forall r st,
        bestRecipeThisRound st = None ->
        endOfRound_ r st
        = Ok {| printed := printed r;
                bestRecipeEver := bestRecipeEver r;
                bestScoreEver := bestScoreEver r;
                state := LocalMaxima |})
  /\ (forall rounds order k r st,
        (0 <? bestScoreEver r) = true ->
        searchRound_ (order k) (bestRecipeEver r) (bestScoreEver r) = Ok st ->
        bestRecipeThisRound st = None ->
        search_ (S rounds) order k r
        = Ok {| printed := printed r ++ [bestScoreEver r];
                bestRecipeEver := bestRecipeEver r;
                bestScoreEver := bestScoreEver r;
                state := LocalMaxima |})
  /\ (forall r st adopted,
        bestRecipeThisRound st = Some adopted ->
        (bestScoreEver r <? bestScoreThisRound st) = true ->
        endOfRound_ r st = Panic "wtf")
  /\ (forall r st adopted,
        bestRecipeThisRound st = Some adopted ->
        (bestScoreEver r <? bestScoreThisRound st) = false ->
        endOfRound_ r st
        = Ok {| printed := printed r;
                bestRecipeEver := adopted;
                bestScoreEver := bestScoreThisRound st;
                state := Searching |}).
Proof.
  split; [|split; [|split; [|split; [|split]]]].
  - intros rounds order r. unfold main.
    destruct (NewRecipe allFoods allNutrients) as [best|];
      cbn [mbind outcome_bind]; [|discriminate].
    destruct (Score_returns false best) as [s ->]. cbn [mbind outcome_bind].
    apply search_descending. split; cbn; [exact I | discriminate].
  - intros foods best start st H.
    pose proof (searchRound_improves _ _ _ _ H) as Himp. unfold improves in Himp.
    destruct (bestRecipeThisRound st); [|exact Himp].
    destruct Himp as [Hlt Htrial]. auto using ltb_asym.
  - apply endOfRound_none.
  - intros rounds order k r st Hpos Hround Hnone. cbn [search]. rewrite Hpos.
    cbn [printed bestRecipeEver bestScoreEver]. rewrite Hround.
    cbn [mbind outcome_bind]. rewrite (endOfRound_none _ _ Hnone). reflexivity.
  - apply endOfRound_worse.
  - apply endOfRound_adopt.
Qed.

End SearchFacts.

(** ** Quantities in steps *)

Section StepFacts.

Implicit Types (quantities : gmap Z Z).

Lemma stepQuantities_at_least quantities foodId grams :
  stepQuantities quantities -> quantities !! foodId = Some grams ->
  STEPSIZE <= grams <= Int.max_int /\ (STEPSIZE | grams).
Proof.
  intros H Hg. destruct (H _ _ Hg) as [[Hpos Hmax] [k Hk]].
  split; [|exists k; exact Hk]. unfold STEPSIZE in *. lia.
Qed.

(** One step removed from a food the recipe has, and added back. *)
Lemma step_removed_and_back quantities foodId grams :
  stepQuantities quantities -> quantities !! foodId = Some grams ->
  let removed :=
    if decide (STEPSIZE = grams) then delete foodId quantities
    else <[foodId := Int.sub grams STEPSIZE]> quantities in
  stepQuantities removed
  /\ (forall bound, below bound quantities -> below bound removed)
  /\ <[foodId := match removed !! foodId with
                 | Some originalQuantity => Int.add originalQuantity STEPSIZE
                 | None => STEPSIZE
                 end]> removed = quantities.
Proof.
  intros H Hg. destruct (stepQuantities_at_least _ _ _ H Hg) as [[Hge Hmax] [k Hk]].
  assert (Hsub : Int.sub grams STEPSIZE = grams - STEPSIZE).
  { apply IntFacts.sub_small.
    unfold Int.in_range, Int.min_int, Int.max_int, STEPSIZE in *. lia. }
  cbn zeta. destruct (decide (STEPSIZE = grams)) as [Heq|Hne].
  - split; [|split].
    + intros i g. rewrite lookup_delete.
      destruct (decide (foodId = i)); [discriminate | apply H].
    + intros bound Hb i g. rewrite lookup_delete.
      destruct (decide (foodId = i)); [discriminate | apply Hb].
    + rewrite lookup_delete_eq, insert_delete_eq. apply insert_id. congruence.
  - rewrite Hsub. split; [|split].
    + intros i g. rewrite lookup_insert.
      destruct (decide (foodId = i)); [|apply H].
      intros [= <-]. split; [unfold STEPSIZE in *; lia|].
      exists (k - 1). unfold STEPSIZE in *. lia.
    + intros bound Hb i g. rewrite lookup_insert.
      destruct (decide (foodId = i)); [|apply Hb].
      intros [= <-]. specialize (Hb _ _ Hg). unfold STEPSIZE. lia.
    + rewrite lookup_insert_eq, insert_insert_eq.
      rewrite IntFacts.add_small
        by (unfold Int.in_range, Int.min_int, Int.max_int, STEPSIZE in *; lia).
      replace (grams - STEPSIZE + STEPSIZE) with grams by lia.
      apply insert_id, Hg.
Qed.

(** One step added where an [int] has room for it, and removed again. *)
Lemma step_added_and_back quantities foodId :
  stepQuantities quantities ->
  (forall grams, quantities !! foodId = Some grams -> grams + STEPSIZE <= Int.max_int) ->
  let stored :=
    match quantities !! foodId with
    | Some originalQuantity => Int.add originalQuantity STEPSIZE
    | None => STEPSIZE
    end in
  let added := <[foodId := stored]> quantities in
  stepQuantities added
  /\ (forall bound, 0 <= bound -> below bound quantities ->
                    below (bound + STEPSIZE) added)
  /\ STEPSIZE <= stored
  /\ (if decide (STEPSIZE = stored) then delete foodId added
      else <[foodId := Int.sub stored STEPSIZE]> added) = quantities.
Proof.
  intros H Hroom. cbn zeta.
  destruct (quantities !! foodId) as [grams|] eqn:Hg.
  - destruct (stepQuantities_at_least _ _ _ H Hg) as [[Hge Hmax] [k Hk]].
    specialize (Hroom _ eq_refl).
    rewrite IntFacts.add_small
      by (unfold Int.in_range, Int.min_int, Int.max_int, STEPSIZE in *; lia).
    split; [|split; [|split]].
    + intros i g. rewrite lookup_insert.
      destruct (decide (foodId = i)); [|apply H].
      intros [= <-]. split; [unfold STEPSIZE in *; lia|].
      exists (k + 1). unfold STEPSIZE in *. lia.
    + intros bound _ Hb i g. rewrite lookup_insert.
      destruct (decide (foodId = i)).
      * intros [= <-]. specialize (Hb _ _ Hg). lia.
      * intros Hi. specialize (Hb _ _ Hi). unfold STEPSIZE. lia.
    + unfold STEPSIZE in *. lia.
    + rewrite decide_False by (unfold STEPSIZE in *; lia).
      rewrite insert_insert_eq.
      rewrite IntFacts.sub_small
        by (unfold Int.in_range, Int.min_int, Int.max_int, STEPSIZE in *; lia).
      replace (grams + STEPSIZE - STEPSIZE) with grams by lia.
      apply insert_id, Hg.
  - split; [|split; [|split]].
    + intros i g. rewrite lookup_insert.
      destruct (decide (foodId = i)); [|apply H].
      intros [= <-]. split; [unfold STEPSIZE, Int.max_int; lia|].
      exists 1. lia.
    + intros bound Hbound Hb i g. rewrite lookup_insert.
      destruct (decide (foodId = i)).
      * intros [= <-]. lia.
      * intros Hi. specialize (Hb _ _ Hi). unfold STEPSIZE. lia.
    + lia.
    + rewrite decide_True by reflexivity.
      rewrite delete_insert_eq. apply delete_id, Hg.
Qed.

(** One step added where an [int] has no room: the stored quantity is
    negative. *)
Lemma step_added_overflows quantities foodId grams :
  stepQuantities quantities -> quantities !! foodId = Some grams ->
  Int.max_int < grams + STEPSIZE ->
  Int.add grams STEPSIZE < STEPSIZE.
Proof.
  intros H Hg Hover. destruct (H _ _ Hg) as [[Hpos Hmax] _].
  unfold Int.add, Int.wrap, Int.max_int, STEPSIZE in *.
  replace (grams + 5 + 2 ^ 63) with (grams + 5 - 2 ^ 63 + 1 * 2 ^ 64) by lia.
  rewrite Z.mod_add by lia. rewrite Z.mod_small by lia. lia.
Qed.

End StepFacts.

(** ** The search works in steps *)

Section StepSearch.

Variable allNutrients : gmap Z Nutrient.
Variable nutrientNameToId : gmap string Z.
Variable allFoods : gmap Z (Food float).

Local Open Scope float_scope.

Local Notation "'scoreTrial_'" := (scoreTrial allNutrients nutrientNameToId allFoods).
Local Notation "'tryFood_'" := (tryFood allNutrients nutrientNameToId allFoods).
Local Notation "'tryRemoving_'" := (tryRemoving allNutrients nutrientNameToId allFoods).
Local Notation "'tryAdding_'" := (tryAdding allNutrients nutrientNameToId allFoods).
Local Notation "'searchRound_'" := (searchRound allNutrients nutrientNameToId allFoods).
Local Notation "'endOfRound_'" := (endOfRound allNutrients nutrientNameToId allFoods).
Local Notation "'search_'" := (search allNutrients nutrientNameToId allFoods).
Local Notation "'main_'" := (main allNutrients nutrientNameToId allFoods).
Local Notation "'quantitiesOf' st" := (foodQuantities (currentRecipe st))
  (at level 10, st at level 9).

Lemma scoreTrial_result (st : round) :
  exists st',
    scoreTrial_ st = Ok st'
    /\ currentRecipe st' = currentRecipe st
    /\ (bestRecipeThisRound st' = bestRecipeThisRound st
        \/ exists copy,
             bestRecipeThisRound st' = Some copy
             /\ foodQuantities copy = quantitiesOf st).
Proof.
  destruct (scoreTrial_cases allNutrients nutrientNameToId allFoods st)
    as (newScore & copy & _ & Hc & ->).
  eexists. split; [reflexivity|].
  destruct (newScore <? bestScoreThisRound st); cbn; [|auto].
  split; [reflexivity|]. right. exists copy. split; [reflexivity|].
  eapply Clone_quantities, Hc.
Qed.

Lemma below_one_more (bound : Z) (quantities : gmap Z Z) :
  below bound quantities -> below (bound + STEPSIZE) quantities.
Proof. intros H i g Hg. specialize (H i g Hg). unfold STEPSIZE. lia. Qed.

(** Trying to remove a step never fails, and leaves the quantities of
    the current recipe as they were. *)
Lemma tryRemoving_returns (st : round) (food : Food float) :
  stepQuantities (quantitiesOf st) ->
  goodBest (quantitiesOf st) st ->
  exists st',
    tryRemoving_ st food = Ok st'
    /\ quantitiesOf st' = quantitiesOf st
    /\ goodBest (quantitiesOf st) st'.
Proof.
  intros Hstep Hgood. unfold tryRemoving, HasFood.
  destruct (foodQuantities (currentRecipe st) !! food_id food) as [grams|] eqn:Hg.
  - rewrite bool_decide_eq_true_2 by eauto.
    destruct (stepQuantities_at_least _ _ _ Hstep Hg) as [[Hge _] _].
    rewrite (RemoveFood_Ok _ _ _ _ _ Hg Hge). cbn [mbind outcome_bind].
    destruct (step_removed_and_back _ _ _ Hstep Hg) as (Hstep1 & Hbelow1 & Hback).
    match goal with |- context [scoreTrial_ ?x] =>
      destruct (scoreTrial_result x) as (st0 & -> & Hcur & Hbest) end.
    cbn [mbind outcome_bind]. rewrite AddFood_Ok. cbn [mbind outcome_bind].
    eexists. split; [reflexivity|].
    cbn [setCurrent currentRecipe foodQuantities nutrientTotals bestRecipeThisRound] in *.
    rewrite Hcur. cbn [foodQuantities]. split; [exact Hback|].
    intros best Hb. cbn [setCurrent bestRecipeThisRound] in Hb.
    destruct Hbest as [Hsame | (copy & Hcopy & Hq)].
    + apply Hgood. congruence.
    + rewrite Hcopy in Hb. injection Hb as <-. rewrite Hq. split; [exact Hstep1|].
      intros bound _ Hbelow. apply below_one_more, Hbelow1, Hbelow.
  - rewrite bool_decide_eq_false_2 by (intros [? ?]; discriminate).
    eexists. split; [reflexivity|]. split; [reflexivity | exact Hgood].
Qed.

(** Trying to add a step: where an [int] has room the undo returns and
    restores the quantities; where it has none the undo panics. *)
Lemma tryAdding_cases (st : round) (food : Food float) :
  stepQuantities (quantitiesOf st) ->
  goodBest (quantitiesOf st) st ->
  (exists st',
      tryAdding_ st food = Ok st'
      /\ quantitiesOf st' = quantitiesOf st
      /\ goodBest (quantitiesOf st) st')
  \/ (exists grams,
        quantitiesOf st !! food_id food = Some grams
        /\ Int.max_int < grams + STEPSIZE
        /\ tryAdding_ st food = Panic "Asked to remove more food than is in recipe").
Proof.
  intros Hstep Hgood. unfold tryAdding. rewrite AddFood_Ok. cbn [mbind outcome_bind].
  match goal with |- context [scoreTrial_ ?x] =>
    destruct (scoreTrial_result x) as (st0 & -> & Hcur & Hbest) end.
  cbn [mbind outcome_bind].
  cbn [setCurrent currentRecipe foodQuantities nutrientTotals bestRecipeThisRound] in *.
  rewrite Hcur.
  set (stored := match foodQuantities (currentRecipe st) !! food_id food with
                 | Some originalQuantity => Int.add originalQuantity STEPSIZE
                 | None => STEPSIZE
                 end) in *.
  match goal with |- context [RemoveFood _ _ _ ?x] => set (added := x) in * end.
  assert (Hstored : foodQuantities added !! food_id food = Some stored)
    by apply lookup_insert_eq.
  assert (Hroom :
            (forall grams, foodQuantities (currentRecipe st) !! food_id food = Some grams ->
                           (grams + STEPSIZE <= Int.max_int)%Z)
            \/ exists grams, foodQuantities (currentRecipe st) !! food_id food = Some grams
                             /\ (Int.max_int < grams + STEPSIZE)%Z).
  { destruct (foodQuantities (currentRecipe st) !! food_id food) as [grams|].
    - destruct (Z_le_gt_dec (grams + STEPSIZE) Int.max_int).
      + left. intros ? [= <-]. assumption.
      + right. exists grams. split; [reflexivity | lia].
    - left. intros ? [=]. }
  destruct Hroom as [Hroom | (grams & Hg & Hover)].
  - left. destruct (step_added_and_back _ _ Hstep Hroom)
      as (Hstep1 & Hbelow1 & Hle & Hback).
    fold stored in Hstep1, Hbelow1, Hle, Hback.
    rewrite (RemoveFood_Ok _ _ _ _ _ Hstored Hle). cbn [mbind outcome_bind].
    eexists. split; [reflexivity|].
    cbn [setCurrent currentRecipe foodQuantities bestRecipeThisRound].
    subst added. cbn [foodQuantities]. split; [exact Hback|].
    intros best Hb. cbn [setCurrent bestRecipeThisRound] in Hb.
    destruct Hbest as [Hsame | (copy & Hcopy & Hq)].
    + apply Hgood. congruence.
    + rewrite Hcopy in Hb. injection Hb as <-. rewrite Hq. split; [exact Hstep1|].
      exact Hbelow1.
  - right. exists grams. split; [exact Hg|]. split; [exact Hover|].
    rewrite (RemoveFood_excess _ _ _ _ _ Hstored); [reflexivity|].
    subst stored. rewrite Hg. eapply step_added_overflows; eauto.
Qed.

Lemma tryFood_cases (st : round) (food : Food float) :
  stepQuantities (quantitiesOf st) ->
  goodBest (quantitiesOf st) st ->
  (exists st',
      tryFood_ st food = Ok st'
      /\ quantitiesOf st' = quantitiesOf st
      /\ goodBest (quantitiesOf st) st')
  \/ (exists msg grams,
        tryFood_ st food = Panic msg
        /\ quantitiesOf st !! food_id food = Some grams
        /\ (Int.max_int < grams + STEPSIZE)%Z).
Proof.
  intros Hstep Hgood. unfold tryFood.
  destruct (tryRemoving_returns st food Hstep Hgood) as (st1 & -> & Hq1 & Hgood1).
  cbn [mbind outcome_bind]. rewrite <- Hq1 in Hstep, Hgood1.
  destruct (tryAdding_cases st1 food Hstep Hgood1)
    as [(st2 & H2 & Hq2 & Hgood2) | (grams & Hg & Hover & H2)].
  - left. exists st2. rewrite <- Hq1. auto.
  - right. exists "Asked to remove more food than is in recipe"%string, grams.
    rewrite <- Hq1. auto.
Qed.

Lemma forEach_tryFood_cases (foods : list (Food float)) :
  forall st : round,
    stepQuantities (quantitiesOf st) ->
    goodBest (quantitiesOf st) st ->
    (exists st',
        forEach tryFood_ st foods = Ok st'
        /\ quantitiesOf st' = quantitiesOf st
        /\ goodBest (quantitiesOf st) st')
    \/ (exists msg foodId grams,
          forEach tryFood_ st foods = Panic msg
          /\ quantitiesOf st !! foodId = Some grams
          /\ (Int.max_int < grams + STEPSIZE)%Z).
Proof.
  induction foods as [|food foods IH]; intros st Hstep Hgood; cbn [forEach].
  - left. exists st. auto.
  - destruct (tryFood_cases st food Hstep Hgood)
      as [(st1 & -> & Hq1 & Hgood1) | (msg & grams & -> & Hg & Hover)].
    + cbn [mbind outcome_bind]. rewrite <- Hq1 in *. apply IH; assumption.
    + right. exists msg, (food_id food), grams. auto.
Qed.

Lemma searchRound_cases (foods : list (Food float)) (best : Recipe float)
    (start : float) :
  stepQuantities (foodQuantities best) ->
  (exists st,
      searchRound_ foods best start = Ok st
      /\ quantitiesOf st = foodQuantities best
      /\ goodBest (foodQuantities best) st)
  \/ (exists msg foodId grams,
        searchRound_ foods best start = Panic msg
        /\ foodQuantities best !! foodId = Some grams
        /\ (Int.max_int < grams + STEPSIZE)%Z).
Proof.
  intros Hstep. unfold searchRound. rewrite Clone_Ok. cbn [mbind outcome_bind].
  match goal with |- context [forEach _ ?x] =>
    apply (forEach_tryFood_cases foods x) end.
  - exact Hstep.
  - intros c [=].
Qed.

(** However long the search runs, if it has not panicked the best
    recipe has its quantities in steps. *)
Lemma search_keeps_steps (order : nat -> list (Food float)) (rounds : nat) :
  forall (k : nat) (r r' : run),
    stepQuantities (foodQuantities (bestRecipeEver r)) ->
    search_ rounds order k r = Ok r' ->
    stepQuantities (foodQuantities (bestRecipeEver r')).
Proof.
  induction rounds as [|rounds IH]; intros k r r' Hstep; cbn [search].
  - destruct (0 <? bestScoreEver r); intros [= <-]; exact Hstep.
  - destruct (0 <? bestScoreEver r); [|intros [= <-]; exact Hstep].
    cbn [printed bestRecipeEver bestScoreEver].
    destruct (searchRound_cases (order k) (bestRecipeEver r) (bestScoreEver r) Hstep)
      as [(st & -> & _ & Hgood) | (msg & i & g & -> & _)]; [|discriminate].
    cbn [mbind outcome_bind]. unfold endOfRound.
    cbn [printed bestRecipeEver bestScoreEver].
    destruct (bestRecipeThisRound st) as [best|] eqn:Hbest.
    + destruct (bestScoreEver r <? bestScoreThisRound st); [discriminate|].
      cbn [mbind outcome_bind state]. apply IH. cbn [bestRecipeEver].
      apply (Hgood best Hbest).
    + cbn [mbind outcome_bind state]. intros [= <-]. exact Hstep.
Qed.

(** While an [int] has room for one more step on every food, the search
    does not panic. *)
Lemma search_returns (order : nat -> list (Food float)) (rounds : nat) :
  forall (k : nat) (r : run) (bound : Z),
    (0 <= bound)%Z ->
    stepQuantities (foodQuantities (bestRecipeEver r)) ->
    below bound (foodQuantities (bestRecipeEver r)) ->
    (bound + STEPSIZE * Z.of_nat rounds <= Int.max_int)%Z ->
    exists r',
      search_ rounds order k r = Ok r'
      /\ below (bound + STEPSIZE * Z.of_nat rounds) (foodQuantities (bestRecipeEver r')).
Proof.
  assert (Hmono : forall (b b' : Z) q, (b <= b')%Z -> below b q -> below b' q).
  { intros b b' q Hle H i g Hg. specialize (H i g Hg). lia. }
  induction rounds as [|rounds IH]; intros k r bound Hbound Hstep Hbelow Hmax;
    cbn [search].
  - destruct (0 <? bestScoreEver r); eexists; (split; [reflexivity|]);
      cbn [bestRecipeEver]; eapply Hmono; try exact Hbelow; unfold STEPSIZE; lia.
  - destruct (0 <? bestScoreEver r).
    2:{ eexists. split; [reflexivity|]. cbn [bestRecipeEver].
        eapply Hmono; [|exact Hbelow]. unfold STEPSIZE. lia. }
    cbn [printed bestRecipeEver bestScoreEver].
    destruct (searchRound_cases (order k) (bestRecipeEver r) (bestScoreEver r) Hstep)
      as [(st & Hround & _ & Hgood) | (msg & i & g & _ & Hg & Hover)].
    2:{ specialize (Hbelow i g Hg). unfold STEPSIZE in *. lia. }
    rewrite Hround. cbn [mbind outcome_bind].
    pose proof (searchRound_improves _ _ _ _ _ _ _ Hround) as Himp.
    unfold improves in Himp.
    destruct (bestRecipeThisRound st) as [best|] eqn:Hbest.
    + destruct Himp as [Hlt _].
      rewrite (endOfRound_adopt _ _ _ _ _ _ Hbest) by (apply ltb_asym, Hlt).
      cbn [mbind outcome_bind state].
      destruct (Hgood best Hbest) as [Hstep' Hbelow'].
      destruct (IH (S k) {| printed := printed r ++ [bestScoreEver r];
                            bestRecipeEver := best;
                            bestScoreEver := bestScoreThisRound st;
                            state := Searching |} (bound + STEPSIZE)%Z)
        as (r' & Hr' & Hb').
      * unfold STEPSIZE. lia.
      * exact Hstep'.
      * apply Hbelow'; assumption.
      * unfold STEPSIZE in *. lia.
      * exists r'. split; [exact Hr'|]. eapply Hmono; [|exact Hb'].
        unfold STEPSIZE. lia.
    + rewrite (endOfRound_none _ _ _ _ _ Hbest). cbn [mbind outcome_bind state].
      eexists. split; [reflexivity|]. cbn [bestRecipeEver].
      eapply Hmono; [|exact Hbelow]. unfold STEPSIZE. lia.
Qed.

(** C10. Starting from the new recipe and moving by steps of 5 g, the
    best recipe of the search always has quantities that are positive
    multiples of the step (so at least the step), and so have the
    current recipe between two foods and the best of a round.  Hence the
    trial removal of a step of a food the current recipe has returns,
    and so does its undo; and the undo of a trial addition returns
    wherever the food's grams plus the step are still an [int], which
    is so in each of the first 1844674407370955161 rounds: for that many
    rounds [main] does not panic. *)
Theorem search_moves_in_steps :
  (forall rounds order r,
      main_ rounds order = Ok r ->
      stepQuantities (foodQuantities (bestRecipeEver r))
      /\ forall foodId grams,
           foodQuantities (bestRecipeEver r) !! foodId = Some grams ->
           (STEPSIZE <= grams)%Z /\ (STEPSIZE | grams)%Z)
  /\ (forall foods best start st,
        stepQuantities (foodQuantities best) ->
        searchRound_ foods best start = Ok st ->
        quantitiesOf st = foodQuantities best
        /\ forall adopted, bestRecipeThisRound st = Some adopted ->
                           stepQuantities (foodQuantities adopted))
  /\ (forall st food,
        stepQuantities (quantitiesOf st) ->
        HasFood (currentRecipe st) food = true ->
        exists removed undone,
          RemoveFood allFoods food STEPSIZE (currentRecipe st) = Ok removed
          /\ stepQuantities (foodQuantities removed)
          /\ AddFood allFoods food STEPSIZE removed = Ok undone
          /\ foodQuantities undone = quantitiesOf st)
  /\ (forall st food,
        stepQuantities (quantitiesOf st) ->
        (forall grams, quantitiesOf st !! food_id food = Some grams ->
                       (grams + STEPSIZE <= Int.max_int)%Z) ->
        exists added undone,
          AddFood allFoods food STEPSIZE (currentRecipe st) = Ok added
          /\ stepQuantities (foodQuantities added)
          /\ RemoveFood allFoods food STEPSIZE added = Ok undone
          /\ foodQuantities undone = quantitiesOf st)
  /\ (forall rounds order,
        (STEPSIZE * Z.of_nat rounds <= Int.max_int)%Z ->
        exists r,
          main_ rounds order = Ok r
          /\ below (STEPSIZE * Z.of_nat rounds) (foodQuantities (bestRecipeEver r))).
Proof.
  assert (Hempty : stepQuantities ∅).
  { intros i g. rewrite lookup_empty. discriminate. }
  split; [|split; [|split; [|split]]].
  - intros rounds order r. unfold main, NewRecipe.
    cbn [mbind outcome_bind AssertConsistency].
    match goal with |- context [Score _ _ _ _ ?best] =>
      destruct (Score_returns allNutrients nutrientNameToId allFoods false best)
        as [s ->] end.
    cbn [mbind outcome_bind].
    intros H. apply search_keeps_steps in H.
    + split; [exact H|]. intros i g Hg.
      destruct (stepQuantities_at_least _ _ _ H Hg) as [[? _] ?]. auto.
    + exact Hempty.
  - intros foods best start st Hstep Hround.
    destruct (searchRound_cases foods best start Hstep)
      as [(st' & Hst' & Hq & Hgood) | (msg & i & g & Hpanic & _)];
      [|congruence].
    rewrite Hround in Hst'. injection Hst' as <-. split; [exact Hq|].
    intros adopted Ha. apply (Hgood adopted Ha).
  - intros st food Hstep Hhas. unfold HasFood in Hhas.
    apply bool_decide_eq_true_1 in Hhas. destruct Hhas as [grams Hg].
    destruct (stepQuantities_at_least _ _ _ Hstep Hg) as [[Hge _] _].
    destruct (step_removed_and_back _ _ _ Hstep Hg) as (Hstep1 & _ & Hback).
    eexists. eexists. split; [apply (RemoveFood_Ok _ _ _ _ _ Hg Hge)|].
    split; [exact Hstep1|]. split; [apply AddFood_Ok|]. exact Hback.
  - intros st food Hstep Hroom.
    destruct (step_added_and_back _ _ Hstep Hroom) as (Hstep1 & _ & Hle & Hback).
    eexists. eexists. split; [apply AddFood_Ok|]. split; [exact Hstep1|].
    split.
    + apply RemoveFood_Ok; [apply lookup_insert_eq | exact Hle].
    + exact Hback.
  - intros rounds order Hmax. unfold main, NewRecipe.
    cbn [mbind outcome_bind AssertConsistency].
    match goal with |- context [Score _ _ _ _ ?best] =>
      destruct (Score_returns allNutrients nutrientNameToId allFoods false best)
        as [s ->] end.
    cbn [mbind outcome_bind].
    match goal with |- context [search_ _ _ _ ?x] =>
      destruct (search_returns order rounds 0%nat x 0%Z) as (r & Hr & Hb) end.
    + lia.
    + exact Hempty.
    + intros i g. cbn [bestRecipeEver foodQuantities].
      rewrite lookup_empty. discriminate.
    + lia.
    + exists r. split; [exact Hr | exact Hb].
Qed.

End StepSearch.

(** Four rounds of the search on the small catalog return, with at most
    20 g of the food. *)
Lemma search_moves_in_steps_witness :
  exists r,
    main sampleNutrients sampleNames sampleFoods 4 (fun _ => [sampleFood]) = Ok r
    /\ below 20 (foodQuantities (bestRecipeEver r)).
Proof.
  refine (proj2 (proj2 (proj2 (proj2
    (search_moves_in_steps sampleNutrients sampleNames sampleFoods))))
    4%nat (fun _ => [sampleFood]) _).
  vm_compute. discriminate.
Defined.

(** ** The markers of the text fields *)

Section Twiddles.

Implicit Types (s input front : string) (a b : Ascii.ascii).

Lemma append_String a s input : String a s +:+ input = String a (s +:+ input).
Proof. reflexivity. Qed.

Lemma append_empty input : "" +:+ input = input.
Proof. reflexivity. Qed.

Lemma length_snoc s b : String.length (s +:+ String b "") = S (String.length s).
Proof.
  induction s as [|a s IH]; [reflexivity|].
  rewrite append_String. cbn [String.length]. rewrite IH. reflexivity.
Qed.

Lemma get_snoc s b : String.get (String.length s) (s +:+ String b "") = Some b.
Proof.
  induction s as [|a s IH]; [reflexivity|].
  rewrite append_String. cbn [String.length String.get]. exact IH.
Qed.

Lemma substring_snoc s b :
  String.substring 0 (String.length s) (s +:+ String b "") = s.
Proof.
  induction s as [|a s IH]; [reflexivity|].
  rewrite append_String. cbn [String.length String.substring]. rewrite IH. reflexivity.
Qed.

Lemma snoc_inj front s b b' :
  front +:+ String b "" = s +:+ String b' "" -> front = s /\ b = b'.
Proof.
  revert s. induction front as [|a front IH]; intros [|c s];
    rewrite ?append_String, ?append_empty; intros H.
  - injection H as ->. auto.
  - injection H as _ H. destruct s; discriminate.
  - injection H as _ H. destruct front; discriminate.
  - injection H as -> H. destruct (IH _ H) as [-> ->]. auto.
Qed.

(** A string that is not empty ends with a byte. *)
Lemma string_snoc_inv a s : exists front b, String a s = front +:+ String b "".
Proof.
  revert a. induction s as [|c s IH]; intros a.
  - exists ""%string, a. reflexivity.
  - destruct (IH c) as (front & b & ->). exists (String a front), b. reflexivity.
Qed.

(** On a string of at least two bytes [stripTwiddles] returns what is
    between the first and the last. *)
Lemma stripTwiddles_Ok a front b :
  stripTwiddles (String a (front +:+ String b "")) = Ok front.
Proof.
  unfold stripTwiddles. cbn [String.length]. rewrite length_snoc.
  cbn [Nat.ltb Nat.leb].
  replace (S (S (String.length front)) - 2)%nat with (String.length front) by lia.
  cbn [String.substring]. rewrite substring_snoc. reflexivity.
Qed.

(** What [stripTwiddles] returns: the string without its first and its
    last byte, whatever these are; it panics on a string of fewer than
    two bytes. *)
Theorem stripTwiddles_drops_ends input :
  (forall s, stripTwiddles input = Ok s
             <-> exists a b, input = String a (s +:+ String b ""))
  /\ ((exists msg, stripTwiddles input = Panic msg)
      <-> (String.length input < 2)%nat).
Proof.
  destruct input as [|a [|c rest]].
  - split.
    + intros s. split; [discriminate | intros (a & b & [=])].
    + split; [cbn; lia | eauto].
  - split.
    + intros s. split; [discriminate|]. intros (a' & b & [= _ H]).
      destruct s; discriminate.
    + split; [cbn; lia | eauto].
  - destruct (string_snoc_inv c rest) as (front & b & ->).
    rewrite stripTwiddles_Ok. split.
    + intros s. split.
      * intros [= <-]. eauto.
      * intros (a' & b' & [= _ H]). apply snoc_inj in H as [-> _]. reflexivity.
    + split; [intros [msg [=]]|]. cbn [String.length]. rewrite length_snoc. lia.
Qed.

Lemma assertStringHasTwiddles_Ok s :
  assertStringHasTwiddles (String tilde (s +:+ String tilde "")) = Ok tt.
Proof.
  unfold assertStringHasTwiddles. cbn [String.get String.length].
  rewrite Ascii.eqb_refl. cbn [negb]. rewrite length_snoc.
  replace (S (S (String.length s)) - 1)%nat with (S (String.length s)) by lia.
  cbn [String.get]. rewrite get_snoc, Ascii.eqb_refl. reflexivity.
Qed.

(** [assertStringHasTwiddles] returns exactly on the strings that begin
    and end with a tilde, the one-byte string of a tilde among them; on
    the empty string it is the index that panics. *)
Theorem assertStringHasTwiddles_passes_iff input :
  (assertStringHasTwiddles input = Ok tt
   <-> input = String tilde ""
       \/ exists s, input = String tilde (s +:+ String tilde ""))
  /\ (input = ""%string ->
      assertStringHasTwiddles input = Panic "index out of range").
Proof.
  split; [|intros ->; reflexivity].
  unfold assertStringHasTwiddles. destruct input as [|a rest].
  - split; [discriminate | intros [[=] | [s [=]]]].
  - cbn [String.get]. destruct (Ascii.eqb_spec a tilde) as [->|Hne]; cbn [negb].
    + destruct rest as [|c rest].
      * cbn. split; [auto | reflexivity].
      * destruct (string_snoc_inv c rest) as (front & b & ->).
        cbn [String.length]. rewrite length_snoc.
        replace (S (S (String.length front)) - 1)%nat with (S (String.length front))
          by lia.
        cbn [String.get]. rewrite Nat.sub_0_r || idtac. rewrite get_snoc.
        destruct (Ascii.eqb_spec b tilde) as [->|Hb]; cbn [negb].
        -- split; [eauto | reflexivity].
        -- split; [discriminate|]. intros [[= H] | [s [= H]]].
           ++ destruct front; discriminate.
           ++ apply snoc_inj in H as [_ ->]. contradiction.
    + split; [discriminate|]. intros [[= -> _] | [s [= -> _]]]; contradiction.
Qed.

(** A field between tildes passes the assertion, and stripping it gives
    the field back. *)
Theorem twiddles_round_trip s :
  assertStringHasTwiddles (String tilde (s +:+ String tilde "")) = Ok tt
  /\ stripTwiddles (String tilde (s +:+ String tilde "")) = Ok s.
Proof.
  split; [apply assertStringHasTwiddles_Ok | apply stripTwiddles_Ok].
Qed.

End Twiddles.

(** ** [Equals], [HasFood] and how the calls compose *)

Section ComposeFacts.

Context {F : Type} {N : Num F}.

Implicit Types (recipe : Recipe F) (food : Food F) (allFoods : gmap Z (Food F)).

Lemma Equals_decides recipe1 recipe2 allFoods :
  Equals recipe1 recipe2 allFoods
  = Ok (bool_decide (foodQuantities recipe1 = foodQuantities recipe2)).
Proof.
  unfold Equals. cbn [mbind outcome_bind AssertConsistency].
  destruct (Nat.eqb_spec (size (foodQuantities recipe1))
              (size (foodQuantities recipe2))) as [Hsize|Hsize]; cbn [negb];
    f_equal.
  - match goal with |- forallb ?f ?l = _ => destruct (forallb f l) eqn:Hall end.
    + symmetry. apply bool_decide_eq_true_2.
      apply map_subseteq_size_eq; [|lia].
      apply map_subseteq_spec. intros key value Hkey.
      rewrite forallb_forall in Hall.
      specialize (Hall (key, value)). cbn in Hall.
      destruct (foodQuantities recipe2 !! key) as [value2|].
      * apply Z.eqb_eq in Hall; [congruence|].
        apply list_elem_of_In, elem_of_map_to_list, Hkey.
      * discriminate Hall.
        apply list_elem_of_In, elem_of_map_to_list, Hkey.
    + symmetry. apply bool_decide_eq_false_2. intros Heq.
      assert (Htrue : forallb
                (fun '(key, value1) =>
                   match foodQuantities recipe2 !! key with
                   | Some value2 => value1 =? value2
                   | None => false
                   end) (map_to_list (foodQuantities recipe1)) = true).
      { apply forallb_forall. intros [key value] Hin.
        apply list_elem_of_In, elem_of_map_to_list in Hin.
        rewrite <- Heq, Hin. apply Z.eqb_refl. }
      congruence.
  - symmetry. apply bool_decide_eq_false_2. intros Heq. rewrite Heq in Hsize.
    contradiction.
Qed.

(** [Equals] answers whether the two recipes hold the same foods with the
    same grams; the nutrient totals are not looked at. *)
Theorem Equals_iff_same_quantities recipe1 recipe2 allFoods :
  (Equals recipe1 recipe2 allFoods = Ok true
   <-> foodQuantities recipe1 = foodQuantities recipe2)
  /\ (Equals recipe1 recipe2 allFoods = Ok false
      <-> foodQuantities recipe1 <> foodQuantities recipe2).
Proof.
  rewrite Equals_decides. split.
  - split; [intros [= Hb]; apply bool_decide_eq_true in Hb; exact Hb
           | intros Heq; rewrite bool_decide_eq_true_2 by exact Heq; reflexivity].
  - split; [intros [= Hb]; apply bool_decide_eq_false in Hb; exact Hb
           | intros Hne; rewrite bool_decide_eq_false_2 by exact Hne; reflexivity].
Qed.

(** [HasFood] after the two calls: a food that was added is in the
    recipe, a removed food is still in it exactly when grams are left,
    and the other foods are where they were; and [RemoveFood] of a food
    that [HasFood] reports cannot panic for an absent food. *)
Theorem HasFood_after_calls allFoods food grams recipe :
  (forall recipe', AddFood allFoods food grams recipe = Ok recipe' ->
     HasFood recipe' food = true
     /\ forall other, food_id other <> food_id food ->
                      HasFood recipe' other = HasFood recipe other)
  /\ (forall recipe', RemoveFood allFoods food grams recipe = Ok recipe' ->
        HasFood recipe food = true
        /\ (HasFood recipe' food = false
            <-> foodQuantities recipe !! food_id food = Some grams)
        /\ forall other, food_id other <> food_id food ->
                         HasFood recipe' other = HasFood recipe other)
  /\ (HasFood recipe food = true ->
      RemoveFood allFoods food grams recipe
      <> Panic "Asked to remove food that is not in recipe")
  /\ (HasFood recipe food = false ->
      RemoveFood allFoods food grams recipe
      = Panic "Asked to remove food that is not in recipe").
Proof.
  unfold HasFood. split; [|split; [|split]].
  - rewrite AddFood_Ok. intros recipe' [= <-]. cbn [foodQuantities]. split.
    + rewrite lookup_insert_eq. apply bool_decide_eq_true_2. eauto.
    + intros other Hne. rewrite lookup_insert_ne by congruence. reflexivity.
  - intros recipe' H.
    destruct (foodQuantities recipe !! food_id food) as [q|] eqn:Hq.
    2:{ rewrite (RemoveFood_absent _ _ _ _ Hq) in H. discriminate. }
    destruct (Z_lt_le_dec q grams) as [Hlt|Hle].
    { rewrite (RemoveFood_excess _ _ _ _ _ Hq Hlt) in H. discriminate. }
    rewrite (RemoveFood_Ok _ _ _ _ _ Hq Hle) in H. injection H as <-.
    cbn [foodQuantities]. split; [apply bool_decide_eq_true_2; eauto|]. split.
    + destruct (decide (grams = q)) as [->|Hne].
      * rewrite lookup_delete_eq. split; [reflexivity|]. intros _.
        apply bool_decide_eq_false_2. intros [? ?]. discriminate.
      * rewrite lookup_insert_eq. split.
        -- intros Hf. apply bool_decide_eq_false_1 in Hf. exfalso. apply Hf. eauto.
        -- intros [= ->]. contradiction.
    + intros other Hne. destruct (decide (grams = q)).
      * rewrite lookup_delete_ne by congruence. reflexivity.
      * rewrite lookup_insert_ne by congruence. reflexivity.
  - intros Hhas. apply bool_decide_eq_true_1 in Hhas. destruct Hhas as [q Hq].
    destruct (Z_lt_le_dec q grams) as [Hlt|Hle].
    + rewrite (RemoveFood_excess _ _ _ _ _ Hq Hlt). discriminate.
    + rewrite (RemoveFood_Ok _ _ _ _ _ Hq Hle). discriminate.
  - intros Hhas. apply bool_decide_eq_false_1 in Hhas. apply RemoveFood_absent.
    destruct (foodQuantities recipe !! food_id food); [|reflexivity].
    exfalso. apply Hhas. eauto.
Qed.

End ComposeFacts.

(** ** More on how [AddFood] and [RemoveFood] compose *)

Section ComposeQuantities.

Context {F : Type} {N : Num F}.

Implicit Types (recipe : Recipe F) (food : Food F) (allFoods : gmap Z (Food F)).

Lemma wrap_add_wrap_l (a b : Z) : Int.wrap (Int.wrap a + b) = Int.wrap (a + b).
Proof.
  unfold Int.wrap. f_equal.
  replace ((a + 2 ^ 63) mod 2 ^ 64 - 2 ^ 63 + b + 2 ^ 63)
    with ((a + 2 ^ 63) mod 2 ^ 64 + b) by lia.
  rewrite Zplus_mod_idemp_l. f_equal. lia.
Qed.

Lemma wrap_add_wrap_r (a b : Z) : Int.wrap (a + Int.wrap b) = Int.wrap (a + b).
Proof. rewrite Z.add_comm, wrap_add_wrap_l. f_equal. lia. Qed.

(** Removing grams of a food the recipe has and adding them back
    restores the quantities, for any positive grams up to the quantity:
    the order in which the search undoes a trial removal. *)
Theorem RemoveFood_then_AddFood allFoods food grams recipe q :
  foodQuantities recipe !! food_id food = Some q ->
  0 < grams <= q ->
  q <= Int.max_int ->
  exists removed restored,
    RemoveFood allFoods food grams recipe = Ok removed
    /\ AddFood allFoods food grams removed = Ok restored
    /\ foodQuantities restored = foodQuantities recipe
    /\ (grams = q -> foodQuantities removed !! food_id food = None)
    /\ (grams < q -> foodQuantities removed !! food_id food = Some (q - grams)).
Proof.
  intros Hq [Hpos Hle] Hmax.
  eexists. eexists. split; [apply (RemoveFood_Ok _ _ _ _ _ Hq Hle)|].
  split; [apply AddFood_Ok|]. cbn [foodQuantities].
  assert (Hsub : Int.sub q grams = q - grams).
  { apply IntFacts.sub_small.
    unfold Int.in_range, Int.min_int, Int.max_int in *. lia. }
  destruct (decide (grams = q)) as [->|Hne].
  - rewrite lookup_delete_eq, insert_delete_eq.
    split; [apply insert_id, Hq|]. split; [reflexivity | lia].
  - rewrite lookup_insert_eq, insert_insert_eq, Hsub.
    rewrite IntFacts.add_small
      by (unfold Int.in_range, Int.min_int, Int.max_int in *; lia).
    replace (q - grams + grams) with q by lia.
    split; [apply insert_id, Hq|]. split; [lia | reflexivity].
Qed.

(** Two [AddFood] calls for one food leave the quantities that one call
    with the sum of the grams, taken in [int], leaves (also where the
    arithmetic wraps); calls for two foods leave the same quantities in
    either order. *)
Theorem AddFood_twice_quantities allFoods food grams1 grams2 recipe :
  (exists once twice merged,
      AddFood allFoods food grams1 recipe = Ok once
      /\ AddFood allFoods food grams2 once = Ok twice
      /\ AddFood allFoods food (Int.add grams1 grams2) recipe = Ok merged
      /\ foodQuantities twice = foodQuantities merged)
  /\ (forall other grams,
        food_id other <> food_id food ->
        exists first second first' second',
          AddFood allFoods food grams1 recipe = Ok first
          /\ AddFood allFoods other grams first = Ok second
          /\ AddFood allFoods other grams recipe = Ok first'
          /\ AddFood allFoods food grams1 first' = Ok second'
          /\ foodQuantities second = foodQuantities second').
Proof.
  split.
  - eexists. eexists. eexists.
    split; [apply AddFood_Ok|]. split; [apply AddFood_Ok|].
    split; [apply AddFood_Ok|]. cbn [foodQuantities].
    rewrite lookup_insert_eq, insert_insert_eq. f_equal.
    destruct (foodQuantities recipe !! food_id food) as [q|]; [|reflexivity].
    unfold Int.add. rewrite wrap_add_wrap_l, wrap_add_wrap_r. f_equal. lia.
  - intros other grams Hne. do 4 eexists.
    split; [apply AddFood_Ok|]. split; [apply AddFood_Ok|].
    split; [apply AddFood_Ok|]. split; [apply AddFood_Ok|]. cbn [foodQuantities].
    rewrite !lookup_insert_ne by congruence.
    apply insert_insert_ne. congruence.
Qed.

(** In a recipe built within [int] every food the recipe holds has
    positive grams: no entry of 0 grams is left behind. *)
Theorem built_quantities_positive allFoods (allNutrients : gmap Z Nutrient) recipe :
  built Int.in_range allFoods allNutrients recipe ->
  forall foodId q,
    foodQuantities recipe !! foodId = Some q -> 0 < q <= Int.max_int.
Proof.
  induction 1 as [recipe Hnew | recipe food grams recipe' _ IH Hfood Hpos Hfits Hadd
                 | recipe food grams recipe' _ IH Hfood Hpos Hrem]; intros foodId q.
  - injection Hnew as <-. cbn. rewrite lookup_empty. discriminate.
  - rewrite AddFood_Ok in Hadd. injection Hadd as <-. cbn [foodQuantities].
    rewrite lookup_insert. destruct (decide (food_id food = foodId)); [|apply IH].
    intros [= <-].
    destruct (foodQuantities recipe !! food_id food) as [q0|] eqn:Hq0; cbn in Hfits.
    + specialize (IH _ _ Hq0). rewrite IntFacts.add_small by exact Hfits.
      unfold Int.in_range, Int.max_int in *. lia.
    + unfold Int.in_range, Int.max_int in *. lia.
  - destruct (foodQuantities recipe !! food_id food) as [q0|] eqn:Hq0.
    2:{ rewrite (RemoveFood_absent _ _ _ _ Hq0) in Hrem. discriminate. }
    destruct (Z_lt_le_dec q0 grams) as [Hlt|Hle].
    { rewrite (RemoveFood_excess _ _ _ _ _ Hq0 Hlt) in Hrem. discriminate. }
    rewrite (RemoveFood_Ok _ _ _ _ _ Hq0 Hle) in Hrem. injection Hrem as <-.
    cbn [foodQuantities]. specialize (IH _ _ Hq0) as Hq0'.
    destruct (decide (grams = q0)) as [->|Hne].
    + rewrite lookup_delete. destruct (decide (food_id food = foodId));
        [discriminate | apply IH].
    + rewrite lookup_insert. destruct (decide (food_id food = foodId)); [|apply IH].
      intros [= <-]. rewrite IntFacts.sub_small;
        unfold Int.in_range, Int.min_int, Int.max_int in *; lia.
Qed.

End ComposeQuantities.

(** 2 g of the 6 g of the exact small catalog's food removed and added
    back. *)
Lemma RemoveFood_then_AddFood_witness :
  exists removed restored,
    RemoveFood (N := exactZ) sampleFoodsZ sampleFoodZ 2 sampleSixZ = Ok removed
    /\ AddFood (N := exactZ) sampleFoodsZ sampleFoodZ 2 removed = Ok restored
    /\ foodQuantities restored = foodQuantities sampleSixZ.
Proof.
  destruct (RemoveFood_then_AddFood (N := exactZ) sampleFoodsZ sampleFoodZ 2 sampleSixZ 6)
    as (removed & restored & H1 & H2 & H3 & _).
  - reflexivity.
  - lia.
  - unfold Int.max_int. lia.
  - exists removed, restored. auto.
Defined.

(** The 4 g of the exact small catalog's recipe are positive. *)
Lemma built_quantities_positive_witness :
  0 < 4 <= Int.max_int.
Proof.
  exact (built_quantities_positive (N := exactZ) sampleFoodsZ sampleNutrients
           sampleFourZ sampleFourZ_built 1001 4 eq_refl).
Defined.

(** ** The score along the search *)

Section ScoreAlong.

Variable allNutrients : gmap Z Nutrient.
Variable nutrientNameToId : gmap string Z.
Variable allFoods : gmap Z (Food float).

Local Open Scope float_scope.

Local Notation "'score'" := (Score allNutrients allFoods nutrientNameToId false).
Local Notation "'clone'" := (Clone allFoods allNutrients).
Local Notation "'searchRound_'" := (searchRound allNutrients nutrientNameToId allFoods).
Local Notation "'endOfRound_'" := (endOfRound allNutrients nutrientNameToId allFoods).
Local Notation "'search_'" := (search allNutrients nutrientNameToId allFoods).
Local Notation "'main_'" := (main allNutrients nutrientNameToId allFoods).

(** [Score] reads a recipe through its quantities and through [m[k]] on
    its totals only. *)
Lemma Score_ext (nutrients : gmap Z Nutrient) (foods foods' : gmap Z (Food float))
    (verbose verbose' : bool) (recipe1 recipe2 : Recipe float) :
  (forall id, get (nutrientTotals recipe1) id = get (nutrientTotals recipe2) id) ->
  foodQuantities recipe1 = foodQuantities recipe2 ->
  Score nutrients foods nutrientNameToId verbose recipe1
  = Score nutrients foods' nutrientNameToId verbose' recipe2.
Proof.
  intros Hget Hq. unfold Score, calculatePenaltyForNutrient, calcPenalty.
  cbn [mbind outcome_bind AssertConsistency]. rewrite Hq.
  unfold targets. cbn [foldl]. rewrite !Hget. reflexivity.
Qed.

Lemma Clone_get (recipe copy : Recipe float) (id : Z) :
  clone recipe = Ok copy ->
  get (nutrientTotals copy) id = get (nutrientTotals recipe) id.
Proof.
  rewrite Clone_Ok. intros [= <-]. cbn [nutrientTotals]. unfold get.
  rewrite lookup_union, lookup_fmap.
  destruct (nutrientTotals recipe !! id), (allNutrients !! id); reflexivity.
Qed.

(** A clone holds the same foods, reads the same totals, has an entry
    for every nutrient of the catalog, and scores what the original
    scores. *)
Theorem Clone_same_score (recipe copy : Recipe float) :
  clone recipe = Ok copy ->
  Equals copy recipe allFoods = Ok true
  /\ (forall id, get (nutrientTotals copy) id = get (nutrientTotals recipe) id)
  /\ (forall id, is_Some (allNutrients !! id) -> is_Some (nutrientTotals copy !! id))
  /\ (forall verbose,
        Score allNutrients allFoods nutrientNameToId verbose copy
        = Score allNutrients allFoods nutrientNameToId verbose recipe).
Proof.
  intros H. split; [|split; [|split]].
  - rewrite Equals_decides, bool_decide_eq_true_2; [reflexivity|].
    exact (Clone_quantities allNutrients allFoods _ _ H).
  - intros id. apply Clone_get, H.
  - rewrite Clone_Ok in H. injection H as <-. cbn [nutrientTotals].
    intros id [n Hn]. rewrite lookup_union, lookup_fmap, Hn.
    destruct (nutrientTotals recipe !! id); cbn; eauto.
  - intros verbose. apply Score_ext.
    + intros id. apply Clone_get, H.
    + exact (Clone_quantities allNutrients allFoods _ _ H).
Qed.

Lemma search_result (order : nat -> list (Food float)) (rounds : nat) :
  forall (k : nat) (r r' : run),
    score (bestRecipeEver r) = Ok (bestScoreEver r) ->
    state r = Searching ->
    search_ rounds order k r = Ok r' ->
    score (bestRecipeEver r') = Ok (bestScoreEver r')
    /\ (state r' = ScoreNotPositive -> (0 <? bestScoreEver r') = false)
    /\ (state r' = LocalMaxima ->
        last (printed r') = Some (bestScoreEver r')
        /\ (0 <? bestScoreEver r') = true)
    /\ (state r' = Searching ->
        length (printed r') = (length (printed r) + rounds)%nat).
Proof.
  induction rounds as [|rounds IH]; intros k r r' Hscored Hstate; cbn [search].
  - destruct (0 <? bestScoreEver r) eqn:Hpos; intros [= <-];
      cbn [state printed bestScoreEver bestRecipeEver].
    + split; [exact Hscored|]. rewrite Hstate. repeat split; try discriminate; intros; lia.
    + split; [exact Hscored|]. repeat split; try discriminate; auto.
  - destruct (0 <? bestScoreEver r) eqn:Hpos.
    2:{ intros [= <-]. cbn [state printed bestScoreEver bestRecipeEver].
        split; [exact Hscored|]. repeat split; try discriminate; auto. }
    cbn [printed bestRecipeEver bestScoreEver].
    destruct (searchRound_ (order k) (bestRecipeEver r) (bestScoreEver r))
      as [st|] eqn:Hround; cbn [mbind outcome_bind]; [|discriminate].
    pose proof (searchRound_improves _ _ _ _ _ _ _ Hround) as Himp.
    unfold improves in Himp.
    destruct (bestRecipeThisRound st) as [best|] eqn:Hbest.
    + destruct Himp as (Hlt & trial & Htrial & Hclone).
      rewrite (endOfRound_adopt _ _ _ _ _ _ Hbest) by (apply ltb_asym, Hlt).
      cbn [mbind outcome_bind state]. intros H.
      apply IH in H; cbn [state printed bestScoreEver bestRecipeEver] in *.
      * destruct H as (H1 & H2 & H3 & H4). repeat split; auto.
        -- apply H3; assumption.
        -- apply H3; assumption.
        -- intros Hs. rewrite (H4 Hs), length_app. cbn. lia.
      * cbn [bestRecipeEver bestScoreEver].
        rewrite <- Htrial. apply Score_ext.
        -- intros id. apply Clone_get, Hclone.
        -- exact (Clone_quantities allNutrients allFoods _ _ Hclone).
      * reflexivity.
    + rewrite (endOfRound_none _ _ _ _ _ Hbest). cbn [mbind outcome_bind state].
      intros [= <-]. cbn [state printed bestScoreEver bestRecipeEver].
      split; [exact Hscored|]. repeat split; try discriminate; intros;
        [apply last_snoc | exact Hpos].
Qed.

Lemma Score_of_zeros (verbose : bool) :
  Score allNutrients allFoods nutrientNameToId verbose
        {| nutrientTotals := (fun _ => 0) <$> allNutrients; foodQuantities := ∅ |}
  = Ok 4100.
Proof.
  unfold Score, calculatePenaltyForNutrient, numFoods, totalMass.
  cbn [foodQuantities nutrientTotals AssertConsistency mbind outcome_bind].
  rewrite !map_fold_empty. unfold targets. cbn [foldl].
  rewrite !get_zeros. vm_compute. reflexivity.
Qed.

(** What [main] returns: the best score is the score of the best
    recipe; the first score printed is 4100; a search that stopped
    because the score is not above 0 has such a score; a search that
    stopped at a local maximum has a best score above 0 that is the last
    one printed; and a search still running has printed one score per
    round. *)
Theorem main_result (rounds : nat) (order : nat -> list (Food float)) (r : run) :
  main_ rounds order = Ok r ->
  score (bestRecipeEver r) = Ok (bestScoreEver r)
  /\ (forall s, head (printed r) = Some s -> s = 4100)
  /\ (state r = ScoreNotPositive -> (0 <? bestScoreEver r) = false)
  /\ (state r = LocalMaxima ->
      last (printed r) = Some (bestScoreEver r) /\ (0 <? bestScoreEver r) = true)
  /\ (state r = Searching -> length (printed r) = rounds).
Proof.
  unfold main, NewRecipe. cbn [mbind outcome_bind AssertConsistency].
  rewrite Score_of_zeros. cbn [mbind outcome_bind]. intros H.
  assert (Hhead : forall s, head (printed r) = Some s -> s = 4100).
  { destruct rounds as [|rounds]; cbn [search] in H;
      cbn [printed bestRecipeEver bestScoreEver] in H.
    - change (0 <? 4100) with true in H. injection H as <-. discriminate.
    - change (0 <? 4100) with true in H. cbn [app] in H.
      match type of H with context [searchRound_ ?o ?b ?s] =>
        destruct (searchRound_ o b s) as [st|] end;
        cbn [mbind outcome_bind] in H; [|discriminate].
      unfold endOfRound in H. cbn [printed bestRecipeEver bestScoreEver] in H.
      destruct (bestRecipeThisRound st) as [best|].
      + destruct (4100 <? bestScoreThisRound st); [discriminate|].
        cbn [mbind outcome_bind state] in H.
        assert (Hkeep : forall n k r0 r1,
                   search_ n order k r0 = Ok r1 ->
                   forall s, head (printed r0) = Some s -> head (printed r1) = Some s).
        { clear. induction n as [|n IH]; intros k r0 r1; cbn [search].
          - destruct (0 <? bestScoreEver r0); intros [= <-]; auto.
          - destruct (0 <? bestScoreEver r0); [|intros [= <-]; auto].
            cbn [printed bestRecipeEver bestScoreEver].
            destruct (searchRound_ (order k) (bestRecipeEver r0) (bestScoreEver r0))
              as [st|]; cbn [mbind outcome_bind]; [|discriminate].
            unfold endOfRound. cbn [printed bestRecipeEver bestScoreEver].
            destruct (bestRecipeThisRound st) as [best|].
            + destruct (bestScoreEver r0 <? bestScoreThisRound st); [discriminate|].
              cbn [mbind outcome_bind state]. intros H s Hs.
              eapply IH; [exact H|]. cbn [printed].
              destruct (printed r0); [discriminate | exact Hs].
            + cbn [mbind outcome_bind state]. intros [= <-] s Hs. cbn [printed].
              destruct (printed r0); [discriminate | exact Hs]. }
        intros s Hs. pose proof (Hkeep _ _ _ _ H 4100 eq_refl) as Hh. congruence.
      + cbn [mbind outcome_bind state] in H. injection H as <-.
        intros s [= <-]. reflexivity. }
  apply search_result in H; [|exact (Score_of_zeros false)|reflexivity].
  destruct H as (H1 & H2 & H3 & H4).
  split; [exact H1|]. split; [exact Hhead|]. split; [exact H2|].
  split; [exact H3|]. intros Hs. rewrite (H4 Hs). reflexivity.
Qed.

(** When the catalog yields no food (it is empty), the first round finds
    nothing and the search stops at once, at the new recipe and its
    score 4100. *)
Theorem main_without_foods (rounds : nat) (order : nat -> list (Food float)) :
  order 0%nat = [] ->
  main_ (S rounds) order
  = Ok {| printed := [4100];
          bestRecipeEver := {| nutrientTotals := (fun _ => 0) <$> allNutrients;
                               foodQuantities := ∅ |};
          bestScoreEver := 4100;
          state := LocalMaxima |}.
Proof.
  intros Horder. unfold main, NewRecipe. cbn [mbind outcome_bind AssertConsistency].
  rewrite Score_of_zeros. cbn [mbind outcome_bind search printed bestRecipeEver
                               bestScoreEver].
  change (0 <? 4100) with true. cbn iota. rewrite Horder.
  unfold searchRound. rewrite Clone_Ok. cbn [mbind outcome_bind forEach].
  rewrite endOfRound_none by reflexivity. reflexivity.
Qed.

End ScoreAlong.

(** A recipe with 5 g of the food and no entry for protein, and its
    clone, which has the entry: they score the same. *)
Lemma Clone_same_score_witness :
  Score sampleNutrients sampleFoods sampleNames false
        {| nutrientTotals := {[ 203 := 0%float ]}; foodQuantities := {[ 1001 := 5 ]} |}
  = Score sampleNutrients sampleFoods sampleNames false
          {| nutrientTotals := ∅; foodQuantities := {[ 1001 := 5 ]} |}.
Proof.
  refine (proj2 (proj2 (proj2
    (Clone_same_score sampleNutrients sampleNames sampleFoods
       {| nutrientTotals := ∅; foodQuantities := {[ 1001 := 5 ]} |}
       {| nutrientTotals := {[ 203 := 0%float ]}; foodQuantities := {[ 1001 := 5 ]} |}
       _))) false).
  vm_compute. reflexivity.
Defined.

(** After two rounds on the small catalog the best score is the score of
    the best recipe. *)
Lemma main_result_witness :
  exists r,
    main sampleNutrients sampleNames sampleFoods 2 (fun _ => [sampleFood]) = Ok r
    /\ Score sampleNutrients sampleFoods sampleNames false (bestRecipeEver r)
       = Ok (bestScoreEver r).
Proof.
  destruct (main sampleNutrients sampleNames sampleFoods 2 (fun _ => [sampleFood]))
    as [r|msg] eqn:H; [|vm_compute in H; discriminate].
  exists r. split; [reflexivity|].
  exact (proj1 (main_result sampleNutrients sampleNames sampleFoods _ _ r H)).
Defined.

(** The search over the small catalog's nutrients and no food. *)
Lemma main_without_foods_witness :
  main sampleNutrients sampleNames ∅ 1 (fun _ => [])
  = Ok {| printed := [4100%float];
          bestRecipeEver := sampleEmpty;
          bestScoreEver := 4100%float;
          state := LocalMaxima |}.
Proof.
  rewrite (main_without_foods sampleNutrients sampleNames ∅ 0 (fun _ => []) eq_refl).
  vm_compute. reflexivity.
Defined.

(** ** Names the catalog lacks, and what is printed *)

Section MissingNames.

Local Open Scope float_scope.

(** A total that no food of the catalog contributes to stays what
    [NewRecipe] made it. *)
Lemma built_untouched_total (allFoods : gmap Z (Food float))
    (allNutrients : gmap Z Nutrient) (recipe : Recipe float) (id : Z) :
  (forall foodId food, allFoods !! foodId = Some food ->
                       amountsOf id (nutrients food) = []) ->
  built (fun _ => True) allFoods allNutrients recipe ->
  get (nutrientTotals recipe) id = 0.
Proof.
  intros Hnone. induction 1 as [recipe Hnew | recipe food grams recipe' _ IH Hfood _ _ Hadd
                               | recipe food grams recipe' _ IH Hfood _ Hrem].
  - injection Hnew as <-. apply get_zeros.
  - rewrite AddFood_Ok in Hadd. injection Hadd as <-. cbn [nutrientTotals].
    rewrite get_updateTotals, (Hnone _ _ Hfood). exact IH.
  - destruct (RemoveFood_Ok_inv _ _ _ _ _ Hrem) as (q & _ & _ & ->).
    cbn [nutrientTotals]. rewrite get_updateTotals, (Hnone _ _ Hfood). exact IH.
Qed.

(** A nutrient name of the table that the catalog's names lack is looked
    up as nutrient id 0.  When no food of the catalog lists a nutrient
    with id 0, every recipe built from the catalog reads the amount 0
    there, so each table entry with such a name costs exactly 100,
    whatever the recipe holds. *)
Theorem missing_name_costs_100 (allFoods : gmap Z (Food float))
    (allNutrients : gmap Z Nutrient) (nutrientNameToId : gmap string Z)
    (verbose : bool) (recipe : Recipe float) :
  (forall foodId food, allFoods !! foodId = Some food ->
                       amountsOf 0 (nutrients food) = []) ->
  built (fun _ => True) allFoods allNutrients recipe ->
  Forall (fun '(name, min, max) =>
            nutrientNameToId !! name = None ->
            calculatePenaltyForNutrient recipe nutrientNameToId name min max verbose
            = 100) targets.
Proof.
  intros Hnone Hbuilt.
  pose proof (built_untouched_total _ _ _ 0%Z Hnone Hbuilt) as Hzero.
  unfold targets.
  repeat (apply Forall_cons; split;
          [intros Hname; unfold calculatePenaltyForNutrient, idOf;
           rewrite Hname; cbn [default]; rewrite Hzero; vm_compute; reflexivity|]).
  apply Forall_nil. trivial.
Qed.

Lemma mul_zero_below_threshold (a : float) : (0.01 <=? a * 0) = false.
Proof.
  rewrite leb_spec, mul_spec. unfold SFleb.
  change (Prim2SF 0) with (S754_zero false).
  change (Prim2SF 0.01) with (S754_finite false 5764607523034235 (-59)).
  destruct (Prim2SF a) as [[]| []| |[] m e]; reflexivity.
Qed.


End MissingNames.

(** The new recipe of the small catalog, whose names lack all of the
    table but protein. *)
Lemma missing_name_costs_100_witness :
  Forall (fun '(name, min, max) =>
            sampleNames !! name = None ->
            calculatePenaltyForNutrient sampleEmpty sampleNames name min max false
            = 100%float) targets.
Proof.
  refine (missing_name_costs_100 sampleFoods sampleNutrients sampleNames false
            sampleEmpty _ _).
  - intros foodId food H. unfold sampleFoods in H.
    apply lookup_singleton_Some in H as [_ <-]. reflexivity.
  - apply built_new. vm_compute. reflexivity.
Defined.

(** ** The import of the USDA files *)

Lemma bind_Ok {A B : Type} (m : outcome A) (k : A -> outcome B) (b : B) :
  m ≫= k = Ok b -> exists a, m = Ok a /\ k a = Ok b.
Proof. destruct m as [a|msg]; cbn; [eauto | discriminate]. Qed.

Lemma field_Ok (record : list string) (i : nat) (s : string) :
  field record i = Ok s -> record !! i = Some s.
Proof. unfold field. destruct (record !! i); [intros [= ->]; reflexivity | discriminate]. Qed.

Lemma orPanic_Ok {A : Type} (result : option A) (a : A) :
  orPanic result = Ok a -> result = Some a.
Proof. destruct result; [intros [= ->]; reflexivity | discriminate]. Qed.

Lemma stripped_Some (record : list string) (i : nat) (r s : string) :
  record !! i = Some r -> stripTwiddles r = Ok s -> stripped record i = Some s.
Proof. intros Hr Hs. unfold stripped. rewrite Hr. cbn. rewrite Hs. reflexivity. Qed.

Lemma forEach_cons_Ok {A S : Type} (body : S -> A -> outcome S) s a l s' :
  forEach body s (a :: l) = Ok s' ->
  exists s1, body s a = Ok s1 /\ forEach body s1 l = Ok s'.
Proof. cbn [forEach]. apply bind_Ok. Qed.

Lemma substring_append (front input : string) (n : nat) :
  String.substring (String.length front) n (front +:+ input) = String.substring 0 n input.
Proof.
  induction front as [|a front IH]; [reflexivity|].
  rewrite append_String. cbn [String.length String.substring]. exact IH.
Qed.

Lemma substring_front (front input : string) :
  String.substring 0 (String.length front) (front +:+ input) = front.
Proof.
  induction front as [|a front IH].
  - rewrite append_empty. destruct input; reflexivity.
  - rewrite append_String. cbn [String.length String.substring]. rewrite IH. reflexivity.
Qed.

(** What [strings.Contains] does not find is not there. *)
Lemma Contains_false (s part front back : string) :
  Contains s part = false -> s <> front +:+ part +:+ back.
Proof.
  unfold Contains. intros H ->.
  destruct (String.index 0 part (front +:+ part +:+ back)) eqn:Hindex; [discriminate|].
  destruct part as [|a part].
  - rewrite append_empty in Hindex. destruct (front +:+ back); cbn in Hindex; discriminate.
  - apply (String.index_correct3 0 (String.length front)) in Hindex;
      [|discriminate|lia].
    apply Hindex. rewrite substring_append. apply substring_front.
Qed.

Lemma updateTotals_keys {F : Type} {N : Num F} (op : F -> F -> F) (quantity : Z)
    (ns : list (NutrientInFood F)) :
  forall (totals : gmap Z F) (id : Z),
    (forall n, n ∈ ns -> is_Some (totals !! nutrient_id (nutrient n))) ->
    is_Some (updateTotals op quantity totals ns !! id) <-> is_Some (totals !! id).
Proof.
  unfold updateTotals.
  induction ns as [|n ns IH]; intros totals id Hns; [reflexivity|].
  cbn [foldl]. rewrite IH.
  - rewrite lookup_insert_is_Some'. split; [|auto].
    intros [<-|H]; [|exact H]. apply Hns. left.
  - intros n' Hn'. apply lookup_insert_is_Some'. right. apply Hns. right. exact Hn'.
Qed.

Lemma stripTwiddles_Ok_inv (input s : string) :
  stripTwiddles input = Ok s -> exists a b, input = String a (s +:+ String b "").
Proof.
  destruct input as [|a [|c rest]]; [discriminate|discriminate|].
  destruct (string_snoc_inv c rest) as (front & b & ->).
  rewrite stripTwiddles_Ok. intros [= <-]. eauto.
Qed.

(** A field that passes the assertion and is stripped was between
    tildes. *)
Lemma twiddled_inv (input s : string) :
  assertStringHasTwiddles input = Ok tt -> stripTwiddles input = Ok s ->
  input = String tilde (s +:+ String tilde "").
Proof.
  intros Hassert Hstrip.
  apply stripTwiddles_Ok_inv in Hstrip as (a & b & ->).
  unfold assertStringHasTwiddles in Hassert. cbn [String.get String.length] in Hassert.
  destruct (Ascii.eqb_spec a tilde) as [->|]; [|discriminate].
  cbn [negb] in Hassert. rewrite length_snoc in Hassert.
  replace (S (S (String.length s)) - 1)%nat with (S (String.length s)) in Hassert by lia.
  cbn [String.get] in Hassert. rewrite get_snoc in Hassert.
  destruct (Ascii.eqb_spec b tilde) as [Hb|]; [rewrite Hb; reflexivity|discriminate].
Qed.

(** A loop that returns has returned from its body at every element. *)
Lemma forEach_each_Ok {A S : Type} (body : S -> A -> outcome S) (l : list A) :
  forall s s', forEach body s l = Ok s' ->
  forall a, a ∈ l -> exists s1 s2, body s1 a = Ok s2.
Proof.
  induction l as [|a0 l IH]; intros s s' H a Hin.
  - apply elem_of_nil in Hin as [].
  - apply forEach_cons_Ok in H as (s1 & Hbody & H).
    apply elem_of_cons in Hin as [->|Hin]; [eauto | exact (IH _ _ H _ Hin)].
Qed.

Section ImportFacts.

Variable Atoi : string -> option Z.
Variable ParseFloat : string -> option float.
Variable matchesRatio matchesAbbreviation : string -> bool.
Variable ToLower : string -> string.

Local Notation "'readNutrient_'" := (readNutrient Atoi matchesRatio matchesAbbreviation).
Local Notation "'readFood_'" := (readFood Atoi ToLower).
Local Notation "'readAmount_'" := (readAmount Atoi ParseFloat).

(** *** The lines of NUTR_DEF.txt *)

Lemma readNutrient_Ok nutrients names record nutrients' names' :
  readNutrient_ (nutrients, names) record = Ok (nutrients', names') ->
  exists id units description,
    stripped record 0 ≫= Atoi = Some id
    /\ stripped record 1 = Some units
    /\ stripped record 3 = Some description
    /\ if matchesRatio description && negb (matchesAbbreviation description)
       then nutrients' = nutrients /\ names' = names
       else let description' :=
              if id =? 208 then "Energy, kcal"%string
              else if id =? 268 then "Energy, kJ"%string
              else description in
            nutrients !! id = None
            /\ nutrients' = <[id := {| nutrient_id := id;
                                       nutrient_units := units;
                                       nutrient_description := description' |}]> nutrients
            /\ names' = <[description' := id]> names.
Proof.
  unfold readNutrient. intros H.
  apply bind_Ok in H as (r0 & Hr0 & H). apply bind_Ok in H as (_ & _ & H).
  apply bind_Ok in H as (r1 & Hr1 & H). apply bind_Ok in H as (_ & _ & H).
  apply bind_Ok in H as (r3 & Hr3 & H). apply bind_Ok in H as (_ & _ & H).
  apply bind_Ok in H as (s0 & Hs0 & H). apply bind_Ok in H as (id & Hid & H).
  apply bind_Ok in H as (units & Hunits & H).
  apply bind_Ok in H as (description & Hdescription & H).
  apply field_Ok in Hr0, Hr1, Hr3. apply orPanic_Ok in Hid.
  exists id, units, description.
  split; [rewrite (stripped_Some _ _ _ _ Hr0 Hs0); exact Hid|].
  split; [exact (stripped_Some _ _ _ _ Hr1 Hunits)|].
  split; [exact (stripped_Some _ _ _ _ Hr3 Hdescription)|].
  destruct (matchesRatio description && negb (matchesAbbreviation description)).
  - injection H as <- <-. auto.
  - cbn zeta. destruct (nutrients !! id) eqn:Hfresh; [discriminate|].
    injection H as <- <-. auto.
Qed.

Lemma forEach_readNutrient (l : list (list string)) :
  forall nutrients0 names0 nutrients names,
    forEach readNutrient_ (nutrients0, names0) l = Ok (nutrients, names) ->
    forall id n,
      nutrients !! id = Some n <->
      nutrients0 !! id = Some n
      \/ exists record description,
           record ∈ l
           /\ stripped record 0 ≫= Atoi = Some id
           /\ stripped record 1 = Some (nutrient_units n)
           /\ stripped record 3 = Some description
           /\ matchesRatio description && negb (matchesAbbreviation description) = false
           /\ nutrient_id n = id
           /\ nutrient_description n
              = if id =? 208 then "Energy, kcal"%string
                else if id =? 268 then "Energy, kJ"%string
                else description.
Proof.
  induction l as [|record l IH]; intros nutrients0 names0 nutrients names H id n.
  - injection H as <- <-. split; [auto|].
    intros [H|(record & ? & H & _)]; [exact H|]. apply elem_of_nil in H as [].
  - apply forEach_cons_Ok in H as ([nutrients1 names1] & Hr & H).
    rewrite (IH _ _ _ _ H id n). clear IH H.
    apply readNutrient_Ok in Hr as (id1 & units & description & H0 & H1 & H3 & Hr).
    destruct (matchesRatio description && negb (matchesAbbreviation description))
      eqn:Hskip.
    + destruct Hr as [-> ->]. split.
      * intros [H|(r & d & Hin & H)]; [auto|].
        right. exists r, d. split; [right; exact Hin | exact H].
      * intros [H|(r & d & Hin & H0' & H1' & H3' & Hkeep & H)]; [auto|].
        apply elem_of_cons in Hin as [->|Hin].
        -- rewrite H3 in H3'. injection H3' as <-. congruence.
        -- right. exists r, d. auto 10.
    + cbn zeta in Hr. destruct Hr as (Hfresh & -> & _). split.
      * intros [H|(r & d & Hin & H)].
        -- apply lookup_insert_Some in H as [[<- <-]|[Hne H]]; [|auto].
           right. exists record, description. cbn.
           split; [left|]; auto 10.
        -- right. exists r, d. split; [right; exact Hin | exact H].
      * intros [H|(r & d & Hin & H0' & H1' & H3' & Hkeep & Hid & Hd)].
        -- left. rewrite lookup_insert_ne; [exact H|]. congruence.
        -- apply elem_of_cons in Hin as [->|Hin].
           ++ left. rewrite H0 in H0'. injection H0' as ->.
              rewrite H3 in H3'. injection H3' as ->.
              rewrite H1 in H1'. injection H1' as ->.
              apply lookup_insert_Some. left. split; [reflexivity|].
              destruct n as [i u d']. cbn in *. subst. reflexivity.
           ++ right. exists r, d. auto 10.
Qed.

(** Names and nutrients point at each other. *)
Lemma forEach_readNutrient_names (l : list (list string)) :
  forall nutrients0 names0 nutrients names,
    forEach readNutrient_ (nutrients0, names0) l = Ok (nutrients, names) ->
    (forall name id, names0 !! name = Some id ->
       exists n, nutrients0 !! id = Some n /\ nutrient_description n = name) ->
    (forall id n, nutrients0 !! id = Some n ->
       is_Some (names0 !! nutrient_description n)) ->
    (forall name id, names !! name = Some id ->
       exists n, nutrients !! id = Some n /\ nutrient_description n = name)
    /\ (forall id n, nutrients !! id = Some n ->
          is_Some (names !! nutrient_description n)).
Proof.
  induction l as [|record l IH]; intros nutrients0 names0 nutrients names H I1 I2.
  - injection H as <- <-. auto.
  - apply forEach_cons_Ok in H as ([nutrients1 names1] & Hr & H).
    apply (IH _ _ _ _ H); clear IH H;
      apply readNutrient_Ok in Hr as (id1 & units & description & _ & _ & _ & Hr);
      destruct (matchesRatio description && negb (matchesAbbreviation description));
      try (destruct Hr as [-> ->]; assumption);
      cbn zeta in Hr; destruct Hr as (Hfresh & -> & ->).
    + intros name id H.
      apply lookup_insert_Some in H as [[<- <-]|[Hne H]].
      * eexists. rewrite lookup_insert_eq. split; reflexivity.
      * destruct (I1 _ _ H) as (n & Hn & Hd). exists n. split; [|exact Hd].
        rewrite lookup_insert_ne; [exact Hn|]. congruence.
    + intros id n H.
      apply lookup_insert_Some in H as [[<- <-]|[Hne H]].
      * cbn. rewrite lookup_insert_eq. eauto.
      * apply lookup_insert_is_Some'. right. eauto.
Qed.

(** *** The lines of FOOD_DES.txt *)

Lemma readFood_Ok foods record foods' :
  readFood_ foods record = Ok foods' ->
  exists ndb group description maker,
    stripped record 0 ≫= Atoi = Some ndb
    /\ stripped record 1 = Some group
    /\ stripped record 2 = Some description
    /\ stripped record 5 = Some maker
    /\ if excludedGroup group || excludedDescription ToLower description
          || String.eqb maker "Campbell Soup Co."
       then foods' = foods
       else foods !! ndb = None
            /\ foods' = <[ndb := {| food_id := ndb;
                                    foodGroup := group;
                                    food_description := description;
                                    manufacturer := maker;
                                    nutrients := [] |}]> foods.
Proof.
  unfold readFood. intros H.
  apply bind_Ok in H as (r0 & Hr0 & H). apply bind_Ok in H as (_ & _ & H).
  apply bind_Ok in H as (r1 & Hr1 & H). apply bind_Ok in H as (_ & _ & H).
  apply bind_Ok in H as (r2 & Hr2 & H). apply bind_Ok in H as (_ & _ & H).
  apply bind_Ok in H as (s0 & Hs0 & H). apply bind_Ok in H as (ndb & Hndb & H).
  apply bind_Ok in H as (group & Hgroup & H).
  apply bind_Ok in H as (description & Hdescription & H).
  apply bind_Ok in H as (r5 & Hr5 & H).
  apply bind_Ok in H as (maker & Hmaker & H).
  apply field_Ok in Hr0, Hr1, Hr2, Hr5. apply orPanic_Ok in Hndb.
  exists ndb, group, description, maker.
  split; [rewrite (stripped_Some _ _ _ _ Hr0 Hs0); exact Hndb|].
  split; [exact (stripped_Some _ _ _ _ Hr1 Hgroup)|].
  split; [exact (stripped_Some _ _ _ _ Hr2 Hdescription)|].
  split; [exact (stripped_Some _ _ _ _ Hr5 Hmaker)|].
  destruct (excludedGroup group); [injection H as <-; reflexivity|].
  destruct (excludedDescription ToLower description); [injection H as <-; reflexivity|].
  destruct (String.eqb maker "Campbell Soup Co."); [injection H as <-; reflexivity|].
  cbn [orb]. destruct (foods !! ndb); [discriminate|].
  injection H as <-. auto.
Qed.

Lemma forEach_readFood (l : list (list string)) :
  forall foods0 foods,
    forEach readFood_ foods0 l = Ok foods ->
    forall ndb f,
      foods !! ndb = Some f <->
      foods0 !! ndb = Some f
      \/ exists record,
           record ∈ l
           /\ stripped record 0 ≫= Atoi = Some ndb
           /\ stripped record 1 = Some (foodGroup f)
           /\ stripped record 2 = Some (food_description f)
           /\ stripped record 5 = Some (manufacturer f)
           /\ excludedGroup (foodGroup f) = false
           /\ excludedDescription ToLower (food_description f) = false
           /\ manufacturer f <> "Campbell Soup Co."%string
           /\ food_id f = ndb
           /\ nutrients f = [].
Proof.
  induction l as [|record l IH]; intros foods0 foods H ndb f.
  - injection H as <-. split; [auto|].
    intros [H|(record & H & _)]; [exact H|]. apply elem_of_nil in H as [].
  - apply forEach_cons_Ok in H as (foods1 & Hr & H).
    rewrite (IH _ _ H ndb f). clear IH H.
    apply readFood_Ok in Hr as (ndb1 & group & description & maker
                                & H0 & H1 & H2 & H5 & Hr).
    destruct (excludedGroup group || excludedDescription ToLower description
              || String.eqb maker "Campbell Soup Co.") eqn:Hskip.
    + subst foods1. split.
      * intros [H|(r & Hin & H)]; [auto|].
        right. exists r. split; [right; exact Hin | exact H].
      * intros [H|(r & Hin & H)]; [auto|].
        apply elem_of_cons in Hin as [->|Hin]; [|right; exists r; auto].
        destruct H as (H0' & H1' & H2' & H5' & Hg & Hd & Hm & H).
        rewrite H1 in H1'. injection H1' as ->.
        rewrite H2 in H2'. injection H2' as ->.
        rewrite H5 in H5'. injection H5' as ->.
        rewrite Hg, Hd in Hskip. cbn [orb] in Hskip.
        apply String.eqb_eq in Hskip. contradiction.
    + apply orb_false_elim in Hskip as [Hskip Hm].
      apply orb_false_elim in Hskip as [Hg Hd].
      apply String.eqb_neq in Hm.
      destruct Hr as (Hfresh & ->). split.
      * intros [H|(r & Hin & H)].
        -- apply lookup_insert_Some in H as [[<- <-]|[Hne H]]; [|auto].
           right. exists record. cbn.
           split; [left|repeat split; assumption].
        -- right. exists r. split; [right; exact Hin | exact H].
      * intros [H|(r & Hin & H)].
        -- left. rewrite lookup_insert_ne; [exact H|]. congruence.
        -- apply elem_of_cons in Hin as [->|Hin]; [|right; exists r; auto].
           destruct H as (H0' & H1' & H2' & H5' & _ & _ & _ & Hid & Hns).
           left. rewrite H0 in H0'. injection H0' as ->.
           rewrite H1 in H1'. injection H1' as ->.
           rewrite H2 in H2'. injection H2' as ->.
           rewrite H5 in H5'. injection H5' as ->.
           apply lookup_insert_Some. left. split; [reflexivity|].
           destruct f as [i g d m ns]. cbn in *. subst. reflexivity.
Qed.

(** *** The lines of NUT_DATA.txt *)

Lemma readAmount_Ok allNutrients foods record foods' :
  readAmount_ allNutrients foods record = Ok foods' ->
  forall ndb,
    match foods !! ndb, foods' !! ndb with
    | Some f, Some f' =>
        food_id f' = food_id f /\ foodGroup f' = foodGroup f
        /\ food_description f' = food_description f
        /\ manufacturer f' = manufacturer f
        /\ nutrients f'
           = nutrients f ++ option_list (entryOf Atoi ParseFloat allNutrients ndb record)
    | None, None => True
    | _, _ => False
    end.
Proof.
  unfold readAmount. intros H ndb.
  apply bind_Ok in H as (r0 & Hr0 & H). apply bind_Ok in H as (_ & _ & H).
  apply bind_Ok in H as (r1 & Hr1 & H). apply bind_Ok in H as (_ & _ & H).
  apply bind_Ok in H as (s0 & Hs0 & H). apply bind_Ok in H as (ndb1 & Hndb & H).
  apply bind_Ok in H as (s1 & Hs1 & H). apply bind_Ok in H as (id & Hid & H).
  apply bind_Ok in H as (r2 & Hr2 & H). apply bind_Ok in H as (amount & Hamount & H).
  apply bind_Ok in H as (r3 & Hr3 & H). apply bind_Ok in H as (points & Hpoints & H).
  apply field_Ok in Hr0, Hr1, Hr2, Hr3.
  apply orPanic_Ok in Hndb, Hid, Hamount, Hpoints.
  unfold entryOf.
  rewrite (stripped_Some _ _ _ _ Hr0 Hs0), (stripped_Some _ _ _ _ Hr1 Hs1), Hr2, Hr3.
  cbn [mbind option_bind]. rewrite Hndb, Hid, Hamount, Hpoints.
  cbn [mbind option_bind]. cbn zeta in H |- *.
  destruct (allNutrients !! id) as [nutrient|]; cbn [mbind option_bind].
  - destruct (foods !! ndb1) as [food|] eqn:Hfood.
    + injection H as <-. destruct (Z.eqb_spec ndb1 ndb) as [->|Hne].
      * rewrite Hfood, lookup_insert_eq. cbn. auto.
      * rewrite lookup_insert_ne by exact Hne.
        destruct (foods !! ndb); [|exact I].
        cbn. rewrite app_nil_r. auto.
    + injection H as <-. destruct (Z.eqb_spec ndb1 ndb) as [->|Hne].
      * rewrite Hfood. exact I.
      * destruct (foods !! ndb); [|exact I]. cbn. rewrite app_nil_r. auto.
  - injection H as <-. destruct (foods !! ndb); [|exact I].
    cbn. rewrite app_nil_r. auto.
Qed.

Lemma forEach_readAmount allNutrients (l : list (list string)) :
  forall foods0 foods,
    forEach (readAmount_ allNutrients) foods0 l = Ok foods ->
    forall ndb,
      match foods0 !! ndb, foods !! ndb with
      | Some f0, Some f =>
          food_id f = food_id f0 /\ foodGroup f = foodGroup f0
          /\ food_description f = food_description f0
          /\ manufacturer f = manufacturer f0
          /\ nutrients f = nutrients f0 ++ omap (entryOf Atoi ParseFloat allNutrients ndb) l
      | None, None => True
      | _, _ => False
      end.
Proof.
  induction l as [|record l IH]; intros foods0 foods H ndb.
  - injection H as <-. destruct (foods0 !! ndb); [|exact I].
    cbn. rewrite app_nil_r. auto.
  - apply forEach_cons_Ok in H as (foods1 & Hr & H).
    pose proof (readAmount_Ok _ _ _ _ Hr ndb) as H1.
    pose proof (IH _ _ H ndb) as H2. clear IH H Hr.
    destruct (foods0 !! ndb) as [f0|], (foods1 !! ndb) as [f1|],
             (foods !! ndb) as [f|]; try contradiction; try exact I.
    destruct H1 as (E1 & E2 & E3 & E4 & E5), H2 as (-> & -> & -> & -> & ->).
    rewrite E5, <- app_assoc. cbn [omap list_omap].
    destruct (entryOf Atoi ParseFloat allNutrients ndb record); repeat split;
      assumption || reflexivity.
Qed.

(** *** The three loops together *)

Lemma getNutrientsAndFoods_Ok nutrientDefinitions foodDescriptions foodData
    allNutrients nutrientNameToId allFoods :
  getNutrientsAndFoods Atoi ParseFloat matchesRatio matchesAbbreviation ToLower
    nutrientDefinitions foodDescriptions foodData
  = Ok (allNutrients, nutrientNameToId, allFoods) ->
  exists foods,
    forEach readNutrient_ (∅, ∅) nutrientDefinitions = Ok (allNutrients, nutrientNameToId)
    /\ forEach readFood_ ∅ foodDescriptions = Ok foods
    /\ forEach (readAmount_ allNutrients) foods foodData = Ok allFoods.
Proof.
  unfold getNutrientsAndFoods. intros H.
  apply bind_Ok in H as ([nutrients names] & Hn & H).
  apply bind_Ok in H as (foods & Hf & H).
  apply bind_Ok in H as (foods' & Ha & H).
  injection H as -> -> ->. eauto.
Qed.

(** The import keeps the nutrients of exactly the lines of NUTR_DEF.txt
    that are not fatty-acid ratios without abbreviation, under the id
    of the line, with the units of the line and its description, or the
    corrected one for the ids 208 and 268. *)
Theorem import_nutrients_are_kept_lines nutrientDefinitions foodDescriptions foodData
    allNutrients nutrientNameToId allFoods :
  getNutrientsAndFoods Atoi ParseFloat matchesRatio matchesAbbreviation ToLower
    nutrientDefinitions foodDescriptions foodData
  = Ok (allNutrients, nutrientNameToId, allFoods) ->
  forall id n,
    allNutrients !! id = Some n <->
    exists record description,
      record ∈ nutrientDefinitions
      /\ stripped record 0 ≫= Atoi = Some id
      /\ stripped record 1 = Some (nutrient_units n)
      /\ stripped record 3 = Some description
      /\ matchesRatio description && negb (matchesAbbreviation description) = false
      /\ nutrient_id n = id
      /\ nutrient_description n
         = if id =? 208 then "Energy, kcal"%string
           else if id =? 268 then "Energy, kJ"%string
           else description.
Proof.
  intros H id n.
  apply getNutrientsAndFoods_Ok in H as (foods & Hn & _ & _).
  rewrite (forEach_readNutrient _ _ _ _ _ Hn id n), lookup_empty.
  split; [intros [H|H]; [discriminate | exact H] | auto].
Qed.

(** The name map and the nutrient map of the import point at each
    other: a name leads to a nutrient of that description, and the
    description of every nutrient is a name of the map. *)
Theorem import_names_lead_to_nutrients nutrientDefinitions foodDescriptions foodData
    allNutrients nutrientNameToId allFoods :
  getNutrientsAndFoods Atoi ParseFloat matchesRatio matchesAbbreviation ToLower
    nutrientDefinitions foodDescriptions foodData
  = Ok (allNutrients, nutrientNameToId, allFoods) ->
  (forall name id, nutrientNameToId !! name = Some id ->
     exists n, allNutrients !! id = Some n
               /\ nutrient_id n = id /\ nutrient_description n = name)
  /\ (forall id n, allNutrients !! id = Some n ->
        is_Some (nutrientNameToId !! nutrient_description n)).
Proof.
  intros H.
  apply getNutrientsAndFoods_Ok in H as (foods & Hn & _ & _).
  destruct (forEach_readNutrient_names _ _ _ _ _ Hn) as [I1 I2].
  - intros name id H. rewrite lookup_empty in H. discriminate.
  - intros id n H. rewrite lookup_empty in H. discriminate.
  - split; [|exact I2].
    intros name id H. destruct (I1 _ _ H) as (n & Hlookup & Hd).
    exists n. repeat split; [exact Hlookup | | exact Hd].
    apply (forEach_readNutrient _ _ _ _ _ Hn) in Hlookup as [Hlookup|Hlookup].
    + rewrite lookup_empty in Hlookup. discriminate.
    + destruct Hlookup as (? & ? & _ & _ & _ & _ & _ & Hid & _). exact Hid.
Qed.

(** The foods of the import are exactly the lines of FOOD_DES.txt that
    no filter leaves out, under the number of the line. *)
Theorem import_foods_are_accepted_lines nutrientDefinitions foodDescriptions foodData
    allNutrients nutrientNameToId allFoods :
  getNutrientsAndFoods Atoi ParseFloat matchesRatio matchesAbbreviation ToLower
    nutrientDefinitions foodDescriptions foodData
  = Ok (allNutrients, nutrientNameToId, allFoods) ->
  forall ndb group description maker,
    (exists f, allFoods !! ndb = Some f
               /\ food_id f = ndb /\ foodGroup f = group
               /\ food_description f = description /\ manufacturer f = maker)
    <->
    (exists record,
       record ∈ foodDescriptions
       /\ stripped record 0 ≫= Atoi = Some ndb
       /\ stripped record 1 = Some group
       /\ stripped record 2 = Some description
       /\ stripped record 5 = Some maker
       /\ excludedGroup group = false
       /\ excludedDescription ToLower description = false
       /\ maker <> "Campbell Soup Co."%string).
Proof.
  intros H ndb group description maker.
  apply getNutrientsAndFoods_Ok in H as (foods & _ & Hf & Ha).
  pose proof (forEach_readAmount _ _ _ _ Ha ndb) as Hndb.
  pose proof (forEach_readFood _ _ _ Hf ndb) as Hfood.
  split.
  - intros (f & Hlookup & Hid & Hg & Hd & Hm). rewrite Hlookup in Hndb.
    destruct (foods !! ndb) as [f0|]; [|contradiction].
    destruct Hndb as (E1 & E2 & E3 & E4 & _).
    destruct (proj1 (Hfood f0) eq_refl) as [H|(record & H)].
    + rewrite lookup_empty in H. discriminate.
    + exists record. rewrite <- Hg, <- Hd, <- Hm, E2, E3, E4.
      tauto.
  - intros (record & Hin & H0 & H1 & H2 & H5 & Hg & Hd & Hm).
    assert (foods !! ndb
            = Some {| food_id := ndb; foodGroup := group;
                      food_description := description; manufacturer := maker;
                      nutrients := [] |}) as Hlookup.
    { apply Hfood. right. exists record. cbn. repeat split; assumption. }
    rewrite Hlookup in Hndb.
    destruct (allFoods !! ndb) as [f|]; [|contradiction].
    exists f. cbn in Hndb. tauto.
Qed.

(** No food of the import is of a group that is left out, has one of
    the parts that are left out anywhere in its description (in the
    lower-case description where the source looks there), or is made by
    Campbell Soup Co. *)
Theorem import_leaves_out nutrientDefinitions foodDescriptions foodData
    allNutrients nutrientNameToId allFoods :
  getNutrientsAndFoods Atoi ParseFloat matchesRatio matchesAbbreviation ToLower
    nutrientDefinitions foodDescriptions foodData
  = Ok (allNutrients, nutrientNameToId, allFoods) ->
  forall ndb f,
    allFoods !! ndb = Some f ->
    (foodGroup f ∉ excludedGroups)
    /\ (forall lower part front back,
          (lower, part) ∈ excludedParts ->
          (if lower : bool then ToLower (food_description f) else food_description f)
          <> front +:+ part +:+ back)
    /\ manufacturer f <> "Campbell Soup Co."%string.
Proof.
  intros H ndb f Hlookup.
  apply getNutrientsAndFoods_Ok in H as (foods & _ & Hf & Ha).
  pose proof (forEach_readAmount _ _ _ _ Ha ndb) as Hndb.
  rewrite Hlookup in Hndb.
  destruct (foods !! ndb) as [f0|] eqn:Hlookup0; [|contradiction].
  destruct Hndb as (_ & -> & -> & -> & _).
  apply (forEach_readFood _ _ _ Hf) in Hlookup0 as [H|(record & H)].
  { rewrite lookup_empty in H. discriminate. }
  destruct H as (_ & _ & _ & _ & _ & Hg & Hd & Hm & _).
  split; [|split; [|exact Hm]].
  - intros Hin. unfold excludedGroup in Hg.
    assert (existsb (String.eqb (foodGroup f0)) excludedGroups = true) as Hyes;
      [|congruence].
    apply existsb_exists. exists (foodGroup f0).
    split; [apply list_elem_of_In; exact Hin | apply String.eqb_refl].
  - intros lower part front back Hin. apply Contains_false.
    destruct (Contains _ part) eqn:Hyes; [|reflexivity].
    assert (excludedDescription ToLower (food_description f0) = true) as Hex;
      [|congruence].
    apply existsb_exists. exists (lower, part).
    split; [apply list_elem_of_In; exact Hin | exact Hyes].
Qed.

(** What the third loop leaves in a food that the second loop made. *)
Lemma import_lists nutrientDefinitions foodDescriptions foodData
    allNutrients nutrientNameToId allFoods :
  getNutrientsAndFoods Atoi ParseFloat matchesRatio matchesAbbreviation ToLower
    nutrientDefinitions foodDescriptions foodData
  = Ok (allNutrients, nutrientNameToId, allFoods) ->
  forall ndb f,
    allFoods !! ndb = Some f ->
    food_id f = ndb /\ nutrients f = omap (entryOf Atoi ParseFloat allNutrients ndb) foodData.
Proof.
  intros H ndb f Hlookup.
  apply getNutrientsAndFoods_Ok in H as (foods & Hn & Hf & Ha).
  pose proof (forEach_readAmount _ _ _ _ Ha ndb) as Hndb.
  rewrite Hlookup in Hndb.
  destruct (foods !! ndb) as [f0|] eqn:Hlookup0; [|contradiction].
  destruct Hndb as (Eid & _ & _ & _ & Ens).
  apply (forEach_readFood _ _ _ Hf) in Hlookup0 as [H|(record & H)].
  { rewrite lookup_empty in H. discriminate. }
  destruct H as (_ & _ & _ & _ & _ & _ & _ & _ & Hid & Hnil).
  rewrite Hnil in Ens. cbn [app] in Ens.
  split; [congruence | exact Ens].
Qed.

(** The entry of a line carries a nutrient of the map it was looked up
    in. *)
Lemma entryOf_nutrient allNutrients ndb line n :
  entryOf Atoi ParseFloat allNutrients ndb line = Some n ->
  exists id, allNutrients !! id = Some (nutrient n).
Proof.
  unfold entryOf. intros Hline.
  destruct (stripped line 0 ≫= Atoi) as [ndb'|]; [|discriminate].
  destruct (stripped line 1 ≫= Atoi) as [id|]; [|discriminate].
  destruct (line !! 2%nat ≫= ParseFloat) as [amount|]; [|discriminate].
  destruct (line !! 3%nat ≫= Atoi) as [points|]; [|discriminate].
  cbn [mbind option_bind] in Hline.
  destruct (allNutrients !! id) as [kept|] eqn:Hnutrient; [|discriminate].
  cbn [mbind option_bind] in Hline. cbn zeta in Hline.
  destruct (ndb' =? ndb); [|discriminate].
  injection Hline as <-. exists id. exact Hnutrient.
Qed.

Lemma import_listed nutrientDefinitions foodDescriptions foodData
    allNutrients nutrientNameToId allFoods :
  getNutrientsAndFoods Atoi ParseFloat matchesRatio matchesAbbreviation ToLower
    nutrientDefinitions foodDescriptions foodData
  = Ok (allNutrients, nutrientNameToId, allFoods) ->
  forall ndb f n,
    allFoods !! ndb = Some f -> n ∈ nutrients f ->
    allNutrients !! nutrient_id (nutrient n) = Some (nutrient n).
Proof.
  intros H ndb f n Hlookup Hin.
  destruct (import_lists _ _ _ _ _ _ H ndb f Hlookup) as [_ Ens].
  rewrite Ens in Hin. apply list_elem_of_omap in Hin as (line & _ & Hline).
  apply entryOf_nutrient in Hline as (id & Hkept).
  apply getNutrientsAndFoods_Ok in H as (foods & Hn & _ & _).
  pose proof Hkept as Hid.
  apply (forEach_readNutrient _ _ _ _ _ Hn) in Hid as [Hid|Hid].
  - rewrite lookup_empty in Hid. discriminate.
  - destruct Hid as (? & ? & _ & _ & _ & _ & _ & -> & _). exact Hkept.
Qed.

(** The nutrient list of a food of the import is made of the lines of
    NUT_DATA.txt about this food and a nutrient of the import, in the
    order of the file, and every entry carries the nutrient that the
    nutrient map has under its id. *)
Theorem import_nutrient_lists nutrientDefinitions foodDescriptions foodData
    allNutrients nutrientNameToId allFoods :
  getNutrientsAndFoods Atoi ParseFloat matchesRatio matchesAbbreviation ToLower
    nutrientDefinitions foodDescriptions foodData
  = Ok (allNutrients, nutrientNameToId, allFoods) ->
  forall ndb f,
    allFoods !! ndb = Some f ->
    food_id f = ndb
    /\ nutrients f = omap (entryOf Atoi ParseFloat allNutrients ndb) foodData
    /\ forall n, n ∈ nutrients f ->
                 allNutrients !! nutrient_id (nutrient n) = Some (nutrient n).
Proof.
  intros H ndb f Hlookup.
  destruct (import_lists _ _ _ _ _ _ H ndb f Hlookup) as [Hid Ens].
  split; [exact Hid|]. split; [exact Ens|].
  intros n Hin. exact (import_listed _ _ _ _ _ _ H ndb f n Hlookup Hin).
Qed.

(** Every recipe built from the catalog of the import has a total for
    exactly the nutrients of the catalog: no call of [AddFood] or
    [RemoveFood] makes an entry of its own. *)
Theorem imported_catalog_totals nutrientDefinitions foodDescriptions foodData
    allNutrients nutrientNameToId allFoods (recipe : Recipe float) :
  getNutrientsAndFoods Atoi ParseFloat matchesRatio matchesAbbreviation ToLower
    nutrientDefinitions foodDescriptions foodData
  = Ok (allNutrients, nutrientNameToId, allFoods) ->
  built (fun _ => True) allFoods allNutrients recipe ->
  forall id, is_Some (nutrientTotals recipe !! id) <-> is_Some (allNutrients !! id).
Proof.
  intros H Hbuilt.
  assert (Hlisted : forall ndb f n, allFoods !! ndb = Some f -> n ∈ nutrients f ->
                      is_Some (allNutrients !! nutrient_id (nutrient n))).
  { intros ndb f n Hlookup Hin.
    rewrite (import_listed _ _ _ _ _ _ H ndb f n Hlookup Hin). eauto. }
  clear H.
  induction Hbuilt as [recipe Hnew
                      | recipe food grams recipe' _ IH Hfood _ _ Hadd
                      | recipe food grams recipe' _ IH Hfood _ Hrem]; intros id.
  - unfold NewRecipe in Hnew. cbn in Hnew. injection Hnew as <-.
    cbn [nutrientTotals]. rewrite lookup_fmap, fmap_is_Some. reflexivity.
  - rewrite AddFood_Ok in Hadd. injection Hadd as <-. cbn [nutrientTotals].
    rewrite updateTotals_keys; [apply IH|].
    intros n Hin. apply IH. exact (Hlisted _ _ _ Hfood Hin).
  - apply RemoveFood_Ok_inv in Hrem as (q & _ & _ & ->). cbn [nutrientTotals].
    rewrite updateTotals_keys; [apply IH|].
    intros n Hin. apply IH. exact (Hlisted _ _ _ Hfood Hin).
Qed.

(** *** Numbers that come twice *)

Lemma forEach_readNutrient_distinct (l : list (list string)) :
  forall nutrients0 names0 nutrients names,
    forEach readNutrient_ (nutrients0, names0) l = Ok (nutrients, names) ->
    forall i ri id,
      l !! i = Some ri -> keptNutrientLine Atoi matchesRatio matchesAbbreviation ri id ->
      nutrients0 !! id = None
      /\ is_Some (nutrients !! id)
      /\ forall j rj,
           l !! j = Some rj ->
           keptNutrientLine Atoi matchesRatio matchesAbbreviation rj id -> i = j.
Proof.
  induction l as [|record l IH]; intros nutrients0 names0 nutrients names H i ri id Hi Hkept.
  - discriminate.
  - apply forEach_cons_Ok in H as ([nutrients1 names1] & Hr & H).
    pose proof (forEach_readNutrient _ _ _ _ _ H) as Hall.
    apply readNutrient_Ok in Hr as (id0 & units & description & H0 & H1 & H3 & Hr).
    assert (Hsub : forall k n, nutrients0 !! k = Some n -> nutrients1 !! k = Some n).
    { intros k n Hk.
      destruct (matchesRatio description && negb (matchesAbbreviation description)).
      - destruct Hr as [-> _]. exact Hk.
      - cbn zeta in Hr. destruct Hr as (Hfresh & -> & _).
        rewrite lookup_insert_ne; [exact Hk | congruence]. }
    assert (Hhead : keptNutrientLine Atoi matchesRatio matchesAbbreviation record id ->
                    nutrients0 !! id = None /\ is_Some (nutrients1 !! id)).
    { intros (d & H0' & H3' & Hd).
      rewrite H0 in H0'. injection H0' as ->. rewrite H3 in H3'. injection H3' as ->.
      rewrite Hd in Hr. cbn zeta in Hr. destruct Hr as (Hfresh & -> & _).
      rewrite lookup_insert_eq. eauto. }
    destruct i as [|i].
    + injection Hi as <-. destruct (Hhead Hkept) as [Hfresh [n Hn]].
      split; [exact Hfresh|]. split.
      * exists n. apply Hall. left. exact Hn.
      * intros [|j] rj Hj Hkeptj; [reflexivity|]. exfalso.
        destruct (IH _ _ _ _ H j rj id Hj Hkeptj) as (Hnone & _).
        congruence.
    + destruct (IH _ _ _ _ H i ri id Hi Hkept) as (Hnone & Hsome & Huniq).
      split; [|split; [exact Hsome|]].
      * destruct (nutrients0 !! id) as [n|] eqn:Hn; [|reflexivity].
        rewrite (Hsub _ _ Hn) in Hnone. discriminate.
      * intros [|j] rj Hj Hkeptj.
        -- injection Hj as <-. destruct (Hhead Hkeptj) as [_ [n Hn]]. congruence.
        -- f_equal. exact (Huniq j rj Hj Hkeptj).
Qed.

Lemma forEach_readFood_distinct (l : list (list string)) :
  forall foods0 foods,
    forEach readFood_ foods0 l = Ok foods ->
    forall i ri ndb,
      l !! i = Some ri -> keptFoodLine Atoi ToLower ri ndb ->
      foods0 !! ndb = None
      /\ is_Some (foods !! ndb)
      /\ forall j rj, l !! j = Some rj -> keptFoodLine Atoi ToLower rj ndb -> i = j.
Proof.
  induction l as [|record l IH]; intros foods0 foods H i ri ndb Hi Hkept.
  - discriminate.
  - apply forEach_cons_Ok in H as (foods1 & Hr & H).
    pose proof (forEach_readFood _ _ _ H) as Hall.
    apply readFood_Ok in Hr as (ndb0 & group & description & maker
                                & H0 & H1 & H2 & H5 & Hr).
    assert (Hsub : forall k f, foods0 !! k = Some f -> foods1 !! k = Some f).
    { intros k f Hk.
      destruct (excludedGroup group || excludedDescription ToLower description
                || String.eqb maker "Campbell Soup Co.").
      - subst foods1. exact Hk.
      - destruct Hr as (Hfresh & ->).
        rewrite lookup_insert_ne; [exact Hk | congruence]. }
    assert (Hhead : keptFoodLine Atoi ToLower record ndb ->
                    foods0 !! ndb = None /\ is_Some (foods1 !! ndb)).
    { intros (g & d & m & H0' & H1' & H2' & H5' & Hg & Hd & Hm).
      rewrite H0 in H0'. injection H0' as ->. rewrite H1 in H1'. injection H1' as ->.
      rewrite H2 in H2'. injection H2' as ->. rewrite H5 in H5'. injection H5' as ->.
      apply String.eqb_neq in Hm. rewrite Hg, Hd, Hm in Hr. cbn [orb] in Hr.
      destruct Hr as (Hfresh & ->). rewrite lookup_insert_eq. eauto. }
    destruct i as [|i].
    + injection Hi as <-. destruct (Hhead Hkept) as [Hfresh [f Hf]].
      split; [exact Hfresh|]. split.
      * exists f. apply Hall. left. exact Hf.
      * intros [|j] rj Hj Hkeptj; [reflexivity|]. exfalso.
        destruct (IH _ _ H j rj ndb Hj Hkeptj) as (Hnone & _).
        congruence.
    + destruct (IH _ _ H i ri ndb Hi Hkept) as (Hnone & Hsome & Huniq).
      split; [|split; [exact Hsome|]].
      * destruct (foods0 !! ndb) as [f|] eqn:Hf; [|reflexivity].
        rewrite (Hsub _ _ Hf) in Hnone. discriminate.
      * intros [|j] rj Hj Hkeptj.
        -- injection Hj as <-. destruct (Hhead Hkeptj) as [_ [f Hf]]. congruence.
        -- f_equal. exact (Huniq j rj Hj Hkeptj).
Qed.

(** An import that returns has met no number twice among the lines it
    keeps: two kept lines of NUTR_DEF.txt with the same nutrient id, or
    two kept lines of FOOD_DES.txt with the same food number, are one
    line.  (A second such line is the panic [nutrient already in
    nutrients map] or [ndb already in foods map]; a number may come
    again on lines that are left out.) *)
Theorem import_numbers_are_distinct nutrientDefinitions foodDescriptions foodData
    allNutrients nutrientNameToId allFoods :
  getNutrientsAndFoods Atoi ParseFloat matchesRatio matchesAbbreviation ToLower
    nutrientDefinitions foodDescriptions foodData
  = Ok (allNutrients, nutrientNameToId, allFoods) ->
  (forall i j ri rj id,
     nutrientDefinitions !! i = Some ri -> nutrientDefinitions !! j = Some rj ->
     keptNutrientLine Atoi matchesRatio matchesAbbreviation ri id ->
     keptNutrientLine Atoi matchesRatio matchesAbbreviation rj id -> i = j)
  /\ (forall i j ri rj ndb,
        foodDescriptions !! i = Some ri -> foodDescriptions !! j = Some rj ->
        keptFoodLine Atoi ToLower ri ndb -> keptFoodLine Atoi ToLower rj ndb -> i = j).
Proof.
  intros H. apply getNutrientsAndFoods_Ok in H as (foods & Hn & Hf & _).
  split.
  - intros i j ri rj id Hi Hj Hki Hkj.
    destruct (forEach_readNutrient_distinct _ _ _ _ _ Hn i ri id Hi Hki) as (_ & _ & Huniq).
    exact (Huniq j rj Hj Hkj).
  - intros i j ri rj ndb Hi Hj Hki Hkj.
    destruct (forEach_readFood_distinct _ _ _ Hf i ri ndb Hi Hki) as (_ & _ & Huniq).
    exact (Huniq j rj Hj Hkj).
Qed.

(** *** What the import asks of the files *)

Lemma readNutrient_reads maps record maps' :
  readNutrient_ maps record = Ok maps' ->
  exists s0 s1 s3,
    record !! 0%nat = Some (String tilde (s0 +:+ String tilde ""))
    /\ record !! 1%nat = Some (String tilde (s1 +:+ String tilde ""))
    /\ record !! 3%nat = Some (String tilde (s3 +:+ String tilde ""))
    /\ is_Some (Atoi s0).
Proof.
  destruct maps as [nutrients names]. unfold readNutrient. intros H.
  apply bind_Ok in H as (r0 & Hr0 & H). apply bind_Ok in H as ([] & Ha0 & H).
  apply bind_Ok in H as (r1 & Hr1 & H). apply bind_Ok in H as ([] & Ha1 & H).
  apply bind_Ok in H as (r3 & Hr3 & H). apply bind_Ok in H as ([] & Ha3 & H).
  apply bind_Ok in H as (s0 & Hs0 & H). apply bind_Ok in H as (id & Hid & H).
  apply bind_Ok in H as (s1 & Hs1 & H).
  apply bind_Ok in H as (s3 & Hs3 & H).
  apply field_Ok in Hr0, Hr1, Hr3. apply orPanic_Ok in Hid.
  exists s0, s1, s3.
  rewrite Hr0, Hr1, Hr3, Hid,
    (twiddled_inv _ _ Ha0 Hs0), (twiddled_inv _ _ Ha1 Hs1), (twiddled_inv _ _ Ha3 Hs3).
  eauto.
Qed.

Lemma readFood_reads foods record foods' :
  readFood_ foods record = Ok foods' ->
  exists s0 s1 s2 a s5 b,
    record !! 0%nat = Some (String tilde (s0 +:+ String tilde ""))
    /\ record !! 1%nat = Some (String tilde (s1 +:+ String tilde ""))
    /\ record !! 2%nat = Some (String tilde (s2 +:+ String tilde ""))
    /\ record !! 5%nat = Some (String a (s5 +:+ String b ""))
    /\ is_Some (Atoi s0).
Proof.
  unfold readFood. intros H.
  apply bind_Ok in H as (r0 & Hr0 & H). apply bind_Ok in H as ([] & Ha0 & H).
  apply bind_Ok in H as (r1 & Hr1 & H). apply bind_Ok in H as ([] & Ha1 & H).
  apply bind_Ok in H as (r2 & Hr2 & H). apply bind_Ok in H as ([] & Ha2 & H).
  apply bind_Ok in H as (s0 & Hs0 & H). apply bind_Ok in H as (ndb & Hndb & H).
  apply bind_Ok in H as (s1 & Hs1 & H).
  apply bind_Ok in H as (s2 & Hs2 & H).
  apply bind_Ok in H as (r5 & Hr5 & H).
  apply bind_Ok in H as (s5 & Hs5 & H).
  apply field_Ok in Hr0, Hr1, Hr2, Hr5. apply orPanic_Ok in Hndb.
  apply stripTwiddles_Ok_inv in Hs5 as (a & b & ->).
  exists s0, s1, s2, a, s5, b.
  rewrite Hr0, Hr1, Hr2, Hr5, Hndb,
    (twiddled_inv _ _ Ha0 Hs0), (twiddled_inv _ _ Ha1 Hs1), (twiddled_inv _ _ Ha2 Hs2).
  eauto 6.
Qed.

Lemma readAmount_reads allNutrients foods record foods' :
  readAmount_ allNutrients foods record = Ok foods' ->
  exists s0 s1 r2 r3,
    record !! 0%nat = Some (String tilde (s0 +:+ String tilde ""))
    /\ record !! 1%nat = Some (String tilde (s1 +:+ String tilde ""))
    /\ record !! 2%nat = Some r2
    /\ record !! 3%nat = Some r3
    /\ is_Some (Atoi s0) /\ is_Some (Atoi s1)
    /\ is_Some (ParseFloat r2) /\ is_Some (Atoi r3).
Proof.
  unfold readAmount. intros H.
  apply bind_Ok in H as (r0 & Hr0 & H). apply bind_Ok in H as ([] & Ha0 & H).
  apply bind_Ok in H as (r1 & Hr1 & H). apply bind_Ok in H as ([] & Ha1 & H).
  apply bind_Ok in H as (s0 & Hs0 & H). apply bind_Ok in H as (ndb1 & Hndb & H).
  apply bind_Ok in H as (s1 & Hs1 & H). apply bind_Ok in H as (id & Hid & H).
  apply bind_Ok in H as (r2 & Hr2 & H). apply bind_Ok in H as (amount & Hamount & H).
  apply bind_Ok in H as (r3 & Hr3 & H). apply bind_Ok in H as (points & Hpoints & H).
  apply field_Ok in Hr0, Hr1, Hr2, Hr3.
  apply orPanic_Ok in Hndb, Hid, Hamount, Hpoints.
  exists s0, s1, r2, r3.
  rewrite Hr0, Hr1, Hr2, Hr3, Hndb, Hid, Hamount, Hpoints,
    (twiddled_inv _ _ Ha0 Hs0), (twiddled_inv _ _ Ha1 Hs1).
  eauto 10.
Qed.

(** An import that returns has read every line of the three files in
    full, the lines it then leaves out as well: each has the fields the
    loop indexes, tildes around the fields that are asserted, at least
    two bytes in the manufacturer field, and numbers that parse.  Any
    other line is a panic. *)
Theorem import_reads_every_line nutrientDefinitions foodDescriptions foodData
    allNutrients nutrientNameToId allFoods :
  getNutrientsAndFoods Atoi ParseFloat matchesRatio matchesAbbreviation ToLower
    nutrientDefinitions foodDescriptions foodData
  = Ok (allNutrients, nutrientNameToId, allFoods) ->
  (forall record, record ∈ nutrientDefinitions ->
     exists s0 s1 s3,
       record !! 0%nat = Some (String tilde (s0 +:+ String tilde ""))
       /\ record !! 1%nat = Some (String tilde (s1 +:+ String tilde ""))
       /\ record !! 3%nat = Some (String tilde (s3 +:+ String tilde ""))
       /\ is_Some (Atoi s0))
  /\ (forall record, record ∈ foodDescriptions ->
        exists s0 s1 s2 a s5 b,
          record !! 0%nat = Some (String tilde (s0 +:+ String tilde ""))
          /\ record !! 1%nat = Some (String tilde (s1 +:+ String tilde ""))
          /\ record !! 2%nat = Some (String tilde (s2 +:+ String tilde ""))
          /\ record !! 5%nat = Some (String a (s5 +:+ String b ""))
          /\ is_Some (Atoi s0))
  /\ (forall record, record ∈ foodData ->
        exists s0 s1 r2 r3,
          record !! 0%nat = Some (String tilde (s0 +:+ String tilde ""))
          /\ record !! 1%nat = Some (String tilde (s1 +:+ String tilde ""))
          /\ record !! 2%nat = Some r2
          /\ record !! 3%nat = Some r3
          /\ is_Some (Atoi s0) /\ is_Some (Atoi s1)
          /\ is_Some (ParseFloat r2) /\ is_Some (Atoi r3)).
Proof.
  intros H. apply getNutrientsAndFoods_Ok in H as (foods & Hn & Hf & Ha).
  split; [|split]; intros record Hin.
  - destruct (forEach_each_Ok _ _ _ _ Hn _ Hin) as (s1 & s2 & Hbody).
    exact (readNutrient_reads _ _ _ Hbody).
  - destruct (forEach_each_Ok _ _ _ _ Hf _ Hin) as (s1 & s2 & Hbody).
    exact (readFood_reads _ _ _ Hbody).
  - destruct (forEach_each_Ok _ _ _ _ Ha _ Hin) as (s1 & s2 & Hbody).
    exact (readAmount_reads _ _ _ _ Hbody).
Qed.

End ImportFacts.

(** *** The import of the three small files *)

Lemma sample_import :
  getNutrientsAndFoods sampleAtoi sampleParseFloat sampleRatio sampleAbbreviation
    (fun s => s) sampleNutrientLines sampleFoodLines sampleDataLines
  = Ok (sampleNutrients, sampleNames, sampleFoods).
Proof. vm_compute. reflexivity. Qed.

(** Protein of the small catalog comes from a line of the small file. *)
Lemma import_nutrients_are_kept_lines_witness :
  exists record description,
    record ∈ sampleNutrientLines
    /\ stripped record 0 ≫= sampleAtoi = Some 203
    /\ stripped record 1 = Some (nutrient_units protein)
    /\ stripped record 3 = Some description
    /\ sampleRatio description && negb (sampleAbbreviation description) = false
    /\ nutrient_id protein = 203
    /\ nutrient_description protein
       = if 203 =? 208 then "Energy, kcal"%string
         else if 203 =? 268 then "Energy, kJ"%string
         else description.
Proof.
  refine (proj1 (import_nutrients_are_kept_lines _ _ _ _ _ _ _ _ _ _ _ sample_import
                   203 protein) _).
  vm_compute. reflexivity.
Defined.

Lemma import_names_lead_to_nutrients_witness :
  exists n, sampleNutrients !! 203 = Some n
            /\ nutrient_id n = 203 /\ nutrient_description n = "Protein"%string.
Proof.
  refine (proj1 (import_names_lead_to_nutrients _ _ _ _ _ _ _ _ _ _ _ sample_import)
                "Protein"%string 203 _).
  vm_compute. reflexivity.
Defined.

(** The lentils of the small catalog come from a line of the small
    file. *)
Lemma import_foods_are_accepted_lines_witness :
  exists record,
    record ∈ sampleFoodLines
    /\ stripped record 0 ≫= sampleAtoi = Some 1001
    /\ stripped record 1 = Some "1600"%string
    /\ stripped record 2 = Some "Lentils, raw"%string
    /\ stripped record 5 = Some ""%string
    /\ excludedGroup "1600" = false
    /\ excludedDescription (fun s => s) "Lentils, raw" = false
    /\ ""%string <> "Campbell Soup Co."%string.
Proof.
  refine (proj1 (import_foods_are_accepted_lines _ _ _ _ _ _ _ _ _ _ _ sample_import
                   1001 "1600"%string "Lentils, raw"%string ""%string) _).
  exists sampleFood. vm_compute. auto.
Defined.

Lemma import_leaves_out_witness :
  (foodGroup sampleFood ∉ excludedGroups)
  /\ (forall lower part front back,
        (lower, part) ∈ excludedParts ->
        (if lower : bool then food_description sampleFood else food_description sampleFood)
        <> front +:+ part +:+ back)
  /\ manufacturer sampleFood <> "Campbell Soup Co."%string.
Proof.
  refine (import_leaves_out _ _ _ _ (fun s => s) _ _ _ _ _ _ sample_import
            1001 sampleFood _).
  vm_compute. reflexivity.
Defined.

Lemma import_nutrient_lists_witness :
  food_id sampleFood = 1001
  /\ nutrients sampleFood
     = omap (entryOf sampleAtoi sampleParseFloat sampleNutrients 1001) sampleDataLines
  /\ forall n, n ∈ nutrients sampleFood ->
               sampleNutrients !! nutrient_id (nutrient n) = Some (nutrient n).
Proof.
  refine (import_nutrient_lists _ _ _ _ _ _ _ _ _ _ _ sample_import 1001 sampleFood _).
  vm_compute. reflexivity.
Defined.

(** The new recipe of the small catalog has a total for protein. *)
Lemma imported_catalog_totals_witness :
  is_Some (nutrientTotals sampleEmpty !! 203) <-> is_Some (sampleNutrients !! 203).
Proof.
  refine (imported_catalog_totals _ _ _ _ _ _ _ _ _ _ _ sampleEmpty sample_import _ 203).
  apply built_new. vm_compute. reflexivity.
Defined.

(** The first line of the small nutrient file has its three fields
    between tildes. *)
Lemma import_reads_every_line_witness :
  exists s0 s1 s3,
    [ "~203~"; "~g~"; "~PROCNT~"; "~Protein~"; "~2~"; "~600~" ]%string !! 0%nat
    = Some (String tilde (s0 +:+ String tilde ""))
    /\ [ "~203~"; "~g~"; "~PROCNT~"; "~Protein~"; "~2~"; "~600~" ]%string !! 1%nat
       = Some (String tilde (s1 +:+ String tilde ""))
    /\ [ "~203~"; "~g~"; "~PROCNT~"; "~Protein~"; "~2~"; "~600~" ]%string !! 3%nat
       = Some (String tilde (s3 +:+ String tilde ""))
    /\ is_Some (sampleAtoi s0).
Proof.
  refine (proj1 (import_reads_every_line _ _ _ _ _ _ _ _ _ _ _ sample_import) _ _).
  left.
Defined.

(** The kept lines of the small files have numbers of their own. *)
Lemma import_numbers_are_distinct_witness :
  (forall i j ri rj id,
     sampleNutrientLines !! i = Some ri -> sampleNutrientLines !! j = Some rj ->
     keptNutrientLine sampleAtoi sampleRatio sampleAbbreviation ri id ->
     keptNutrientLine sampleAtoi sampleRatio sampleAbbreviation rj id -> i = j)
  /\ (forall i j ri rj ndb,
        sampleFoodLines !! i = Some ri -> sampleFoodLines !! j = Some rj ->
        keptFoodLine sampleAtoi (fun s => s) ri ndb ->
        keptFoodLine sampleAtoi (fun s => s) rj ndb -> i = j).
Proof.
  exact (import_numbers_are_distinct _ _ _ _ _ _ _ _ _ _ _ sample_import).
Defined.
